(** * pkg5: the directory action, its lifecycle and the content-address path

    A shallow embedding of
      - [src/modules/misc.py]               ([hash_file_name]),
      - [src/modules/actions/directory.py]  ([DirectoryAction]),
    together with the parts of Python's [str] and [posixpath] they call.

    Python exceptions are values of [exn]; code that touches the file system
    runs in a state-and-exception monad over an abstract [Platform], so that
    every statement about error handling holds for every behaviour of the
    operating system.  A small simulated file system, [SimOS], instantiates
    the platform. *)

From Stdlib Require Import ZArith Ascii String List Lia Bool.
From stdpp Require Import base decidable option gmap strings list.

Local Open Scope Z_scope.

(** ** Python strings *)

Module Py.

(** [c in chars] for a character and a string used as a character set. *)
Fixpoint mem (c : ascii) (chars : string) : bool :=
  match chars with
  | EmptyString => false
  | String d r => if Ascii.eqb c d then true else mem c r
  end.

(** [s.lstrip(chars)]: drop the longest prefix made of characters of
    [chars]. *)
Fixpoint lstrip (chars s : string) : string :=
  match s with
  | EmptyString => EmptyString
  | String c r => if mem c chars then lstrip chars r else s
  end.

(** [s.rstrip(chars)]: drop the longest suffix made of characters of
    [chars]. *)
Fixpoint rstrip (chars s : string) : string :=
  match s with
  | EmptyString => EmptyString
  | String c r =>
      match rstrip chars r with
      | EmptyString => if mem c chars then EmptyString else String c EmptyString
      | r' => String c r'
      end
  end.

(** [s.startswith(p)] and [s.endswith(p)]. *)
Fixpoint startswith (s p : string) {struct p} : bool :=
  match p, s with
  | EmptyString, _ => true
  | String _ _, EmptyString => false
  | String d p', String c s' => Ascii.eqb c d && startswith s' p'
  end.

Fixpoint endswith_char (s : string) (d : ascii) : bool :=
  match s with
  | EmptyString => false
  | String c EmptyString => Ascii.eqb c d
  | String _ r => endswith_char r d
  end.

(** [s[i:j]] for non-negative indices: out-of-range bounds are clipped. *)
Definition slice (i j : nat) (s : string) : string :=
  String.substring i (j - i) s.

(** [s.split(d)] for a one-character separator [d]. *)
Fixpoint split (d : ascii) (s : string) : list string :=
  match s with
  | EmptyString => [EmptyString]
  | String c r =>
      if Ascii.eqb c d then EmptyString :: split d r
      else match split d r with
           | [] => [String c EmptyString]
           | w :: ws => String c w :: ws
           end
  end.

(** [d.join(l)]. *)
Fixpoint join (d : string) (l : list string) : string :=
  match l with
  | [] => EmptyString
  | [x] => x
  | x :: r => x +:+ d +:+ join d r
  end.

(** [d * n], the string [d] repeated. *)
Fixpoint repeat (d : string) (n : nat) : string :=
  match n with
  | O => EmptyString
  | S k => d +:+ repeat d k
  end.

Definition is_empty (s : string) : bool :=
  match s with EmptyString => true | _ => false end.

End Py.

(** ** [os.path] on a POSIX platform *)

Module posixpath.

Definition sepc : ascii := "/"%char.
Definition sep : string := "/".

(** One round of the loop of [join(a, *p)]. *)
Definition join_step (path b : string) : string :=
  if Py.startswith b sep then b
  else if Py.is_empty path || Py.endswith_char path sepc then path +:+ b
  else path +:+ sep +:+ b.

Definition join (a : string) (p : list string) : string :=
  fold_left join_step p a.

(** The body of the loop over the components in [normpath]. *)
Definition norm_step (initial_slashes : nat) (new_comps : list string)
    (comp : string) : list string :=
  if bool_decide (comp = "") || bool_decide (comp = ".") then new_comps
  else if negb (bool_decide (comp = ".."))
          || (bool_decide (initial_slashes = O)
              && bool_decide (new_comps = []))
          || (negb (bool_decide (new_comps = []))
              && bool_decide (last new_comps = Some ".."))
       then new_comps ++ [comp]
       else removelast new_comps.

Definition normpath (path : string) : string :=
  if Py.is_empty path then "."
  else
    let initial_slashes :=
      if Py.startswith path "/" then
        if Py.startswith path "//" && negb (Py.startswith path "///")
        then 2%nat else 1%nat
      else O in
    let comps := fold_left (norm_step initial_slashes) (Py.split sepc path) [] in
    let path' := Py.repeat sep initial_slashes +:+ Py.join sep comps in
    if Py.is_empty path' then "." else path'.

(** [basename(p)] is [p[p.rfind('/') + 1:]]: what follows the last
    separator. *)
Fixpoint basename (p : string) : string :=
  match p with
  | EmptyString => EmptyString
  | String c r =>
      if Py.mem sepc r then basename r
      else if Ascii.eqb c sepc then r else p
  end.

End posixpath.

(** ** [misc.hash_file_name] *)

Definition hash_file_name (f : string) : string :=
  posixpath.join (Py.slice 0 2 f) [Py.slice 2 8 f; f].

(** ** Exceptions and results *)

(** The [errno] values the code names, and the others. *)
Inductive errno : Set :=
  | EPERM | ENOENT | EIO | EACCES | EEXIST | ENOTDIR | EBUSY
  | EROFS | ENOSYS | ENOTEMPTY | EOTHER (code : nat).

#[global] Instance errno_eq_dec : EqDecision errno.
Proof. solve_decision. Defined.

Inductive exn : Type :=
  | OSError (e : errno)
  | TypeError
  | ValueError
  | KeyError (key : string)
  | UnboundLocalError (var : string)
  | InvalidActionError (msg : string)   (* pkg.actions.InvalidActionError *)
  | ActionError (msg : string).         (* what validate raises *)

#[global] Instance exn_eq_dec : EqDecision exn.
Proof. solve_decision. Defined.

Inductive Result (A : Type) : Type :=
  | Ok (a : A)
  | Raise (e : exn).
Arguments Ok {A} a.
Arguments Raise {A} e.

(** ** [int(x, 8)] *)

(** The value of a character between ["0"] (code 48) and ["7"] (code 55). *)
Definition octal_digit (c : ascii) : option Z :=
  let code := Z.of_N (N_of_ascii c) in
  if (48 <=? code) && (code <=? 55) then Some (code - 48) else None.

Fixpoint octal_digits (acc : Z) (s : string) : option Z :=
  match s with
  | EmptyString => Some acc
  | String c r =>
      match octal_digit c with
      | Some d => octal_digits (8 * acc + d) r
      | None => None
      end
  end.

Definition whitespace : string :=
  String " " (String "009" (String "010" (String "011"
    (String "012" (String "013" EmptyString))))).

(** The literal after the blanks are stripped: an optional sign, an optional
    [0o] prefix, then at least one octal digit. *)
Definition octal_literal (s : string) : option Z :=
  let '(neg, body) :=
    match s with
    | String "-" r => (true, r)
    | String "+" r => (false, r)
    | _ => (false, s)
    end in
  let digits :=
    match body with
    | String "0" (String "o" r) => r
    | String "0" (String "O" r) => r
    | _ => body
    end in
  if Py.is_empty digits then None
  else match octal_digits 0 digits with
       | Some n => Some (if neg then - n else n)
       | None => None
       end.

(** [int(x, 8)] where [x] is the outcome of [attrs.get(key, None)]:
    [TypeError] for [None], [ValueError] for a string that is no octal
    literal. *)
Definition int8 (x : option string) : Result Z :=
  match x with
  | None => Raise TypeError
  | Some s =>
      match octal_literal (Py.rstrip whitespace (Py.lstrip whitespace s)) with
      | Some n => Ok n
      | None => Raise ValueError
      end
  end.

(** [stat.S_IWUSR] *)
Definition S_IWUSR : Z := 128.

(** ** The data model *)

Definition Fmri := string.

Record Image := { root : string }.

Record PkgPlan := {
  origin_fmri : option Fmri;
  destination_fmri : option Fmri;
  image : Image
}.

(** A directory action is its attribute dictionary. *)
Record Action := { attrs : gmap string string }.

Definition name : string := "dir".
Definition attributes : list string := ["mode"; "owner"; "group"; "path"].
Definition key_attr : string := "path".
Definition globally_unique : bool := true.

(** An entry of the search dictionary: [(domain, field, token, annotation)]. *)
Definition Index : Type := string * string * string * option string.

(** [DirectoryAction.__init__] (lines 48-55).  [generic.Action.__init__]
    stores the attributes it is given; the path is then stripped of its
    leading separators and must not come out empty. *)
Definition init (raw : gmap string string) : Result Action :=
  let self := {| attrs := raw |} in
  match attrs self !! "path" with
  | Some p =>
      let stripped := Py.lstrip posixpath.sep p in
      let self := {| attrs := <["path" := stripped]> (attrs self) |} in
      if Py.is_empty stripped
      then Raise (InvalidActionError "Empty path attribute")
      else Ok self
  | None => Ok self
  end.

(** [DirectoryAction.generate_indices] (lines 155-165).  [self.attrs["path"]]
    raises [KeyError] when the attribute is absent. *)
Definition generate_indices (self : Action) : Result (list Index) :=
  match attrs self !! "path" with
  | None => Raise (KeyError "path")
  | Some p =>
      Ok [ ("directory", "basename",
            posixpath.basename (Py.rstrip posixpath.sep p), None);
           ("directory", "path", posixpath.sep +:+ p, None) ]
  end.

(** [DirectoryAction.directory_references] (lines 60-61). *)
Definition directory_references (self : Action) : Result (list string) :=
  match attrs self !! "path" with
  | None => Raise (KeyError "path")
  | Some p => Ok [posixpath.normpath p]
  end.

(** ** The state-and-exception monad *)

(** The calls made on the platform, in the order they are made. *)
Inductive Call : Type :=
  | CallMakedirs (path : string) (mode : option Z)
  | CallChmod (path : string) (mode : Z)
  | CallChown (path : string) (uid gid : Z)
  | CallRmdir (path : string)
  | CallSalvagedir (path : string).

#[global] Instance Call_eq_dec : EqDecision Call.
Proof. solve_decision. Defined.

Record State (World : Type) := MkState {
  world : World;
  calls : list Call
}.
Arguments MkState {World} world calls.
Arguments world {World} s.
Arguments calls {World} s.

(** A computation returns or raises, and leaves a state behind either way: an
    exception does not undo what was done to the file system before it. *)
Definition M (World A : Type) : Type := State World -> Result A * State World.

Definition ret {World A} (a : A) : M World A := fun s => (Ok a, s).

Definition raise {World A} (e : exn) : M World A := fun s => (Raise e, s).

Definition bind {World A B} (m : M World A) (k : A -> M World B) : M World B :=
  fun s =>
    match m s with
    | (Ok a, s') => k a s'
    | (Raise e, s') => (Raise e, s')
    end.

(** [try: body / except ..., e: handler e]; a handler re-raises what its
    [except] clause does not name. *)
Definition try_except {World A} (body : M World A) (handler : exn -> M World A)
    : M World A :=
  fun s =>
    match body s with
    | (Ok a, s') => (Ok a, s')
    | (Raise e, s') => handler e s'
    end.

(** A value computed from the world, which it leaves as it is. *)
Definition reads {World A} (f : World -> A) : M World A :=
  fun s => (Ok (f (world s)), s).

(** A fallible computation that reads the world. *)
Definition checks {World A} (f : World -> Result A) : M World A :=
  fun s => (f (world s), s).

(** A call on the platform: logged, then run on the world. *)
Definition performs {World A} (c : Call) (f : World -> Result A * World)
    : M World A :=
  fun s =>
    let '(r, w) := f (world s) in
    (r, MkState w (calls s ++ [c])).

Declare Scope py_scope.
Delimit Scope py_scope with py.
Notation "x <- m ;; k" := (bind m (fun x => k))
  (at level 100, m at next level, right associativity) : py_scope.
Notation "m ;;; k" := (bind m (fun _ => k))
  (at level 100, right associativity) : py_scope.

(** ** The platform *)

(** What [directory.py] calls and this repository's sources do not define:
    the [os] and [pkg.portable] calls, the helpers inherited from
    [generic.Action], and the image's salvage entry point. *)
Class Platform (World : Type) := {
  (* portable.is_admin() *)
  is_admin : World -> bool;
  (* os.path.isdir(path) *)
  isdir : string -> World -> bool;
  (* os.rmdir(path) *)
  rmdir : string -> World -> Result unit * World;
  (* os.chmod(path, mode) *)
  chmod : string -> Z -> World -> Result unit * World;
  (* portable.chown(path, owner, group) *)
  chown : string -> Z -> Z -> World -> Result unit * World;
  (* generic.Action.makedirs(path, mode=mode); the mode may be None *)
  makedirs : string -> option Z -> World -> Result unit * World;
  (* generic.Action.validate_fsobj_common(fmri=fmri) *)
  validate_fsobj_common : Action -> option Fmri -> World -> Result unit;
  (* generic.Action.get_fsobj_uid_gid(pkgplan, fmri) *)
  get_fsobj_uid_gid : Action -> PkgPlan -> option Fmri -> World -> Result (Z * Z);
  (* pkgplan.image.salvagedir(path) *)
  salvagedir : Image -> string -> World -> Result unit * World
}.

(** ** [DirectoryAction]: the methods that touch the image *)

(** What lines 76-84 of [install] bind when there is a prior action: [omode]
    ([None] when left unbound), [oowner] and [ogroup]. *)
Abbreviation Prior := (option Z * Z * Z)%type.

Section DirectoryAction.

Context {World : Type} `{Platform World}.

Local Open Scope py_scope.

Abbreviation M := (M World).

(** [self.attrs[key]] *)
Definition getitem (self : Action) (key : string) : M string :=
  match attrs self !! key with
  | Some v => ret v
  | None => raise (KeyError key)
  end.

(** [DirectoryAction.validate] (lines 167-178). *)
Definition validate (self : Action) (fmri : option Fmri) : M unit :=
  checks (validate_fsobj_common self fmri).

(** Lines 66-72, and 77-82 for the prior action:
[[
    try:
            mode = int(self.attrs.get("mode", None), 8)
    except (TypeError, ValueError):
            self.validate(fmri=...)
]]
    The result is the variable afterwards, [None] when the assignment did
    not happen. *)
Definition parse_mode (self : Action) (fmri : option Fmri) : M (option Z) :=
  try_except
    (mode <- checks (fun _ => int8 (attrs self !! "mode")) ;; ret (Some mode))
    (fun e =>
       match e with
       | TypeError | ValueError => validate self fmri ;;; ret None
       | _ => raise e
       end).


Definition resolve_orig (pkgplan : PkgPlan) (orig : option Action)
    : M (option Prior) :=
  match orig with
  | Some o =>
      omode <- parse_mode o (origin_fmri pkgplan) ;;
      og <- checks (get_fsobj_uid_gid o pkgplan (origin_fmri pkgplan)) ;;
      ret (Some (omode, fst og, snd og))
  | None => ret None
  end.

(** Lines 86-87: the absolute path of the directory in the image. *)
Definition install_path (self : Action) (pkgplan : PkgPlan) : M string :=
  p <- getitem self "path" ;;
  ret (posixpath.normpath (Py.join posixpath.sep [root (image pkgplan); p])).

(** Lines 90-91: [if not portable.is_admin(): mode |= stat.S_IWUSR]. *)
Definition force_write (mode : option Z) : M (option Z) :=
  admin <- reads is_admin ;;
  if negb admin then
    match mode with
    | Some m => ret (Some (Z.lor m S_IWUSR))
    | None => raise TypeError
    end
  else ret mode.

(** Lines 93-119: create the directory, or change the mode of the one the
    prior action delivered.  The result is [false] when line 102 returns from
    [install], [true] when control reaches line 121. *)
Definition place (path : string) (mode : option Z) (prior : option Prior)
    : M bool :=
  match prior with
  | None =>
      try_except
        (performs (CallMakedirs path mode) (makedirs path mode) ;;; ret true)
        (fun e =>
           match e with
           | OSError en =>
               if bool_decide (en = EROFS) then
                 d <- reads (isdir path) ;;
                 if d then ret false else raise e
               else if bool_decide (en <> EEXIST) then raise e
               else ret true
           | _ => raise e
           end)
  | Some (omode, _, _) =>
      match omode with
      | None => raise (UnboundLocalError "omode")
      | Some om =>
          if bool_decide (mode <> Some om) then
            match mode with
            | Some m => performs (CallChmod path m) (chmod path m) ;;; ret true
            | None => raise TypeError
            end
          else ret true
      end
  end.

(** Lines 121-127: set the ownership where it is new or has changed. *)
Definition own (path : string) (owner group : Z) (prior : option Prior)
    : M unit :=
  if match prior with
     | None => true
     | Some (_, oowner, ogroup) =>
         bool_decide (oowner <> owner) || bool_decide (ogroup <> group)
     end
  then
    try_except
      (performs (CallChown path owner group) (chown path owner group))
      (fun e =>
         match e with
         | OSError en =>
             if bool_decide (en <> EPERM) && bool_decide (en <> ENOSYS)
             then raise e else ret tt
         | _ => raise e
         end)
  else ret tt.

(** [DirectoryAction.install] (lines 63-127). *)
Definition install (self : Action) (pkgplan : PkgPlan) (orig : option Action)
    : M unit :=
  mode <- parse_mode self (destination_fmri pkgplan) ;;
  og <- checks (get_fsobj_uid_gid self pkgplan (destination_fmri pkgplan)) ;;
  let '(owner, group) := og in
  prior <- resolve_orig pkgplan orig ;;
  path <- install_path self pkgplan ;;
  mode <- force_write mode ;;
  continue <- place path mode prior ;;
  if continue then own path owner group prior else ret tt.

(** [DirectoryAction.remove] (lines 138-153). *)
Definition remove (self : Action) (pkgplan : PkgPlan) : M unit :=
  p <- getitem self "path" ;;
  let localpath := posixpath.normpath p in
  let path := posixpath.normpath
                (Py.join posixpath.sep [root (image pkgplan); localpath]) in
  try_except
    (performs (CallRmdir path) (rmdir path))
    (fun e =>
       match e with
       | OSError en =>
           if bool_decide (en = ENOENT) then ret tt
           else if bool_decide (en = EEXIST) || bool_decide (en = ENOTEMPTY)
           then performs (CallSalvagedir localpath)
                  (salvagedir (image pkgplan) localpath)
           else if bool_decide (en <> EACCES) then raise e
           else ret tt
       | _ => raise e
       end).

End DirectoryAction.

(** ** A simulated platform *)

Module SimOS.

Inductive Kind : Set := Directory | Regular.

#[global] Instance Kind_eq_dec : EqDecision Kind.
Proof. solve_decision. Defined.

Record Inode := {
  kind : Kind;
  mode : Z;
  uid : Z;
  gid : Z
}.

Inductive Syscall : Set := SysMkdir | SysRmdir | SysChmod | SysChown.

#[global] Instance Syscall_eq_dec : EqDecision Syscall.
Proof. solve_decision. Defined.

Record World := {
  (* the objects of the file system, by absolute path *)
  fs : gmap string Inode;
  (* the credentials of the process *)
  euid : Z;
  egid : Z;
  (* the file system is mounted read-only *)
  read_only : bool;
  (* the image's user and group databases *)
  passwd : gmap string Z;
  groups : gmap string Z;
  (* a failure the platform reports for a call on a path, whatever the
     state of the file system *)
  fault : Syscall -> string -> option errno;
  (* the paths handed to the salvage area, oldest first *)
  salvaged : list string
}.

Definition with_fs (w : World) (f : gmap string Inode) : World :=
  {| fs := f; euid := euid w; egid := egid w; read_only := read_only w;
     passwd := passwd w; groups := groups w; fault := fault w;
     salvaged := salvaged w |}.

Definition os_error {A} (e : errno) (w : World) : Result A * World :=
  (Raise (OSError e), w).

(** Modelled from the spec: [portable.is_admin], of [pkg.portable], which
    the sources do not include.  "The caller lacks administrative privilege"
    unless the process runs as the superuser. *)
Definition admin (w : World) : bool := bool_decide (euid w = 0).

Definition os_isdir (p : string) (w : World) : bool :=
  match fs w !! p with
  | Some i => bool_decide (kind i = Directory)
  | None => false
  end.

(** Some object lies below the directory [p]. *)
Definition has_entries (p : string) (f : gmap string Inode) : bool :=
  existsb (fun kv => Py.startswith (fst kv) (p +:+ posixpath.sep))
    (map_to_list f).

Definition os_rmdir (p : string) (w : World) : Result unit * World :=
  match fault w SysRmdir p with
  | Some e => os_error e w
  | None =>
      match fs w !! p with
      | None => os_error ENOENT w
      | Some i =>
          if bool_decide (kind i <> Directory) then os_error ENOTDIR w
          else if has_entries p (fs w) then os_error ENOTEMPTY w
          else if read_only w then os_error EROFS w
          else (Ok tt, with_fs w (delete p (fs w)))
      end
  end.

Definition os_chmod (p : string) (m : Z) (w : World) : Result unit * World :=
  match fault w SysChmod p with
  | Some e => os_error e w
  | None =>
      match fs w !! p with
      | None => os_error ENOENT w
      | Some i =>
          if read_only w then os_error EROFS w
          else if negb (admin w) && bool_decide (uid i <> euid w)
          then os_error EPERM w
          else (Ok tt, with_fs w (<[p := {| kind := kind i; mode := m;
                                          uid := uid i; gid := gid i |}]> (fs w)))
      end
  end.

(** Modelled from the spec: [portable.chown], of [pkg.portable], which the
    sources do not include.  Setting the ownership is "not permitted" to a
    caller without privilege who asks for a change; a platform without
    ownership answers "not supported" through [fault]. *)
Definition os_chown (p : string) (u g : Z) (w : World) : Result unit * World :=
  match fault w SysChown p with
  | Some e => os_error e w
  | None =>
      match fs w !! p with
      | None => os_error ENOENT w
      | Some i =>
          if read_only w then os_error EROFS w
          else if negb (admin w)
                  && negb (bool_decide (uid i = u) && bool_decide (gid i = g))
          then os_error EPERM w
          else (Ok tt, with_fs w (<[p := {| kind := kind i; mode := mode i;
                                          uid := u; gid := g |}]> (fs w)))
      end
  end.

(** The paths of the directories above [p], outermost first: the prefixes of
    [p] that end before a separator. *)
Fixpoint prefixes (acc : string) (comps : list string) : list string :=
  match comps with
  | [] => []
  | [_] => []
  | c :: r =>
      let a := acc +:+ c in
      (if Py.is_empty a then [] else [a]) ++ prefixes (a +:+ posixpath.sep) r
  end.

Definition parents (p : string) : list string :=
  prefixes "" (Py.split posixpath.sepc p).

Definition mkdir_missing (i : Inode) (f : gmap string Inode) (p : string)
    : gmap string Inode :=
  match f !! p with
  | Some _ => f
  | None => <[p := i]> f
  end.

(** Modelled from the spec: [generic.Action.makedirs], which [generic.py]
    defines and the sources do not include.  "Attempt directory creation
    (including intermediate directories)", with an "already exists" outcome
    for a path that is there and a "read-only filesystem" outcome on a
    read-only file system, whether or not the directory exists.  The new
    directories belong to the process; a mode that is not an integer is
    refused as [os.mkdir] refuses it. *)
Definition Action_makedirs (p : string) (mode : option Z) (w : World)
    : Result unit * World :=
  match mode with
  | None => (Raise TypeError, w)
  | Some m =>
      match fault w SysMkdir p with
      | Some e => os_error e w
      | None =>
          if read_only w then os_error EROFS w
          else if bool_decide (is_Some (fs w !! p)) then os_error EEXIST w
          else if existsb (fun a => match fs w !! a with
                                    | Some i => bool_decide (kind i = Regular)
                                    | None => false
                                    end) (parents p)
          then os_error ENOTDIR w
          else
            let i := {| kind := Directory; mode := m;
                        uid := euid w; gid := egid w |} in
            (Ok tt, with_fs w (<[p := i]> (fold_left (mkdir_missing i)
                                             (parents p) (fs w))))
      end
  end.

(** Modelled from the spec: [generic.Action.get_fsobj_uid_gid].  "Resolve
    numeric owner/group via the Image's object-ownership policy": the names
    in the [owner] and [group] attributes are looked up in the image's
    databases. *)
Definition Action_get_fsobj_uid_gid (a : Action) (_ : PkgPlan)
    (_ : option Fmri) (w : World) : Result (Z * Z) :=
  match attrs a !! "owner", attrs a !! "group" with
  | Some o, Some g =>
      match passwd w !! o, groups w !! g with
      | Some u, Some gi => Ok (u, gi)
      | _, _ => Raise (ActionError "owner or group does not resolve")
      end
  | None, _ => Raise (KeyError "owner")
  | _, None => Raise (KeyError "group")
  end.

(** Modelled from the spec: [generic.Action.validate_fsobj_common].
    "Confirms mode parses as octal, confirms owner/group resolve." *)
Definition Action_validate_fsobj_common (a : Action) (fmri : option Fmri)
    (w : World) : Result unit :=
  match int8 (attrs a !! "mode") with
  | Raise _ => Raise (ActionError "mode is required; value must be octal")
  | Ok _ =>
      match attrs a !! "owner", attrs a !! "group" with
      | Some o, Some g =>
          if bool_decide (is_Some (passwd w !! o))
             && bool_decide (is_Some (groups w !! g))
          then Ok tt
          else Raise (ActionError "owner or group does not resolve")
      | _, _ => Raise (ActionError "owner and group are required")
      end
  end.

(** Modelled from the spec: [image.salvagedir], the entry point of the
    Salvage Subsystem, an external collaborator.  The hand-over is recorded;
    the objects stay in the file system, their relocation being the
    subsystem's business. *)
Definition Image_salvagedir (_ : Image) (p : string) (w : World)
    : Result unit * World :=
  (Ok tt, {| fs := fs w; euid := euid w; egid := egid w;
             read_only := read_only w; passwd := passwd w;
             groups := groups w; fault := fault w;
             salvaged := salvaged w ++ [p] |}).

(** What [os.lstat] tells of an object: its mode, owner and group. *)
Definition stat (p : string) (w : World) : option (Z * Z * Z) :=
  match fs w !! p with
  | Some i => Some (mode i, uid i, gid i)
  | None => None
  end.

Definition no_fault : Syscall -> string -> option errno := fun _ _ => None.

End SimOS.

#[global] Instance SimPlatform : Platform SimOS.World := {|
  is_admin := SimOS.admin;
  isdir := SimOS.os_isdir;
  rmdir := SimOS.os_rmdir;
  chmod := SimOS.os_chmod;
  chown := SimOS.os_chown;
  makedirs := SimOS.Action_makedirs;
  validate_fsobj_common := SimOS.Action_validate_fsobj_common;
  get_fsobj_uid_gid := SimOS.Action_get_fsobj_uid_gid;
  salvagedir := SimOS.Image_salvagedir
|}.

(** A state with an empty log. *)
Definition start {World} (w : World) : State World := MkState w [].

(** ** Statements to compare the code with *)

(** The content-address path written out: [hash[0:2] / hash[2:8] / hash],
    the three parts separated by the path separator. *)
Definition sharded (hash : string) : string :=
  Py.slice 0 2 hash +:+ posixpath.sep +:+ Py.slice 2 8 hash
    +:+ posixpath.sep +:+ hash.

(** The character at a position is not the path separator. *)
Definition not_sep_at (i : nat) (s : string) : Prop :=
  String.get i s <> Some posixpath.sepc.

(** A raw path with exactly one leading separator stripped, when it has
    one. *)
Definition strip_one_sep (raw : string) : string :=
  match raw with
  | String c r => if Ascii.eqb c posixpath.sepc then r else raw
  | EmptyString => raw
  end.

(** The absolute path, in the image of a plan, of an image-relative path. *)
Definition image_path (pkgplan : PkgPlan) (p : string) : string :=
  posixpath.normpath (Py.join posixpath.sep [root (image pkgplan); p]).

(** There is no prior action, or its resolved owner or group is not the one
    to install. *)
Definition ownership_is_new (prior : option Prior)
    (owner group : Z) : Prop :=
  prior = None
  \/ exists omode oowner ogroup,
       prior = Some (omode, oowner, ogroup)
       /\ (oowner <> owner \/ ogroup <> group).

(** The calls an operation adds to the log of a state. *)
Definition calls_since {World} (s s' : State World) (l : list Call) : Prop :=
  calls s' = calls s ++ l.

Section Statements.

Context {World : Type} `{Platform World}.

(** The mode [install] works with once the privilege is taken into account:
    the parsed mode, with the owner's write bit set unless the caller is an
    administrator. *)
Definition effective_mode (w : World) (m : Z) : Z :=
  if is_admin w then m else Z.lor m S_IWUSR.

(** C4 as the specification words it: after an "access denied" from the
    removal, the call succeeds and the path has been handed to the salvage
    subsystem, as for a directory that is not empty. *)
Definition eacces_routed_to_salvage (self : Action) (pkgplan : PkgPlan)
    (s : State World) : Prop :=
  forall p w',
    attrs self !! "path" = Some p ->
    rmdir (image_path pkgplan (posixpath.normpath p)) (world s)
      = (Raise (OSError EACCES), w') ->
    fst (remove self pkgplan s) = Ok tt
    /\ In (CallSalvagedir (posixpath.normpath p))
          (calls (snd (remove self pkgplan s))).

(** C5 as the specification words it: without administrative privilege the
    owner-write bit goes into the mode used for creation only, so a mode
    applied to an existing directory on the update path is the parsed mode
    as it is. *)
Definition write_bit_at_creation_only (self : Action) (pkgplan : PkgPlan)
    (orig : option Action) (s : State World) : Prop :=
  is_admin (world s) = false ->
  forall m, int8 (attrs self !! "mode") = Ok m ->
  forall l, calls_since s (snd (install self pkgplan orig s)) l ->
  forall p mode, In (CallChmod p mode) l -> mode = m.

(** C6 as the specification words it: an [install] that returns has set the
    ownership exactly when there is no prior action or the resolved owner or
    group differs from the prior action's. *)
Definition ownership_set_exactly_when_new (self : Action) (pkgplan : PkgPlan)
    (orig : option Action) (s : State World) : Prop :=
  forall owner group prior l,
    get_fsobj_uid_gid self pkgplan (destination_fmri pkgplan) (world s)
      = Ok (owner, group) ->
    resolve_orig pkgplan orig s = (Ok prior, s) ->
    fst (install self pkgplan orig s) = Ok tt ->
    calls_since s (snd (install self pkgplan orig s)) l ->
    ((exists p, In (CallChown p owner group) l)
     <-> ownership_is_new prior owner group).

End Statements.

(** ** Sample images *)

Module Sample.

Definition dir (m u g : Z) : SimOS.Inode :=
  {| SimOS.kind := SimOS.Directory; SimOS.mode := m;
     SimOS.uid := u; SimOS.gid := g |}.

Definition file (m u g : Z) : SimOS.Inode :=
  {| SimOS.kind := SimOS.Regular; SimOS.mode := m;
     SimOS.uid := u; SimOS.gid := g |}.

Definition plan : PkgPlan :=
  {| origin_fmri := Some "pkg:/example@1.0";
     destination_fmri := Some "pkg:/example@1.1";
     image := {| root := "/img" |} |}.

(** [dir mode=0555 owner=joe group=staff path=usr] *)
Definition usr : Action :=
  {| attrs := {[ "path" := "usr"; "mode" := "0555";
                 "owner" := "joe"; "group" := "staff" ]} |}.

(** [dir owner=joe group=staff path=usr], the mode missing. *)
Definition usr_no_mode : Action :=
  {| attrs := {[ "path" := "usr"; "owner" := "joe"; "group" := "staff" ]} |}.

(** An image that holds [usr] with a file in it, the process being user
    [euid] and the platform reporting [fault]. *)
Definition world (euid : Z) (read_only : bool)
    (fault : SimOS.Syscall -> string -> option errno) : SimOS.World :=
  {| SimOS.fs := {[ "/img" := dir 493 0 0;
                    "/img/usr" := dir 365 100 10;
                    "/img/usr/notes.txt" := file 420 100 10 ]};
     SimOS.euid := euid; SimOS.egid := 10;
     SimOS.read_only := read_only;
     SimOS.passwd := {[ "root" := 0; "joe" := 100 ]};
     SimOS.groups := {[ "bin" := 2; "staff" := 10 ]};
     SimOS.fault := fault;
     SimOS.salvaged := [] |}.

(** An image with nothing in it yet. *)
Definition empty_world (euid : Z)
    (fault : SimOS.Syscall -> string -> option errno) : SimOS.World :=
  {| SimOS.fs := {[ "/img" := dir 493 0 0 ]};
     SimOS.euid := euid; SimOS.egid := 10;
     SimOS.read_only := false;
     SimOS.passwd := {[ "root" := 0; "joe" := 100 ]};
     SimOS.groups := {[ "bin" := 2; "staff" := 10 ]};
     SimOS.fault := fault;
     SimOS.salvaged := [] |}.

(** The platform reports [e] for every call of [sys]. *)
Definition failing (sys : SimOS.Syscall) (e : errno)
    : SimOS.Syscall -> string -> option errno :=
  fun sys' _ => if bool_decide (sys' = sys) then Some e else None.

(** [usr] with a file in it, seen by an administrator. *)
Definition populated : SimOS.World := world 0 false SimOS.no_fault.

(** The same, on a platform that answers "access denied" to [rmdir]. *)
Definition denying : SimOS.World := world 0 false (failing SimOS.SysRmdir EACCES).

(** The same, mounted read-only. *)
Definition frozen : SimOS.World := world 0 true SimOS.no_fault.

(** The same, seen by the user [joe]. *)
Definition unprivileged : SimOS.World := world 100 false SimOS.no_fault.

(** An empty image, seen by an administrator. *)
Definition fresh : SimOS.World := empty_world 0 SimOS.no_fault.

(** An empty image, seen by [joe] on a platform without [chown]. *)
Definition ownerless : SimOS.World :=
  empty_world 100 (failing SimOS.SysChown ENOSYS).

End Sample.


(** ** [DirectoryAction.compare] *)

(** [cmp(a, b)] on two [str]: the order of the first byte that differs, a
    proper prefix coming first. *)
Definition cmp (a b : string) : Z :=
  match String.compare a b with
  | Lt => -1
  | Eq => 0
  | Gt => 1
  end.

(** [DirectoryAction.compare] (lines 57-58). *)
Definition compare (self other : Action) : Result Z :=
  match attrs self !! "path" with
  | None => Raise (KeyError "path")
  | Some p =>
      match attrs other !! "path" with
      | None => Raise (KeyError "path")
      | Some q => Ok (cmp p q)
      end
  end.

(** ** Statements about normalized paths *)

(** The components [normpath] keeps as names: neither empty nor [.]. *)
Definition clean (l : list string) : Prop :=
  forall x, In x l -> x <> "" /\ x <> ".".

(** The components of a path as [normpath] leaves them. *)
Definition norm_comps (initial_slashes : nat) (path : string) : list string :=
  fold_left (posixpath.norm_step initial_slashes)
    (Py.split posixpath.sepc path) [].

(** A log without new calls. *)
Ltac no_call :=
  exists [], []; split; [cbn; rewrite app_nil_r; reflexivity|];
  split; left; reflexivity.

(** The count [normpath] makes of the leading separators: two are kept,
    three or more count as one. *)
Definition initial_slashes (path : string) : nat :=
  if Py.startswith path "/" then
    if Py.startswith path "//" && negb (Py.startswith path "///")
    then 2%nat else 1%nat
  else O.

(** ** More of Python's [str] *)

Module PyStr.

Definition is_space (c : ascii) : bool := Py.mem c whitespace.

(** [s.strip(chars)] *)
Definition strip (chars s : string) : string :=
  Py.rstrip chars (Py.lstrip chars s).

(** [s.split(d, 1)]: split at the first [d], if there is one. *)
Fixpoint split_once (d : ascii) (s : string) : list string :=
  match s with
  | EmptyString => [EmptyString]
  | String c r =>
      if Ascii.eqb c d then [EmptyString; r]
      else match split_once d r with
           | [] => [String c EmptyString]
           | w :: ws => String c w :: ws
           end
  end.

(** [s.split(None, n)]: at most [n] splits at runs of blanks; what is left
    after the last split, leading blanks apart, is the last item as it is.
    [items] reads from between two words, [word] from inside one. *)
Fixpoint items (n : nat) (s : string) {struct s} : list string :=
  match s with
  | EmptyString => []
  | String c r =>
      if is_space c then items n r
      else match n with
           | O => [s]
           | S n' => let '(w, rest) := word n' r in String c w :: rest
           end
  end
with word (n : nat) (s : string) {struct s} : string * list string :=
  match s with
  | EmptyString => (EmptyString, [])
  | String c r =>
      if is_space c then (EmptyString, items n r)
      else let '(w, rest) := word n r in (String c w, rest)
  end.

(** [s.split()]: the words of [s]. *)
Definition words (s : string) : list string := items (String.length s) s.

End PyStr.

(** ** [sysvpkg]: System V packages *)

Module sysvpkg.

Inductive Exc : Type :=
  | ValueError (msg : string)   (* raise ValueError(msg) *)
  | UnpackError                 (* the ValueError of an unpacking of the wrong length *)
  | IndexError                  (* list index out of range *)
  | KeyError (key : string)
  | IOError (err : errno).

Inductive Res (A : Type) : Type :=
  | Done (a : A)
  | Fail (e : Exc).
Arguments Done {A} a.
Arguments Fail {A} e.

(** A line of a pkgmap, by the attributes its type gives it. *)
Inductive PkgMapLine : Type :=
  | Info (part : Z) (pathname size chksum modtime : string)
  | File (part : Z) (type klass pathname mode owner group
                     size chksum modtime : string)
  | Device (part : Z) (type klass pathname major minor
                       mode owner group : string)
  | Directory (part : Z) (type klass pathname mode owner group : string)
  | Link (part : Z) (type klass pathname target : string).

(** A value of the pkginfo dictionary: a string, or the list of words of
    the [faspac] entry. *)
Inductive Value : Type :=
  | Str (s : string)
  | Words (l : list string).

(** [Dependency(pkg, on)] of [pkg.dependency]: the two names it is given. *)
Record Dependency := { host_pkg : Value; depends_on : string }.

Definition space : ascii := " "%char.
Definition newline : string := String "010" EmptyString.
Definition quote : string := String "034" EmptyString.

(** [for line in fp: body], stopped by the first exception. *)
Fixpoint for_lines {A} (body : A -> string -> Res A) (fp : list string)
    (acc : A) : Res A :=
  match fp with
  | [] => Done acc
  | line :: rest =>
      match body acc line with
      | Done acc' => for_lines body rest acc'
      | Fail e => Fail e
      end
  end.

(** [len(line) == 0 or line[0] == c] *)
Definition empty_or_starts (c : ascii) (line : string) : bool :=
  match line with
  | EmptyString => true
  | String d _ => Ascii.eqb d c
  end.

Section Parsing.

(** [int(x)] for a [str]; [None] stands for its [ValueError]. *)
Variable int : string -> option Z.

(** [PkgMapLine.__init__] (lines 61-94). *)
Definition PkgMapLine_init (line : string) : Res PkgMapLine :=
  let array := Py.split space line in
  let '(part, array) :=
    match int (hd EmptyString array) with
    | Some n => (n, array)
    | None => (1, "1" :: array)
    end in
  match array with
  | _ :: type :: from2 =>
      if bool_decide (type = "i") then
        match from2 with
        | [pathname; size; chksum; modtime] =>
            Done (Info part pathname size chksum modtime)
        | _ => Fail UnpackError
        end
      else
        match from2 with
        | [] => Fail IndexError
        | klass :: from3 =>
            if bool_decide (type = "f") || bool_decide (type = "e")
               || bool_decide (type = "v") then
              match from3 with
              | [pathname; mode; owner; group; size; chksum; modtime] =>
                  Done (File part type klass pathname mode owner group
                          size chksum modtime)
              | _ => Fail UnpackError
              end
            else if bool_decide (type = "b") || bool_decide (type = "c") then
              match from3 with
              | [pathname; major; minor; mode; owner; group] =>
                  Done (Device part type klass pathname major minor
                          mode owner group)
              | _ => Fail UnpackError
              end
            else if bool_decide (type = "d") || bool_decide (type = "x")
                    || bool_decide (type = "p") then
              match from3 with
              | [pathname; mode; owner; group] =>
                  Done (Directory part type klass pathname mode owner group)
              | _ => Fail UnpackError
              end
            else if bool_decide (type = "l") || bool_decide (type = "s") then
              match from3 with
              | [] => Fail IndexError
              | third :: _ =>
                  match Py.split "=" third with
                  | [pathname; target] =>
                      Done (Link part type klass pathname target)
                  | _ => Fail UnpackError
                  end
              end
            else Fail (ValueError ("Invalid file type: " +:+ type))
        end
  | _ => Fail IndexError
  end.

(** The loop of [readPkgmapFile] (lines 256-267) over the lines of [fp]. *)
Definition readPkgmapFile (fp : list string) : Res (list PkgMapLine) :=
  for_lines
    (fun pkgmap line =>
       let line := Py.rstrip newline line in
       if empty_or_starts "#" line then Done pkgmap
       else if empty_or_starts ":" line then Done pkgmap
       else match PkgMapLine_init line with
            | Done entry => Done (pkgmap ++ [entry])
            | Fail e => Fail e
            end)
    fp [].

End Parsing.

(** The loop of [readPkginfoFile] (lines 228-246) over the lines of [fp]. *)
Definition readPkginfoFile (fp : list string) : Res (gmap string Value) :=
  for_lines
    (fun pkginfo line =>
       let line := Py.rstrip newline (Py.lstrip whitespace line) in
       if Py.is_empty line then Done pkginfo
       else if empty_or_starts "#" line then
         if Py.startswith line "#FASPACD=" then
           Done (<["faspac" := Words (PyStr.words (Py.lstrip "#FASPACD=" line))]>
                   pkginfo)
         else Done pkginfo
       else match PyStr.split_once "=" line with
            | [key; val] =>
                Done (<[key := Str (PyStr.strip quote val)]>
                        pkginfo)
            | _ => Fail UnpackError
            end)
    fp ∅.

(** [readDependFile] (lines 192-218): [opened] is what opening
    [install/depend] gives, the lines of the file or the [errno] of an
    [IOError]. *)
Definition readDependFile (datastream : bool) (pkginfo : gmap string Value)
    (opened : errno + list string) : Res (list Dependency) :=
  if datastream then Done []
  else
    match opened with
    | inl err =>
        if bool_decide (err = ENOENT) then Done [] else Fail (IOError err)
    | inr fp =>
        for_lines
          (fun deps line =>
             let line := Py.rstrip newline line in
             if empty_or_starts "#" line then Done deps
             else if empty_or_starts "P" line then
               match PyStr.items 2 line with
               | [type; pkg; desc] =>
                   match pkginfo !! "PKG" with
                   | Some name =>
                       Done (deps ++ [{| host_pkg := name; depends_on := pkg |}])
                   | None => Fail (KeyError "PKG")
                   end
               | _ => Fail UnpackError
               end
             else Done deps)
          fp []
    end.

(** A reader of decimal numerals, for the samples: an optional sign and
    digits. *)
Fixpoint decimal_digits (acc : Z) (s : string) : option Z :=
  match s with
  | EmptyString => Some acc
  | String c r =>
      let code := Z.of_N (N_of_ascii c) in
      if (48 <=? code) && (code <=? 57)
      then decimal_digits (10 * acc + (code - 48)) r
      else None
  end.

Definition decimal (s : string) : option Z :=
  match s with
  | EmptyString => None
  | String "-" EmptyString | String "+" EmptyString => None
  | String "-" r => option_map Z.opp (decimal_digits 0 r)
  | String "+" r => decimal_digits 0 r
  | _ => decimal_digits 0 s
  end.

(** The fields a pkgmap line has after its part number, for an entry read
    from it; and the entries whose type letter fits their shape. *)
Definition part_of (e : PkgMapLine) : Z :=
  match e with
  | Info part _ _ _ _ => part
  | File part _ _ _ _ _ _ _ _ _ => part
  | Device part _ _ _ _ _ _ _ _ => part
  | Directory part _ _ _ _ _ _ => part
  | Link part _ _ _ _ => part
  end.

Definition fields (e : PkgMapLine) : list string :=
  match e with
  | Info _ pathname size chksum modtime =>
      ["i"; pathname; size; chksum; modtime]
  | File _ type klass pathname mode owner group size chksum modtime =>
      [type; klass; pathname; mode; owner; group; size; chksum; modtime]
  | Device _ type klass pathname major minor mode owner group =>
      [type; klass; pathname; major; minor; mode; owner; group]
  | Directory _ type klass pathname mode owner group =>
      [type; klass; pathname; mode; owner; group]
  | Link _ type klass pathname target =>
      [type; klass; pathname +:+ "=" +:+ target]
  end.

Definition one_of (letters : list string) (type : string) : bool :=
  existsb (fun l => bool_decide (type = l)) letters.

Definition proper (e : PkgMapLine) : bool :=
  match e with
  | Info _ _ _ _ _ => true
  | File _ type _ _ _ _ _ _ _ _ => one_of ["f"; "e"; "v"] type
  | Device _ type _ _ _ _ _ _ _ => one_of ["b"; "c"] type
  | Directory _ type _ _ _ _ _ => one_of ["d"; "x"; "p"] type
  | Link _ type _ pathname target =>
      one_of ["l"; "s"] type
      && negb (Py.mem "=" pathname) && negb (Py.mem "=" target)
  end.

(** The number of fields that follow the class, by type letter, where the
    line is unpacked into that many names. *)
Definition arity (type : string) : option nat :=
  if one_of ["f"; "e"; "v"] type then Some 7%nat
  else if one_of ["b"; "c"] type then Some 6%nat
  else if one_of ["d"; "x"; "p"] type then Some 4%nat
  else None.

Definition spaceless (l : list string) : Prop :=
  forall x, In x l -> Py.mem space x = false.

(** The lines [readPkgmapFile] passes over. *)
Definition skipped (line : string) : bool :=
  let line := Py.rstrip newline line in
  empty_or_starts "#" line || empty_or_starts ":" line.

(** [r >>= f] on outcomes. *)
Definition and_then {A B} (r : Res A) (f : A -> Res B) : Res B :=
  match r with
  | Done a => f a
  | Fail e => Fail e
  end.

(** Strings without blanks, strings that start a word, and the lines of a
    pkginfo that are neither blank nor comments, by their first character. *)
Fixpoint blank_free (s : string) : bool :=
  match s with
  | EmptyString => true
  | String c r => negb (PyStr.is_space c) && blank_free r
  end.

Definition starts_word (s : string) : bool :=
  match s with
  | EmptyString => false
  | String c _ => negb (PyStr.is_space c)
  end.

Definition plain (line : string) : bool :=
  match line with
  | EmptyString => false
  | String c _ => negb (PyStr.is_space c) && negb (Ascii.eqb c "#")
  end.

Definition letters : list string :=
  ["i"; "f"; "e"; "v"; "b"; "c"; "d"; "x"; "p"; "l"; "s"].

End sysvpkg.

(** ** [flavor/python.py]: the version of python a file is analysed with *)

Module flavor_python.

Inductive Err : Type :=
  | PythonMismatchedVersion (inst_v decl_v lp ip : string)
  | PythonUnspecifiedVersion (lp ip : string).

(** How the function leaves its first part: by [return deps, errs] with no
    dependency, or on to the analysis with the version as two integers. *)
Inductive Decision : Type :=
  | Skip (errs : list Err)
  | Analyze (major minor : Z) (errs : list Err).

(** [\d] and [\d+] at the start of a string: the longest run of digits and
    what follows it. *)
Definition is_digit (c : ascii) : bool :=
  let code := Z.of_N (N_of_ascii c) in (48 <=? code) && (code <=? 57).

Fixpoint take_digits (s : string) : string * string :=
  match s with
  | EmptyString => (EmptyString, EmptyString)
  | String c r =>
      if is_digit c
      then let '(d, rest) := take_digits r in (String c d, rest)
      else (EmptyString, s)
  end.

(** A literal of a pattern at the start of a string: what follows it. *)
Fixpoint literal (p s : string) {struct p} : option string :=
  match p, s with
  | EmptyString, _ => Some s
  | String _ _, EmptyString => None
  | String d p', String c s' => if Ascii.eqb c d then literal p' s' else None
  end.

(** [(?P<major>\d+)\.(?P<minor>\d+)] at the start of a string: the two
    groups and what follows the match. *)
Definition version (s : string) : option (string * string * string) :=
  let '(major, s) := take_digits s in
  if Py.is_empty major then None
  else match literal "." s with
       | None => None
       | Some s =>
           let '(minor, s) := take_digits s in
           if Py.is_empty minor then None else Some (major, minor, s)
       end.

(** [py_lib_re.match(s)] and [py_bin_re.match(s)]: the groups [major] and
    [minor] of the match, if there is one. *)
Definition py_lib_re (s : string) : option (string * string) :=
  match literal "usr/lib/python" s with
  | None => None
  | Some s =>
      match version s with
      | None => None
      | Some (major, minor, s) =>
          match literal "/" s with
          | None => None
          | Some _ => Some (major, minor)
          end
      end
  end.

Definition py_bin_re (s : string) : option (string * string) :=
  match literal "#!" s with
  | None => None
  | Some s =>
      match literal "/usr/bin/python" (Py.lstrip whitespace s) with
      | None => None
      | Some s =>
          match version s with
          | None => None
          | Some (major, minor, _) => Some (major, minor)
          end
      end
  end.

(** [bool(script_path)] for [None] or a string. *)
Definition truthy (script_path : option string) : bool :=
  match script_path with
  | Some (String _ _) => true
  | _ => false
  end.

(** [int(s)] for a run of digits. *)
Fixpoint digits_value (acc : Z) (s : string) : option Z :=
  match s with
  | EmptyString => Some acc
  | String c r =>
      if is_digit c
      then digits_value (10 * acc + (Z.of_N (N_of_ascii c) - 48)) r
      else None
  end.

Definition int (s : string) : Result Z :=
  match s with
  | EmptyString => Raise ValueError
  | _ => match digits_value 0 s with
         | Some n => Ok n
         | None => Raise ValueError
         end
  end.

Section Analysis.

(** The key [PD_LOCAL_PATH] of [pkg.portable]. *)
Variable PD_LOCAL_PATH : string.

(** [process_python_dependencies], from its start to the version the
    analysis is made with (lines 166-225). *)
Definition process_python_dependencies (attrs : gmap string string)
    (script_path : option string) : Result Decision :=
  match attrs !! PD_LOCAL_PATH with
  | None => Raise (KeyError PD_LOCAL_PATH)
  | Some local_file =>
      let executable := truthy script_path in
      match attrs !! "path" with
      | None => Raise (KeyError "path")
      | Some path =>
          let install_match := py_lib_re path in
          let script_match :=
            match script_path with
            | Some (String c r) => py_bin_re (String c r)
            | _ => None
            end in
          let errs :=
            if executable then
              match install_match, script_match with
              | Some (dir_major, dir_minor), Some (file_major, file_minor) =>
                  if negb (bool_decide (file_major = dir_major))
                     || negb (bool_decide (file_minor = dir_minor))
                  then [PythonMismatchedVersion
                          (dir_major +:+ "." +:+ dir_minor)
                          (file_major +:+ "." +:+ file_minor)
                          local_file path]
                  else []
              | _, _ => []
              end
            else [] in
          let '(analysis, errs) :=
            if executable then
              match install_match with
              | Some v => (Some v, errs)
              | None =>
                  match script_match with
                  | Some v => (Some v, errs)
                  | None =>
                      (None, errs ++ [PythonUnspecifiedVersion local_file path])
                  end
              end
            else
              match install_match with
              | Some v => (Some v, errs)
              | None => (None, errs)
              end in
          match analysis with
          | None => Ok (Skip errs)
          | Some (analysis_major, analysis_minor) =>
              match int analysis_major with
              | Raise e => Raise e
              | Ok major =>
                  match int analysis_minor with
                  | Raise e => Raise e
                  | Ok minor => Ok (Analyze major minor errs)
                  end
              end
          end
      end
  end.

End Analysis.

(** The table in the comment of [process_python_dependencies]: whether the
    analysis is made, for a file that is executable or not ([X]), in a
    directory that tells the version or not ([D]), with a first line that
    tells it or not ([F]). *)
Definition table (X D F : bool) : bool :=
  match X, D, F with
  | true, true, true => true
  | true, true, false => true
  | true, false, true => true
  | true, false, false => false
  | false, true, true => true
  | false, true, false => true
  | false, false, true => false
  | false, false, false => false
  end.

Definition analyzed (d : Decision) : bool :=
  match d with
  | Skip _ => false
  | Analyze _ _ _ => true
  end.

Definition errors (d : Decision) : list Err :=
  match d with
  | Skip errs => errs
  | Analyze _ _ errs => errs
  end.

Definition matched {A} (m : option A) : bool :=
  match m with
  | Some _ => true
  | None => false
  end.

(** What the first line is matched against: the script path, when the file
    is executable. *)
Definition first_line (script_path : option string) : option (string * string) :=
  match script_path with
  | Some s => py_bin_re s
  | None => None
  end.

Fixpoint all_digits (s : string) : bool :=
  match s with
  | EmptyString => true
  | String c r => is_digit c && all_digits r
  end.

Fixpoint all_blank (s : string) : bool :=
  match s with
  | EmptyString => true
  | String c r => PyStr.is_space c && all_blank r
  end.

(** A numeral: digits, at least one. *)
Definition numeral (s : string) : bool :=
  negb (Py.is_empty s) && all_digits s.

(** No digit follows: the string is empty or starts with something else. *)
Definition ends_number (s : string) : bool :=
  match s with
  | EmptyString => true
  | String c _ => negb (is_digit c)
  end.

End flavor_python.

(** * Properties *)

(** ** Strings and paths *)

Lemma mem_sep_cons c r :
  Py.mem posixpath.sepc (String c r)
  = Ascii.eqb c posixpath.sepc || Py.mem posixpath.sepc r.
Proof.
  cbn [Py.mem]. rewrite (Ascii.eqb_sym posixpath.sepc c).
  destruct (Ascii.eqb c posixpath.sepc); reflexivity.
Qed.

Lemma startswith_sep c r :
  Py.startswith (String c r) posixpath.sep = Ascii.eqb c posixpath.sepc.
Proof. cbn. apply andb_true_r. Qed.

Lemma lstrip_sep_cons c r :
  Py.lstrip posixpath.sep (String c r)
  = if Ascii.eqb c posixpath.sepc then Py.lstrip posixpath.sep r
    else String c r.
Proof.
  unfold posixpath.sep, posixpath.sepc. cbn [Py.lstrip Py.mem].
  destruct (Ascii.eqb c "/"); reflexivity.
Qed.

Lemma lstrip_sep_repeat n p :
  Py.lstrip posixpath.sep (Py.repeat posixpath.sep n +:+ p)
  = Py.lstrip posixpath.sep p.
Proof. induction n as [|n IH]; [reflexivity | exact IH]. Qed.

Lemma lstrip_sep_id p :
  Py.startswith p posixpath.sep = false -> Py.lstrip posixpath.sep p = p.
Proof.
  destruct p as [|c r]; [reflexivity|].
  rewrite startswith_sep, lstrip_sep_cons. intros ->. reflexivity.
Qed.

Lemma strip_one_sep_repeat n p :
  Py.startswith p posixpath.sep = false ->
  Py.lstrip posixpath.sep (strip_one_sep (Py.repeat posixpath.sep n +:+ p)) = p.
Proof.
  intros Hp. destruct n as [|n].
  - change (Py.repeat posixpath.sep 0 +:+ p) with p.
    destruct p as [|c r]; [reflexivity|].
    rewrite startswith_sep in Hp. unfold strip_one_sep. rewrite Hp.
    rewrite lstrip_sep_cons, Hp. reflexivity.
  - change (strip_one_sep (Py.repeat posixpath.sep (S n) +:+ p))
      with (Py.repeat posixpath.sep n +:+ p).
    rewrite lstrip_sep_repeat. apply lstrip_sep_id, Hp.
Qed.

Lemma is_empty_true s : Py.is_empty s = true <-> s = "".
Proof. destruct s; simpl; split; congruence. Qed.

Lemma is_empty_false s : Py.is_empty s = false <-> s <> "".
Proof. destruct s; simpl; split; congruence. Qed.

Lemma basename_cons c r :
  posixpath.basename (String c r)
  = if Py.mem posixpath.sepc r then posixpath.basename r
    else if Ascii.eqb c posixpath.sepc then r else String c r.
Proof. reflexivity. Qed.

Lemma basename_no_sep s :
  Py.mem posixpath.sepc (posixpath.basename s) = false.
Proof.
  induction s as [|c r IH]; [reflexivity|].
  rewrite basename_cons.
  destruct (Py.mem posixpath.sepc r) eqn:Hr; [exact IH|].
  destruct (Ascii.eqb c posixpath.sepc) eqn:Hc; [exact Hr|].
  rewrite mem_sep_cons, Hc, Hr. reflexivity.
Qed.

Lemma endswith_char_cons c r d :
  r <> "" -> Py.endswith_char (String c r) d = Py.endswith_char r d.
Proof. destruct r; [congruence | reflexivity]. Qed.

(** A path is its directory part, empty or ending in a separator, followed
    by its base name. *)
Lemma basename_split s :
  exists d, s = d +:+ posixpath.basename s
            /\ (d = "" \/ Py.endswith_char d posixpath.sepc = true).
Proof.
  induction s as [|c r IH].
  - exists "". split; [reflexivity | left; reflexivity].
  - rewrite basename_cons. destruct (Py.mem posixpath.sepc r) eqn:Hr.
    + destruct IH as (d & Hd & Hend). exists (String c d). split.
      * change (String c d +:+ posixpath.basename r)
          with (String c (d +:+ posixpath.basename r)).
        f_equal. exact Hd.
      * right. destruct Hend as [-> | Hend].
        -- change ("" +:+ posixpath.basename r) with (posixpath.basename r) in Hd.
           rewrite Hd, basename_no_sep in Hr. discriminate.
        -- rewrite endswith_char_cons; [exact Hend|].
           intros ->. discriminate.
    + destruct (Ascii.eqb c posixpath.sepc) eqn:Hc.
      * exists (String c ""). split; [reflexivity|]. right. exact Hc.
      * exists "". split; [reflexivity | left; reflexivity].
Qed.

Lemma not_sep_eqb (c : ascii) :
  Some c <> Some posixpath.sepc -> Ascii.eqb c "/" = false.
Proof. intros Hc. apply Ascii.eqb_neq. intros ->. apply Hc. reflexivity. Qed.

Lemma join_step_plain path b :
  Py.startswith b posixpath.sep = false ->
  Py.is_empty path = false ->
  Py.endswith_char path posixpath.sepc = false ->
  posixpath.join_step path b = path +:+ posixpath.sep +:+ b.
Proof. unfold posixpath.join_step. intros -> -> ->. reflexivity. Qed.

Lemma substring_0_0 r : String.substring 0 0 r = "".
Proof. destruct r; reflexivity. Qed.

Lemma hash_file_name_sharded f :
  (8 <= String.length f)%nat ->
  not_sep_at 0 f -> not_sep_at 1 f -> not_sep_at 2 f -> not_sep_at 7 f ->
  hash_file_name f = sharded f.
Proof.
  intros Hlen H0 H1 H2 H7.
  destruct f as [|c0 [|c1 [|c2 [|c3 [|c4 [|c5 [|c6 [|c7 r]]]]]]]];
    simpl in Hlen; try lia.
  unfold not_sep_at in *; cbn in H0, H1, H2, H7.
  apply not_sep_eqb in H0, H1, H2, H7.
  unfold hash_file_name, sharded, posixpath.join, Py.slice.
  cbn [fold_left String.substring Nat.sub]. rewrite !substring_0_0.
  rewrite (join_step_plain (String c0 (String c1 ""))).
  - rewrite join_step_plain.
    + reflexivity.
    + cbn. rewrite H0. reflexivity.
    + reflexivity.
    + unfold String.append. cbn. exact H7.
  - cbn. rewrite H2. reflexivity.
  - reflexivity.
  - cbn. exact H1.
Qed.

Lemma sep_free_not_sep_at f i :
  Py.mem posixpath.sepc f = false -> not_sep_at i f.
Proof.
  unfold not_sep_at. revert i. induction f as [|c f IH]; intros i Hf.
  - destruct i; discriminate.
  - rewrite mem_sep_cons in Hf. apply orb_false_iff in Hf.
    destruct Hf as [Hc Hf]. destruct i as [|i]; cbn [String.get].
    + intros [= ->]. rewrite Ascii.eqb_refl in Hc. discriminate.
    + apply IH, Hf.
Qed.

(** C8.  For every hash of at least eight characters, a hash being a string
    that holds no path separator, as every digest is, [hash_file_name]
    returns [hash[0:2] / hash[2:8] / hash] joined with the path separator;
    and [hash_file_name "abcdefghijklmnopqrstuvwxyz"] is
    ["ab/cdefgh/abcdefghijklmnopqrstuvwxyz"]. *)
Theorem hash_file_name_shards : forall f,
  (8 <= String.length f)%nat ->
  Py.mem posixpath.sepc f = false ->
  hash_file_name f = sharded f
  /\ hash_file_name "abcdefghijklmnopqrstuvwxyz"
     = "ab/cdefgh/abcdefghijklmnopqrstuvwxyz".
Proof.
  intros f Hlen Hf. split.
  - apply hash_file_name_sharded; [exact Hlen | | | |];
      apply sep_free_not_sep_at, Hf.
  - reflexivity.
Qed.

Lemma hash_file_name_shards_witness :
  (8 <= String.length "da39a3ee5e6b4b0d3255bfef95601890afd80709")%nat
  /\ Py.mem posixpath.sepc "da39a3ee5e6b4b0d3255bfef95601890afd80709" = false
  /\ hash_file_name "da39a3ee5e6b4b0d3255bfef95601890afd80709"
     = "da/39a3ee/da39a3ee5e6b4b0d3255bfef95601890afd80709".
Proof.
  split; [simpl; lia|]. split; [reflexivity|].
  refine (proj1 (hash_file_name_shards
                   "da39a3ee5e6b4b0d3255bfef95601890afd80709" _ _));
    [simpl; lia | reflexivity].
Defined.

(** ** Construction and the search indices *)

Lemma init_path (rest : gmap string string) (raw : string) :
  init (<["path" := raw]> rest)
  = if Py.is_empty (Py.lstrip posixpath.sep raw)
    then Raise (InvalidActionError "Empty path attribute")
    else Ok {| attrs := <["path" := Py.lstrip posixpath.sep raw]> rest |}.
Proof.
  unfold init. cbn [attrs]. rewrite lookup_insert_eq, insert_insert_eq.
  reflexivity.
Qed.

(** C7.  A raw path is a run of [n >= 0] separators followed by a rest [p]
    that does not start with one.  When [p] is not empty, construction
    succeeds and stores [p]: the same non-empty path, free of leading
    separators, that construction stores for the raw path with exactly one
    leading separator stripped.  When [p] is empty (an empty or all-separator
    raw path), construction fails with [InvalidActionError]. *)
Theorem init_strips_leading_separators :
  forall (rest : gmap string string) (n : nat) (p : string),
  Py.startswith p posixpath.sep = false ->
  (p <> "" ->
     init (<["path" := Py.repeat posixpath.sep n +:+ p]> rest)
       = Ok {| attrs := <["path" := p]> rest |}
     /\ init (<["path" := strip_one_sep (Py.repeat posixpath.sep n +:+ p)]> rest)
        = init (<["path" := Py.repeat posixpath.sep n +:+ p]> rest))
  /\ (p = "" ->
        init (<["path" := Py.repeat posixpath.sep n +:+ p]> rest)
        = Raise (InvalidActionError "Empty path attribute")).
Proof.
  intros rest n p Hp. rewrite !init_path, lstrip_sep_repeat.
  rewrite strip_one_sep_repeat by exact Hp.
  rewrite (lstrip_sep_id p Hp). split.
  - intros Hne. apply is_empty_false in Hne. rewrite Hne. split; reflexivity.
  - intros ->. reflexivity.
Qed.

Lemma init_strips_leading_separators_witness :
  Py.startswith "usr/lib" posixpath.sep = false
  /\ init (<["path" := "///usr/lib"]> {[ "mode" := "0755" ]})
     = Ok {| attrs := <["path" := "usr/lib"]> {[ "mode" := "0755" ]} |}
  /\ init (<["path" := "///"]> {[ "mode" := "0755" ]})
     = Raise (InvalidActionError "Empty path attribute").
Proof.
  split; [reflexivity|]. split.
  - refine (proj1 (proj1 (init_strips_leading_separators
                            {[ "mode" := "0755" ]} 3 "usr/lib" eq_refl) _)).
    discriminate.
  - exact (proj2 (init_strips_leading_separators
                    {[ "mode" := "0755" ]} 3 "" eq_refl) eq_refl).
Defined.

(** C9.  For every directory action (its key attribute [path] present),
    [generate_indices] returns exactly two entries, and these two:
    [("directory", "basename", b, None)] and
    [("directory", "path", "/" + path, None)], where [b] is the base name of
    the path: the part of the path, trailing separators apart, that follows
    its last separator. *)
Theorem generate_indices_exactly_two : forall (self : Action) (p : string),
  attrs self !! "path" = Some p ->
  generate_indices self
    = Ok [ ("directory", "basename",
            posixpath.basename (Py.rstrip posixpath.sep p), None);
           ("directory", "path", posixpath.sep +:+ p, None) ]
  /\ (forall l, generate_indices self = Ok l -> length l = 2%nat)
  /\ Py.mem posixpath.sepc (posixpath.basename (Py.rstrip posixpath.sep p))
     = false
  /\ exists d,
       Py.rstrip posixpath.sep p
         = d +:+ posixpath.basename (Py.rstrip posixpath.sep p)
       /\ (d = "" \/ Py.endswith_char d posixpath.sepc = true).
Proof.
  intros self p Hp.
  unfold generate_indices. rewrite Hp. split; [reflexivity|]. split.
  - intros l Hl. injection Hl as <-. reflexivity.
  - split; [apply basename_no_sep | apply basename_split].
Qed.

Lemma generate_indices_exactly_two_witness :
  attrs {| attrs := {[ "path" := "bin/example_dir" ]} |} !! "path"
    = Some "bin/example_dir"
  /\ generate_indices {| attrs := {[ "path" := "bin/example_dir" ]} |}
     = Ok [ ("directory", "basename", "example_dir", None);
            ("directory", "path", "/bin/example_dir", None) ].
Proof.
  split; [reflexivity|].
  refine (proj1 (generate_indices_exactly_two
                   {| attrs := {[ "path" := "bin/example_dir" ]} |}
                   "bin/example_dir" _)).
  reflexivity.
Defined.

(** ** The lifecycle methods, on every platform *)

Section Lifecycle.

Context {World : Type} `{Platform World}.

Implicit Types (self : Action) (pkgplan : PkgPlan) (s : State World).

Lemma bind_ok {A B} (m : M World A) (k : A -> M World B) s a s' :
  m s = (Ok a, s') -> bind m k s = k a s'.
Proof. unfold bind. intros ->. reflexivity. Qed.

Lemma bind_raise {A B} (m : M World A) (k : A -> M World B) s e s' :
  m s = (Raise e, s') -> bind m k s = (Raise e, s').
Proof. unfold bind. intros ->. reflexivity. Qed.

Lemma performs_run {A} c (f : World -> Result A * World) s r w :
  f (world s) = (r, w) -> performs c f s = (r, MkState w (calls s ++ [c])).
Proof. unfold performs. intros ->. reflexivity. Qed.

Lemma getitem_ok self key v s :
  attrs self !! key = Some v -> getitem self key s = (Ok v, s).
Proof. unfold getitem. intros ->. reflexivity. Qed.

(** What [remove] does, by the outcome of [os.rmdir]. *)
Lemma remove_run self pkgplan p s r w' :
  attrs self !! "path" = Some p ->
  rmdir (image_path pkgplan (posixpath.normpath p)) (world s) = (r, w') ->
  remove self pkgplan s
  = match r with
    | Ok _ =>
        (Ok tt, MkState w' (calls s ++
                  [CallRmdir (image_path pkgplan (posixpath.normpath p))]))
    | Raise e =>
        match e with
        | OSError en =>
            if bool_decide (en = ENOENT) then ret tt
            else if bool_decide (en = EEXIST) || bool_decide (en = ENOTEMPTY)
            then performs (CallSalvagedir (posixpath.normpath p))
                   (salvagedir (image pkgplan) (posixpath.normpath p))
            else if bool_decide (en <> EACCES) then raise e
            else ret tt
        | _ => raise e
        end (MkState w' (calls s ++
               [CallRmdir (image_path pkgplan (posixpath.normpath p))]))
    end.
Proof.
  intros Hp Hrm. unfold remove.
  rewrite (bind_ok _ _ _ _ _ (getitem_ok _ _ _ s Hp)).
  unfold try_except, image_path in *.
  rewrite (performs_run _ _ _ _ _ Hrm).
  destruct r as [[]|e]; reflexivity.
Qed.


(** C4 (as amended).  An "access denied" ([EACCES]) from [os.rmdir] is
    swallowed: [remove] returns normally, and the failed [os.rmdir] is the
    only call it has made.  The path is not handed to the salvage
    subsystem. *)
Theorem remove_swallows_eacces :
  forall self pkgplan p s w',
  attrs self !! "path" = Some p ->
  rmdir (image_path pkgplan (posixpath.normpath p)) (world s)
    = (Raise (OSError EACCES), w') ->
  remove self pkgplan s
  = (Ok tt, MkState w' (calls s ++
              [CallRmdir (image_path pkgplan (posixpath.normpath p))]))
  /\ (forall l, calls_since s (snd (remove self pkgplan s)) l ->
      forall q, ~ In (CallSalvagedir q) l).
Proof.
  intros self pkgplan p s w' Hp Hrm.
  rewrite (remove_run _ _ _ _ _ _ Hp Hrm). split; [reflexivity|].
  unfold calls_since. cbn [snd calls ret]. intros l Hl q.
  apply app_inv_head in Hl. subst l. intros [Hc | []]. discriminate.
Qed.

(** *** The steps of [install] *)

Lemma int8_raises x e : int8 x = Raise e -> e = TypeError \/ e = ValueError.
Proof.
  unfold int8. destruct x as [v|]; [|intros [= <-]; left; reflexivity].
  destruct (octal_literal _); [discriminate|].
  intros [= <-]. right. reflexivity.
Qed.

Lemma parse_mode_ok self fmri s m :
  int8 (attrs self !! "mode") = Ok m ->
  parse_mode self fmri s = (Ok (Some m), s).
Proof.
  intros Hm. unfold parse_mode, try_except, bind, checks, ret.
  rewrite Hm. reflexivity.
Qed.

Lemma parse_mode_invalid self fmri s e :
  int8 (attrs self !! "mode") = Raise e ->
  parse_mode self fmri s
  = match validate_fsobj_common self fmri (world s) with
    | Ok _ => (Ok None, s)
    | Raise ev => (Raise ev, s)
    end.
Proof.
  intros Hm. unfold parse_mode, validate, try_except, bind, checks, ret.
  rewrite Hm.
  destruct (int8_raises _ _ Hm) as [-> | ->];
    destruct (validate_fsobj_common self fmri (world s)); reflexivity.
Qed.

Lemma parse_mode_state self fmri s : snd (parse_mode self fmri s) = s.
Proof.
  destruct (int8 (attrs self !! "mode")) as [m|e] eqn:Hm.
  - rewrite (parse_mode_ok _ _ _ _ Hm). reflexivity.
  - rewrite (parse_mode_invalid _ _ _ _ Hm).
    destruct (validate_fsobj_common self fmri (world s)); reflexivity.
Qed.

Lemma resolve_orig_state pkgplan orig s : snd (resolve_orig pkgplan orig s) = s.
Proof.
  unfold resolve_orig. destruct orig as [o|]; [|reflexivity].
  unfold bind.
  pose proof (parse_mode_state o (origin_fmri pkgplan) s) as Hs.
  destruct (parse_mode o (origin_fmri pkgplan) s) as [[omode|e] s'];
    cbn [snd] in Hs; subst s'; [|reflexivity].
  unfold checks, ret.
  destruct (get_fsobj_uid_gid o pkgplan (origin_fmri pkgplan) (world s));
    reflexivity.
Qed.

Lemma install_path_ok self pkgplan p s :
  attrs self !! "path" = Some p ->
  install_path self pkgplan s = (Ok (image_path pkgplan p), s).
Proof.
  intros Hp. unfold install_path.
  rewrite (bind_ok _ _ _ _ _ (getitem_ok _ _ _ s Hp)). reflexivity.
Qed.

Lemma install_path_state self pkgplan s : snd (install_path self pkgplan s) = s.
Proof.
  unfold install_path, bind, getitem.
  destruct (attrs self !! "path"); reflexivity.
Qed.

Lemma force_write_some m s :
  force_write (Some m) s = (Ok (Some (effective_mode (world s) m)), s).
Proof.
  unfold force_write, bind, reads, effective_mode.
  destruct (is_admin (world s)); reflexivity.
Qed.

Lemma force_write_none s :
  force_write None s
  = if is_admin (world s) then (Ok None, s) else (Raise TypeError, s).
Proof.
  unfold force_write, bind, reads.
  destruct (is_admin (world s)); reflexivity.
Qed.

(** [install] from line 93 on, once the lines before have gone through. *)
Lemma install_run self pkgplan orig s m owner group prior p :
  int8 (attrs self !! "mode") = Ok m ->
  get_fsobj_uid_gid self pkgplan (destination_fmri pkgplan) (world s)
    = Ok (owner, group) ->
  resolve_orig pkgplan orig s = (Ok prior, s) ->
  attrs self !! "path" = Some p ->
  install self pkgplan orig s
  = bind (place (image_path pkgplan p)
            (Some (effective_mode (world s) m)) prior)
      (fun continue =>
         if continue then own (image_path pkgplan p) owner group prior
         else ret tt) s.
Proof.
  intros Hm Hog Hprior Hp. unfold install.
  rewrite (bind_ok _ _ _ _ _ (parse_mode_ok _ _ s _ Hm)).
  erewrite bind_ok by (unfold checks; rewrite Hog; reflexivity).
  cbv beta iota. rewrite (bind_ok _ _ _ _ _ Hprior).
  rewrite (bind_ok _ _ _ _ _ (install_path_ok _ _ _ s Hp)).
  rewrite (bind_ok _ _ _ _ _ (force_write_some m s)).
  reflexivity.
Qed.

(** The creation step, by the outcome of [makedirs]. *)
Lemma place_fresh_run path mode s r w1 :
  makedirs path mode (world s) = (r, w1) ->
  place path mode None s
  = match r with
    | Ok _ => (Ok true, MkState w1 (calls s ++ [CallMakedirs path mode]))
    | Raise e =>
        match e with
        | OSError en =>
            if bool_decide (en = EROFS) then
              if isdir path w1 then ret false else raise e
            else if bool_decide (en <> EEXIST) then raise e
            else ret true
        | _ => raise e
        end (MkState w1 (calls s ++ [CallMakedirs path mode]))
    end.
Proof.
  intros Hmk. unfold place, try_except.
  unfold bind at 1. rewrite (performs_run _ _ _ _ _ Hmk).
  destruct r as [[]|e]; [reflexivity|].
  destruct e as [en| | | | | |]; try reflexivity.
  destruct (bool_decide (en = EROFS)); [|reflexivity].
  unfold bind, reads. cbn [world].
  destruct (isdir path w1); reflexivity.
Qed.

(** The ownership step, by the outcome of [portable.chown]. *)
Lemma own_run path owner group prior s rc w2 :
  ownership_is_new prior owner group ->
  chown path owner group (world s) = (rc, w2) ->
  own path owner group prior s
  = match rc with
    | Ok _ => (Ok tt, MkState w2 (calls s ++ [CallChown path owner group]))
    | Raise e =>
        match e with
        | OSError en =>
            if bool_decide (en <> EPERM) && bool_decide (en <> ENOSYS)
            then raise e else ret tt
        | _ => raise e
        end (MkState w2 (calls s ++ [CallChown path owner group]))
    end.
Proof.
  intros Hnew Hch. unfold own.
  destruct Hnew as [-> | (om & oo & og & -> & Hne)]; cbv beta iota;
    [| assert (bool_decide (oo <> owner) || bool_decide (og <> group) = true)
         as -> by (apply orb_true_iff; rewrite !bool_decide_eq_true;
                   exact Hne)];
    unfold try_except; rewrite (performs_run _ _ _ _ _ Hch);
    destruct rc as [[]|e]; reflexivity.
Qed.

Lemma own_skip path owner group prior s :
  ~ ownership_is_new prior owner group ->
  own path owner group prior s = (Ok tt, s).
Proof.
  intros Hold. unfold own.
  destruct prior as [[[om oo] og]|].
  - destruct (bool_decide (oo <> owner) || bool_decide (og <> group)) eqn:Hc;
      [|reflexivity].
    exfalso. apply Hold. right. exists om, oo, og. split; [reflexivity|].
    apply orb_true_iff in Hc. rewrite !bool_decide_eq_true in Hc. exact Hc.
  - exfalso. apply Hold. left. reflexivity.
Qed.

(** The calls of the two steps that act on the file system. *)
Lemma place_calls path mode prior s :
  exists l,
    calls (snd (place path mode prior s)) = calls s ++ l
    /\ forall c, In c l ->
         c = CallMakedirs path mode
         \/ exists m, mode = Some m /\ c = CallChmod path m.
Proof.
  destruct prior as [[[omode oo] og]|].
  - unfold place. destruct omode as [om|].
    + destruct (bool_decide (mode <> Some om)).
      * destruct mode as [m|].
        -- unfold bind, performs, ret.
           destruct (chmod path m (world s)) as [[[]|e] w];
             (exists [CallChmod path m]; split; [reflexivity|];
              intros c [<- | []]; right; exists m; split; reflexivity).
        -- exists []. split; [cbn; rewrite app_nil_r; reflexivity|].
           intros c [].
      * exists []. split; [cbn; rewrite app_nil_r; reflexivity|].
        intros c [].
    + exists []. split; [cbn; rewrite app_nil_r; reflexivity|]. intros c [].
  - destruct (makedirs path mode (world s)) as [r w1] eqn:Hmk.
    rewrite (place_fresh_run _ _ _ _ _ Hmk).
    exists [CallMakedirs path mode]. split.
    + destruct r as [[]|e]; [reflexivity|].
      destruct e as [en| | | | | |]; try reflexivity.
      destruct (bool_decide (en = EROFS)).
      * destruct (isdir path w1); reflexivity.
      * destruct (bool_decide (en <> EEXIST)); reflexivity.
    + intros c [<- | []]. left. reflexivity.
Qed.

Lemma own_calls path owner group prior s :
  exists l,
    calls (snd (own path owner group prior s)) = calls s ++ l
    /\ forall c, In c l -> c = CallChown path owner group.
Proof.
  unfold own.
  destruct (match prior with
            | Some (_, oowner, ogroup) => _ | None => true end).
  - unfold try_except, performs.
    destruct (chown path owner group (world s)) as [[[]|e] w];
      exists [CallChown path owner group];
      (split; [|intros c [<- | []]; reflexivity]);
      [reflexivity|].
    destruct e as [en| | | | | |]; try reflexivity.
    destruct (bool_decide (en <> EPERM) && bool_decide (en <> ENOSYS));
      reflexivity.
  - exists []. split; [cbn; rewrite app_nil_r; reflexivity|]. intros c [].
Qed.

(** Every call [install] makes, for a mode that parses. *)
Lemma install_calls self pkgplan orig s m :
  int8 (attrs self !! "mode") = Ok m ->
  exists l,
    calls_since s (snd (install self pkgplan orig s)) l
    /\ forall c, In c l ->
         (exists path,
            c = CallMakedirs path (Some (effective_mode (world s) m)))
         \/ (exists path, c = CallChmod path (effective_mode (world s) m))
         \/ (exists path owner group, c = CallChown path owner group).
Proof.
  intros Hm. unfold calls_since, install.
  rewrite (bind_ok _ _ _ _ _ (parse_mode_ok _ _ s _ Hm)).
  assert (Hnone : forall e : exn,
            exists l : list Call,
              calls (snd (@Raise unit e, s)) = calls s ++ l
              /\ forall c, In c l ->
                   (exists path,
                      c = CallMakedirs path (Some (effective_mode (world s) m)))
                   \/ (exists path,
                         c = CallChmod path (effective_mode (world s) m))
                   \/ (exists path owner group,
                         c = CallChown path owner group)).
  { intros e. exists []. split; [cbn; rewrite app_nil_r; reflexivity|].
    intros c []. }
  unfold bind at 1. unfold checks at 1.
  destruct (get_fsobj_uid_gid self pkgplan (destination_fmri pkgplan) (world s))
    as [[owner group]|e]; [|apply Hnone].
  unfold bind at 1.
  pose proof (resolve_orig_state pkgplan orig s) as Hs.
  destruct (resolve_orig pkgplan orig s) as [[prior|e] s0];
    cbn [snd] in Hs; subst s0; [|apply Hnone].
  unfold bind at 1.
  pose proof (install_path_state self pkgplan s) as Hs.
  destruct (install_path self pkgplan s) as [[path|e] s0];
    cbn [snd] in Hs; subst s0; [|apply Hnone].
  rewrite (bind_ok _ _ _ _ _ (force_write_some m s)).
  unfold bind.
  destruct (place_calls path (Some (effective_mode (world s) m)) prior s)
    as (l1 & Hl1 & Hin1).
  destruct (place path (Some (effective_mode (world s) m)) prior s)
    as [[continue|e] s1]; cbn [snd] in Hl1.
  - destruct continue.
    + destruct (own_calls path owner group prior s1) as (l2 & Hl2 & Hin2).
      exists (l1 ++ l2). split.
      * rewrite Hl2, Hl1, app_assoc. reflexivity.
      * intros c Hc. apply in_app_or in Hc. destruct Hc as [Hc | Hc].
        -- destruct (Hin1 c Hc) as [-> | (m' & [= <-] & ->)]; eauto.
        -- rewrite (Hin2 c Hc). eauto 6.
    + exists l1. split; [exact Hl1|].
      intros c Hc.
      destruct (Hin1 c Hc) as [-> | (m' & [= <-] & ->)]; eauto.
  - exists l1. split; [exact Hl1|].
    intros c Hc.
    destruct (Hin1 c Hc) as [-> | (m' & [= <-] & ->)]; eauto.
Qed.

(** *** [install] *)

(** C2.  With no prior action, and once the mode has parsed and the owner
    and group have resolved, [install] calls [makedirs] (which creates the
    intermediate directories too) on the absolute path.  A creation that
    succeeds and one that reports "already exists" ([EEXIST]) are followed
    alike by the ownership step.  A read-only file system ([EROFS]) ends
    [install] normally if [os.path.isdir] finds a directory at the path, and
    is propagated if it finds none.  Every other exception is propagated. *)
Theorem install_creation_outcomes :
  forall self pkgplan s m owner group p r w1,
  int8 (attrs self !! "mode") = Ok m ->
  get_fsobj_uid_gid self pkgplan (destination_fmri pkgplan) (world s)
    = Ok (owner, group) ->
  attrs self !! "path" = Some p ->
  makedirs (image_path pkgplan p) (Some (effective_mode (world s) m)) (world s)
    = (r, w1) ->
  (r = Ok tt \/ r = Raise (OSError EEXIST) ->
     install self pkgplan None s
     = own (image_path pkgplan p) owner group None
         (MkState w1 (calls s ++
            [CallMakedirs (image_path pkgplan p)
               (Some (effective_mode (world s) m))])))
  /\ (r = Raise (OSError EROFS) ->
      (isdir (image_path pkgplan p) w1 = true ->
         install self pkgplan None s
         = (Ok tt, MkState w1 (calls s ++
                     [CallMakedirs (image_path pkgplan p)
                        (Some (effective_mode (world s) m))])))
      /\ (isdir (image_path pkgplan p) w1 = false ->
          install self pkgplan None s
          = (Raise (OSError EROFS),
             MkState w1 (calls s ++
               [CallMakedirs (image_path pkgplan p)
                  (Some (effective_mode (world s) m))]))))
  /\ (forall e, r = Raise e ->
      e <> OSError EEXIST -> e <> OSError EROFS ->
      install self pkgplan None s
      = (Raise e, MkState w1 (calls s ++
                    [CallMakedirs (image_path pkgplan p)
                       (Some (effective_mode (world s) m))]))).
Proof.
  intros self pkgplan s m owner group p r w1 Hm Hog Hp Hmk.
  rewrite (install_run _ _ None _ _ _ _ None _ Hm Hog eq_refl Hp).
  unfold bind. rewrite (place_fresh_run _ _ _ _ _ Hmk).
  split; [|split].
  - intros [-> | ->]; reflexivity.
  - intros ->. split; intros Hd; cbn; rewrite Hd; reflexivity.
  - intros e -> Hne1 Hne2.
    destruct e as [en| | | | | |]; try reflexivity.
    destruct en; try congruence; reflexivity.
Qed.

(** C5 (as amended).  Without administrative privilege, the mode
    [install] works with is the parsed mode with the owner's write bit forced
    on, and it is this mode that goes into every call that sets a mode: the
    [makedirs] of the creation and, on the update path, the [os.chmod] of the
    existing directory, made when this mode differs from the prior action's.
    The attribute dictionary is only read. *)
Theorem install_forces_owner_write :
  forall self pkgplan orig s m,
  is_admin (world s) = false ->
  int8 (attrs self !! "mode") = Ok m ->
  (exists l,
     calls_since s (snd (install self pkgplan orig s)) l
     /\ (forall p mode, In (CallMakedirs p mode) l ->
           mode = Some (Z.lor m S_IWUSR))
     /\ (forall p mode, In (CallChmod p mode) l -> mode = Z.lor m S_IWUSR))
  /\ (forall o omode oowner ogroup owner group p,
        orig = Some o ->
        resolve_orig pkgplan orig s = (Ok (Some (Some omode, oowner, ogroup)), s) ->
        get_fsobj_uid_gid self pkgplan (destination_fmri pkgplan) (world s)
          = Ok (owner, group) ->
        attrs self !! "path" = Some p ->
        Z.lor m S_IWUSR <> omode ->
        In (CallChmod (image_path pkgplan p) (Z.lor m S_IWUSR))
           (calls (snd (install self pkgplan orig s)))).
Proof.
  intros self pkgplan orig s m Hadmin Hm. split.
  - destruct (install_calls self pkgplan orig s m Hm) as (l & Hl & Hin).
    unfold effective_mode in Hin. rewrite Hadmin in Hin.
    exists l. split; [exact Hl|]. split.
    + intros p mode Hc.
      destruct (Hin _ Hc) as [(q & [= _ ->]) | [(q & [=]) | (q & u & g & [=])]].
      reflexivity.
    + intros p mode Hc.
      destruct (Hin _ Hc) as [(q & [=]) | [(q & [= _ ->]) | (q & u & g & [=])]].
      reflexivity.
  - intros o omode oowner ogroup owner group p -> Hprior Hog Hp Hne.
    rewrite (install_run _ _ _ _ _ _ _ _ _ Hm Hog Hprior Hp).
    unfold effective_mode. rewrite Hadmin.
    unfold bind at 1. unfold place.
    rewrite bool_decide_eq_true_2 by congruence.
    unfold bind at 1, performs.
    destruct (chmod (image_path pkgplan p) (Z.lor m S_IWUSR) (world s))
      as [[[]|e] w1]; cbn [ret snd calls].
    + destruct (own_calls (image_path pkgplan p) owner group
                  (Some (Some omode, oowner, ogroup))
                  (MkState w1 (calls s ++
                     [CallChmod (image_path pkgplan p) (Z.lor m S_IWUSR)])))
        as (l2 & Hl2 & _).
      rewrite Hl2. cbn [calls]. apply in_or_app. left.
      apply in_or_app. right. left. reflexivity.
    + apply in_or_app. right. left. reflexivity.
Qed.

(** The ownership step of [install] (line 121 on) on any platform, by the
    outcome of [portable.chown]. *)
Lemma install_ownership_by_outcome :
  forall self pkgplan orig s m owner group prior p s1 rc w2,
  int8 (attrs self !! "mode") = Ok m ->
  get_fsobj_uid_gid self pkgplan (destination_fmri pkgplan) (world s)
    = Ok (owner, group) ->
  resolve_orig pkgplan orig s = (Ok prior, s) ->
  attrs self !! "path" = Some p ->
  place (image_path pkgplan p) (Some (effective_mode (world s) m)) prior s
    = (Ok true, s1) ->
  chown (image_path pkgplan p) owner group (world s1) = (rc, w2) ->
  (ownership_is_new prior owner group ->
     (rc = Ok tt \/ rc = Raise (OSError EPERM) \/ rc = Raise (OSError ENOSYS) ->
        install self pkgplan orig s
        = (Ok tt, MkState w2 (calls s1 ++
                    [CallChown (image_path pkgplan p) owner group])))
     /\ (forall e, rc = Raise e ->
         e <> OSError EPERM -> e <> OSError ENOSYS ->
         install self pkgplan orig s
         = (Raise e, MkState w2 (calls s1 ++
                       [CallChown (image_path pkgplan p) owner group]))))
  /\ (~ ownership_is_new prior owner group ->
      install self pkgplan orig s = (Ok tt, s1)).
Proof.
  intros self pkgplan orig s m owner group prior p s1 rc w2
    Hm Hog Hprior Hp Hplace Hch.
  rewrite (install_run _ _ _ _ _ _ _ _ _ Hm Hog Hprior Hp).
  rewrite (bind_ok _ _ _ _ _ Hplace). split.
  - intros Hnew. rewrite (own_run _ _ _ _ _ _ _ Hnew Hch). split.
    + intros [-> | [-> | ->]]; reflexivity.
    + intros e -> Hne1 Hne2.
      destruct e as [en| | | | | |]; try reflexivity.
      destruct en; try congruence; reflexivity.
  - intros Hold. apply own_skip, Hold.
Qed.





End Lifecycle.

(** ** Running [install] again *)

Section Again.

Context {World : Type} `{Platform World}.

Implicit Types (self : Action) (pkgplan : PkgPlan) (s : State World).

(** How a fresh [install] can have returned normally. *)
Lemma install_fresh_inv self pkgplan s s1 m owner group p r w1 rc w2 :
  int8 (attrs self !! "mode") = Ok m ->
  get_fsobj_uid_gid self pkgplan (destination_fmri pkgplan) (world s)
    = Ok (owner, group) ->
  attrs self !! "path" = Some p ->
  makedirs (image_path pkgplan p) (Some (effective_mode (world s) m)) (world s)
    = (r, w1) ->
  chown (image_path pkgplan p) owner group w1 = (rc, w2) ->
  install self pkgplan None s = (Ok tt, s1) ->
  (r = Raise (OSError EROFS) /\ isdir (image_path pkgplan p) w1 = true)
  \/ ((r = Ok tt \/ r = Raise (OSError EEXIST))
      /\ (rc = Ok tt \/ rc = Raise (OSError EPERM)
          \/ rc = Raise (OSError ENOSYS))
      /\ world s1 = w2).
Proof.
  intros Hm Hog Hp Hmk Hch.
  rewrite (install_run _ _ None _ _ _ _ None _ Hm Hog eq_refl Hp).
  unfold bind. rewrite (place_fresh_run _ _ _ _ _ Hmk).
  assert (Hown : forall s0, world s0 = w1 ->
            own (image_path pkgplan p) owner group None s0 = (Ok tt, s1) ->
            (rc = Ok tt \/ rc = Raise (OSError EPERM)
             \/ rc = Raise (OSError ENOSYS))
            /\ world s1 = w2).
  { intros s0 Hs0. rewrite <- Hs0 in Hch.
    rewrite (own_run _ _ _ None _ _ _ (or_introl eq_refl) Hch).
    destruct rc as [[]|e]; [intros [= <-]; auto|].
    destruct e as [en| | | | | |]; try discriminate.
    destruct en; cbn; try discriminate; intros [= <-]; auto. }
  destruct r as [[]|e].
  - intros Hrun. right. split; [auto|]. eapply Hown; [|exact Hrun]. reflexivity.
  - destruct e as [en| | | | | |]; try discriminate.
    destruct en; cbn; try discriminate.
    + intros Hrun. right. split; [auto|].
      eapply Hown; [|exact Hrun]. reflexivity.
    + destruct (isdir (image_path pkgplan p) w1); [|discriminate].
      intros _. left. split; reflexivity.
Qed.

(** An [install] that finds its directory in place. *)
Lemma install_again self pkgplan s m owner group p rc w2 :
  int8 (attrs self !! "mode") = Ok m ->
  get_fsobj_uid_gid self pkgplan (destination_fmri pkgplan) (world s)
    = Ok (owner, group) ->
  attrs self !! "path" = Some p ->
  makedirs (image_path pkgplan p) (Some (effective_mode (world s) m)) (world s)
    = (Raise (OSError EEXIST), world s) ->
  chown (image_path pkgplan p) owner group (world s) = (rc, w2) ->
  rc = Ok tt \/ rc = Raise (OSError EPERM) \/ rc = Raise (OSError ENOSYS) ->
  exists s2, install self pkgplan None s = (Ok tt, s2) /\ world s2 = w2.
Proof.
  intros Hm Hog Hp Hmk Hch Hrc.
  rewrite (install_run _ _ None _ _ _ _ None _ Hm Hog eq_refl Hp).
  erewrite bind_ok
    by (rewrite (place_fresh_run _ _ _ _ _ Hmk); reflexivity).
  cbv beta iota.
  erewrite (own_run _ _ _ None _ _ _ (or_introl eq_refl)) by exact Hch.
  destruct Hrc as [-> | [-> | ->]]; eexists; split; reflexivity.
Qed.

End Again.

(** ** The simulated platform *)

Section Simulated.

Implicit Types (w : SimOS.World) (i : SimOS.Inode).

Lemma sim_makedirs_inv path m w r w1 :
  SimOS.Action_makedirs path (Some m) w = (r, w1) ->
  SimOS.fs w !! path = None ->
  (r = Ok tt
   /\ SimOS.fault w SimOS.SysMkdir path = None
   /\ SimOS.read_only w = false
   /\ exists f, w1 = SimOS.with_fs w f
        /\ f !! path = Some {| SimOS.kind := SimOS.Directory; SimOS.mode := m;
                               SimOS.uid := SimOS.euid w;
                               SimOS.gid := SimOS.egid w |})
  \/ (exists e, r = Raise (OSError e) /\ w1 = w
        /\ (e = EEXIST -> SimOS.fault w SimOS.SysMkdir path = Some EEXIST)
        /\ (e = EROFS -> SimOS.os_isdir path w1 = false)).
Proof.
  intros Hmk Hfresh. unfold SimOS.Action_makedirs in Hmk.
  assert (Hnodir : SimOS.os_isdir path w = false)
    by (unfold SimOS.os_isdir; rewrite Hfresh; reflexivity).
  destruct (SimOS.fault w SimOS.SysMkdir path) as [e|] eqn:Hfault.
  { injection Hmk as <- <-. right. exists e. repeat split; auto.
    intros ->. reflexivity. }
  destruct (SimOS.read_only w) eqn:Hro.
  { injection Hmk as <- <-. right. exists EROFS. repeat split; auto.
    discriminate. }
  rewrite Hfresh in Hmk.
  rewrite bool_decide_eq_false_2 in Hmk by (intros [? [=]]).
  destruct (existsb _ _).
  { injection Hmk as <- <-. right. exists ENOTDIR.
    repeat split; auto; discriminate. }
  injection Hmk as <- <-. left. repeat split; auto.
  eexists. split; [reflexivity|]. apply lookup_insert_eq.
Qed.

Lemma sim_chown_inv path u g w rc w2 :
  SimOS.os_chown path u g w = (rc, w2) ->
  (exists e, rc = Raise (OSError e) /\ w2 = w)
  \/ (rc = Ok tt
      /\ SimOS.fault w SimOS.SysChown path = None
      /\ SimOS.read_only w = false
      /\ exists i, SimOS.fs w !! path = Some i
           /\ (SimOS.admin w = true \/ (SimOS.uid i = u /\ SimOS.gid i = g))
           /\ w2 = SimOS.with_fs w
                     (<[path := {| SimOS.kind := SimOS.kind i;
                                   SimOS.mode := SimOS.mode i;
                                   SimOS.uid := u; SimOS.gid := g |}]>
                        (SimOS.fs w))).
Proof.
  unfold SimOS.os_chown, SimOS.os_error. intros Hch.
  destruct (SimOS.fault w SimOS.SysChown path) as [e|];
    [injection Hch as <- <-; left; eauto|].
  destruct (SimOS.fs w !! path) as [i|];
    [|injection Hch as <- <-; left; eauto].
  destruct (SimOS.read_only w); [injection Hch as <- <-; left; eauto|].
  destruct (negb (SimOS.admin w)
            && negb (bool_decide (SimOS.uid i = u)
                     && bool_decide (SimOS.gid i = g))) eqn:Hperm;
    [injection Hch as <- <-; left; eauto|].
  injection Hch as <- <-. right. repeat split. exists i. repeat split.
  apply andb_false_iff in Hperm. destruct Hperm as [Hperm | Hperm].
  - left. apply negb_false_iff, Hperm.
  - right. apply negb_false_iff, andb_true_iff in Hperm.
    rewrite !bool_decide_eq_true in Hperm. exact Hperm.
Qed.

(** A second [chown] to the same owner and group finds nothing to change. *)
Lemma sim_chown_again path u g w w2 :
  SimOS.os_chown path u g w = (Ok tt, w2) ->
  SimOS.os_chown path u g w2 = (Ok tt, w2).
Proof.
  intros Hch.
  destruct (sim_chown_inv _ _ _ _ _ _ Hch)
    as [(e & [=] & _) | (_ & Hfault & Hro & i & Hi & Hperm & ->)].
  unfold SimOS.os_chown, SimOS.with_fs. cbn [SimOS.fault SimOS.fs SimOS.read_only].
  rewrite Hfault, lookup_insert_eq, Hro.
  cbn [SimOS.uid SimOS.gid SimOS.kind SimOS.mode].
  rewrite !bool_decide_eq_true_2 by reflexivity.
  rewrite andb_false_r. cbn [negb andb].
  rewrite insert_insert_eq. reflexivity.
Qed.

(** On the simulated platform, [validate] rejects what [int8] rejects, so an
    [install] that returned has parsed its mode and resolved its owner. *)
Lemma sim_install_ok_inv (self : Action) (pkgplan : PkgPlan)
    (orig : option Action) (s s1 : State SimOS.World) :
  install self pkgplan orig s = (Ok tt, s1) ->
  exists m owner group,
    int8 (attrs self !! "mode") = Ok m
    /\ get_fsobj_uid_gid self pkgplan (destination_fmri pkgplan) (world s)
       = Ok (owner, group).
Proof.
  intros Hrun. unfold install in Hrun.
  destruct (int8 (attrs self !! "mode")) as [m|e] eqn:Hm.
  - rewrite (bind_ok _ _ _ _ _ (parse_mode_ok _ _ s _ Hm)) in Hrun.
    unfold bind at 1, checks at 1 in Hrun.
    destruct (get_fsobj_uid_gid self pkgplan (destination_fmri pkgplan)
                (world s)) as [[owner group]|e]; [|discriminate].
    exists m, owner, group. split; reflexivity.
  - unfold bind at 1 in Hrun. rewrite (parse_mode_invalid _ _ _ _ Hm) in Hrun.
    cbn [validate_fsobj_common SimPlatform] in Hrun.
    unfold SimOS.Action_validate_fsobj_common in Hrun.
    rewrite Hm in Hrun. discriminate.
Qed.

(** C3.  On the simulated platform, whatever failures it injects: when
    [install] with no prior action has returned normally on a target that was
    not there, a second [install] with the same attributes returns normally
    too and leaves the world the first one left, so the same mode, owner and
    group on disk.  Unless the platform failed the creation of its own
    accord, that mode is the one [install] works with. *)
Theorem install_twice_same_state :
  forall (self : Action) (pkgplan : PkgPlan) (p : string)
         (s s1 : State SimOS.World),
  attrs self !! "path" = Some p ->
  SimOS.fs (world s) !! image_path pkgplan p = None ->
  install self pkgplan None s = (Ok tt, s1) ->
  exists s2,
    install self pkgplan None s1 = (Ok tt, s2)
    /\ world s2 = world s1
    /\ SimOS.stat (image_path pkgplan p) (world s2)
       = SimOS.stat (image_path pkgplan p) (world s1)
    /\ (SimOS.fault (world s) SimOS.SysMkdir (image_path pkgplan p) = None ->
        exists m u g,
          int8 (attrs self !! "mode") = Ok m
          /\ SimOS.stat (image_path pkgplan p) (world s1)
             = Some (effective_mode (world s) m, u, g)).
Proof.
  intros self pkgplan p s s1 Hp Hfresh Hrun.
  destruct (sim_install_ok_inv _ _ _ _ _ Hrun) as (m & owner & group & Hm & Hog).
  destruct (makedirs (image_path pkgplan p)
              (Some (effective_mode (world s) m)) (world s))
    as [r w1] eqn:Hmk.
  destruct (chown (image_path pkgplan p) owner group w1) as [rc w2] eqn:Hch.
  destruct (install_fresh_inv _ _ _ _ _ _ _ _ _ _ _ _ Hm Hog Hp Hmk Hch Hrun)
    as [[-> Hdir] | (Hr & Hrc & Hw)].
  { destruct (sim_makedirs_inv _ _ _ _ _ Hmk Hfresh)
      as [([=] & _) | (e & [= <-] & _ & _ & Hnodir)].
    cbn [isdir SimPlatform] in Hdir. rewrite (Hnodir eq_refl) in Hdir.
    discriminate. }
  assert (Hgoal : makedirs (image_path pkgplan p)
                    (Some (effective_mode (world s1) m)) (world s1)
                  = (Raise (OSError EEXIST), world s1)
                  /\ chown (image_path pkgplan p) owner group (world s1)
                     = (rc, world s1)
                  /\ get_fsobj_uid_gid self pkgplan (destination_fmri pkgplan)
                       (world s1) = Ok (owner, group)
                  /\ (SimOS.fault (world s) SimOS.SysMkdir
                        (image_path pkgplan p) = None ->
                      exists u g,
                        SimOS.stat (image_path pkgplan p) (world s1)
                        = Some (effective_mode (world s) m, u, g))).
  { rewrite Hw. clear Hrun Hw s1.
    destruct (sim_makedirs_inv _ _ _ _ _ Hmk Hfresh)
      as [(-> & Hfault & Hro & f & -> & Hf) | (e & -> & -> & Hfe & _)].
    - destruct (sim_chown_inv _ _ _ _ _ _ Hch)
        as [(e & -> & ->) | (-> & Hfc & _ & i & Hi & Hperm & ->)].
      + split; [|split; [exact Hch|split; [exact Hog|]]].
        * cbn [makedirs SimPlatform]. unfold SimOS.Action_makedirs.
          cbn [SimOS.fault SimOS.with_fs SimOS.read_only SimOS.fs].
          rewrite Hfault, Hro, Hf.
          rewrite bool_decide_eq_true_2 by eauto. reflexivity.
        * intros _. unfold SimOS.stat. cbn [SimOS.fs SimOS.with_fs].
          rewrite Hf. cbn. eauto.
      + split; [|split; [apply (sim_chown_again _ _ _ _ _ Hch)
                        |split; [exact Hog|]]].
        * cbn [makedirs SimPlatform]. unfold SimOS.Action_makedirs.
          cbn [SimOS.fault SimOS.with_fs SimOS.read_only SimOS.fs].
          rewrite Hfault, Hro, lookup_insert_eq.
          rewrite bool_decide_eq_true_2 by eauto. reflexivity.
        * intros _. unfold SimOS.stat. cbn [SimOS.fs SimOS.with_fs].
          rewrite lookup_insert_eq. cbn [SimOS.fs SimOS.with_fs] in Hi.
          rewrite Hf in Hi. injection Hi as <-. cbn. eauto.
    - assert (e = EEXIST) as -> by (destruct Hr as [[=] | [= ->]]; reflexivity).
      destruct (sim_chown_inv _ _ _ _ _ _ Hch)
        as [(e & -> & ->) | (_ & _ & _ & i & Hi & _)];
        [|rewrite Hfresh in Hi; discriminate].
      split; [exact Hmk|split; [exact Hch|split; [exact Hog|]]].
      intros Hnone. rewrite (Hfe eq_refl) in Hnone. discriminate. }
  destruct Hgoal as (Hmk2 & Hch2 & Hog2 & Hstat).
  destruct (install_again _ _ _ _ _ _ _ _ _ Hm Hog2 Hp Hmk2 Hch2 Hrc)
    as (s2 & Hrun2 & Hw2).
  exists s2. split; [exact Hrun2|]. split; [exact Hw2|].
  split; [rewrite Hw2; reflexivity|].
  intros Hnone. destruct (Hstat Hnone) as (u & g & Hs). eauto.
Qed.



(** C6 (as amended).  When [install] reaches its ownership step (line 121:
    the creation or the update before it has neither raised nor returned),
    it calls [portable.chown] exactly when there is no prior action or the
    resolved owner or group differs from the prior action's.  A [chown] that
    succeeds sets the owner and the group of the directory and nothing else.
    One that fails with "not permitted" ([EPERM]) or "not supported"
    ([ENOSYS]) ends [install] normally all the same, with the ownership and
    everything else as the step before left them; every other exception is
    propagated. *)
Theorem install_ownership_step :
  forall self pkgplan orig (s : State SimOS.World) m owner group prior p s1
         rc w2,
  int8 (attrs self !! "mode") = Ok m ->
  get_fsobj_uid_gid self pkgplan (destination_fmri pkgplan) (world s)
    = Ok (owner, group) ->
  resolve_orig pkgplan orig s = (Ok prior, s) ->
  attrs self !! "path" = Some p ->
  place (image_path pkgplan p) (Some (effective_mode (world s) m)) prior s
    = (Ok true, s1) ->
  chown (image_path pkgplan p) owner group (world s1) = (rc, w2) ->
  (ownership_is_new prior owner group ->
     (rc = Ok tt ->
        install self pkgplan orig s
        = (Ok tt, MkState w2 (calls s1 ++
                    [CallChown (image_path pkgplan p) owner group]))
        /\ exists i,
             SimOS.fs (world s1) !! image_path pkgplan p = Some i
             /\ w2 = SimOS.with_fs (world s1)
                       (<[image_path pkgplan p :=
                            {| SimOS.kind := SimOS.kind i;
                               SimOS.mode := SimOS.mode i;
                               SimOS.uid := owner; SimOS.gid := group |}]>
                          (SimOS.fs (world s1))))
     /\ (rc = Raise (OSError EPERM) \/ rc = Raise (OSError ENOSYS) ->
         install self pkgplan orig s
         = (Ok tt, MkState (world s1) (calls s1 ++
                     [CallChown (image_path pkgplan p) owner group]))
         /\ w2 = world s1)
     /\ (forall e, rc = Raise e ->
         e <> OSError EPERM -> e <> OSError ENOSYS ->
         install self pkgplan orig s
         = (Raise e, MkState w2 (calls s1 ++
                       [CallChown (image_path pkgplan p) owner group]))))
  /\ (~ ownership_is_new prior owner group ->
      install self pkgplan orig s = (Ok tt, s1)).
Proof.
  intros self pkgplan orig s m owner group prior p s1 rc w2
    Hm Hog Hprior Hp Hplace Hch.
  destruct (install_ownership_by_outcome self pkgplan orig s m owner group
              prior p s1 rc w2 Hm Hog Hprior Hp Hplace Hch) as [Hnew Hold].
  split; [|exact Hold].
  intros Hn. destruct (Hnew Hn) as [Hok Hraise].
  split; [|split; [|exact Hraise]].
  - intros ->. split; [apply Hok; left; reflexivity|].
    destruct (sim_chown_inv _ _ _ _ _ _ Hch)
      as [(e & [=] & _) | (_ & _ & _ & i & Hi & _ & ->)].
    exists i. split; [exact Hi | reflexivity].
  - intros Hrc.
    assert (Hw : w2 = world s1).
    { destruct (sim_chown_inv _ _ _ _ _ _ Hch)
        as [(e & _ & ->) | (-> & _)]; [reflexivity|].
      destruct Hrc as [[=] | [=]]. }
    split; [|exact Hw].
    rewrite <- Hw. apply Hok. destruct Hrc; auto.
Qed.

End Simulated.


(** ** The properties at work on sample images *)


(** C4 at work: the platform answers [EACCES]; [remove] returns and the
    salvage area stays empty. *)
Lemma remove_swallows_eacces_witness :
  attrs Sample.usr !! "path" = Some "usr"
  /\ rmdir (image_path Sample.plan (posixpath.normpath "usr"))
       (world (start Sample.denying))
     = (Raise (OSError EACCES), Sample.denying)
  /\ remove Sample.usr Sample.plan (start Sample.denying)
     = (Ok tt, MkState Sample.denying [CallRmdir "/img/usr"]).
Proof.
  assert (Hp : attrs Sample.usr !! "path" = Some "usr") by reflexivity.
  assert (Hrm : rmdir (image_path Sample.plan (posixpath.normpath "usr"))
                  (world (start Sample.denying))
                = (Raise (OSError EACCES), Sample.denying))
    by reflexivity.
  split; [exact Hp|]. split; [exact Hrm|].
  exact (proj1 (remove_swallows_eacces Sample.usr Sample.plan "usr"
                  (start Sample.denying) _ Hp Hrm)).
Defined.

(** C4 as stated fails: after [EACCES] nothing has gone to the salvage
    subsystem. *)
Lemma eacces_not_salvaged_counterexample :
  ~ eacces_routed_to_salvage Sample.usr Sample.plan (start Sample.denying).
Proof.
  intros Hclaim.
  destruct (Hclaim "usr" Sample.denying eq_refl eq_refl) as [_ Hin].
  vm_compute in Hin. destruct Hin as [Hc | []]. discriminate.
Qed.

(** C2 at work: on a read-only image that holds [usr] already, [install]
    returns normally after the one call. *)
Lemma install_creation_outcomes_witness :
  int8 (attrs Sample.usr !! "mode") = Ok 365
  /\ get_fsobj_uid_gid Sample.usr Sample.plan
       (destination_fmri Sample.plan) (world (start Sample.frozen))
     = Ok (100, 10)
  /\ attrs Sample.usr !! "path" = Some "usr"
  /\ makedirs (image_path Sample.plan "usr")
       (Some (effective_mode (world (start Sample.frozen)) 365))
       (world (start Sample.frozen))
     = (Raise (OSError EROFS), Sample.frozen)
  /\ install Sample.usr Sample.plan None (start Sample.frozen)
     = (Ok tt, MkState Sample.frozen [CallMakedirs "/img/usr" (Some 365)]).
Proof.
  assert (Hm : int8 (attrs Sample.usr !! "mode") = Ok 365) by reflexivity.
  assert (Hog : get_fsobj_uid_gid Sample.usr Sample.plan
                  (destination_fmri Sample.plan) (world (start Sample.frozen))
                = Ok (100, 10)) by reflexivity.
  assert (Hp : attrs Sample.usr !! "path" = Some "usr") by reflexivity.
  assert (Hmk : makedirs (image_path Sample.plan "usr")
                  (Some (effective_mode (world (start Sample.frozen)) 365))
                  (world (start Sample.frozen))
                = (Raise (OSError EROFS), Sample.frozen)) by reflexivity.
  split; [exact Hm|]. split; [exact Hog|]. split; [exact Hp|].
  split; [exact Hmk|].
  destruct (install_creation_outcomes Sample.usr Sample.plan
              (start Sample.frozen) 365 100 10 "usr" _ _ Hm Hog Hp Hmk)
    as (_ & Hrofs & _).
  destruct (Hrofs eq_refl) as [Hthere _].
  rewrite Hthere by (vm_compute; reflexivity). reflexivity.
Defined.

(** C5 at work: [joe] updates [usr] from mode 0555 to mode 0555; the
    directory is changed to 0755. *)
Lemma install_forces_owner_write_witness :
  is_admin (world (start Sample.unprivileged)) = false
  /\ int8 (attrs Sample.usr !! "mode") = Ok 365
  /\ In (CallChmod "/img/usr" 493)
        (calls (snd (install Sample.usr Sample.plan (Some Sample.usr)
                       (start Sample.unprivileged)))).
Proof.
  assert (Hadmin : is_admin (world (start Sample.unprivileged)) = false)
    by reflexivity.
  assert (Hm : int8 (attrs Sample.usr !! "mode") = Ok 365) by reflexivity.
  split; [exact Hadmin|]. split; [exact Hm|].
  refine (proj2 (install_forces_owner_write Sample.usr Sample.plan
                   (Some Sample.usr) (start Sample.unprivileged) 365
                   Hadmin Hm)
            Sample.usr 365 100 10 100 10 "usr" eq_refl _ _ _ _).
  - vm_compute. reflexivity.
  - reflexivity.
  - reflexivity.
  - discriminate.
Defined.

(** C5 as stated fails: the mode of that [chmod] is not the parsed one. *)
Lemma write_bit_on_update_counterexample :
  ~ write_bit_at_creation_only Sample.usr Sample.plan (Some Sample.usr)
      (start Sample.unprivileged).
Proof.
  intros Hclaim.
  assert (Hmode : 493 = 365).
  { apply (Hclaim eq_refl 365 eq_refl [CallChmod "/img/usr" 493]
             ltac:(vm_compute; reflexivity) "/img/usr").
    left. reflexivity. }
  discriminate.
Qed.

(** C6 at work: on a platform without [chown], [joe] installs [usr] into an
    empty image; [install] returns normally and the directory is as the
    creation made it. *)
Lemma install_ownership_step_witness :
  int8 (attrs Sample.usr !! "mode") = Ok 365
  /\ place (image_path Sample.plan "usr")
       (Some (effective_mode (world (start Sample.ownerless)) 365)) None
       (start Sample.ownerless)
     = (Ok true,
        snd (place "/img/usr" (Some 493) None (start Sample.ownerless)))
  /\ chown (image_path Sample.plan "usr") 100 10
       (world (snd (place "/img/usr" (Some 493) None
                      (start Sample.ownerless))))
     = (Raise (OSError ENOSYS),
        world (snd (place "/img/usr" (Some 493) None
                      (start Sample.ownerless))))
  /\ install Sample.usr Sample.plan None (start Sample.ownerless)
     = (Ok tt,
        MkState (world (snd (place "/img/usr" (Some 493) None
                               (start Sample.ownerless))))
          (calls (snd (place "/img/usr" (Some 493) None
                         (start Sample.ownerless)))
           ++ [CallChown (image_path Sample.plan "usr") 100 10])).
Proof.
  assert (Hm : int8 (attrs Sample.usr !! "mode") = Ok 365) by reflexivity.
  assert (Hplace : place (image_path Sample.plan "usr")
                     (Some (effective_mode (world (start Sample.ownerless)) 365))
                     None (start Sample.ownerless)
                   = (Ok true,
                      snd (place "/img/usr" (Some 493) None
                             (start Sample.ownerless))))
    by (vm_compute; reflexivity).
  assert (Hch : chown (image_path Sample.plan "usr") 100 10
                  (world (snd (place "/img/usr" (Some 493) None
                                 (start Sample.ownerless))))
                = (Raise (OSError ENOSYS),
                   world (snd (place "/img/usr" (Some 493) None
                                 (start Sample.ownerless)))))
    by (vm_compute; reflexivity).
  assert (Hog : get_fsobj_uid_gid Sample.usr Sample.plan
                  (destination_fmri Sample.plan)
                  (world (start Sample.ownerless))
                = Ok (100, 10)) by reflexivity.
  assert (Hp : attrs Sample.usr !! "path" = Some "usr") by reflexivity.
  split; [exact Hm|]. split; [exact Hplace|]. split; [exact Hch|].
  destruct (install_ownership_step Sample.usr Sample.plan None
              (start Sample.ownerless) 365 100 10 None "usr" _ _ _
              Hm Hog eq_refl Hp Hplace Hch)
    as [Hnew _].
  destruct (Hnew (or_introl eq_refl)) as (_ & Htolerated & _).
  exact (proj1 (Htolerated (or_intror eq_refl))).
Defined.

(** C6 as stated fails: on a read-only image that holds [usr] already,
    [install] with no prior action returns normally and has not called
    [chown]. *)
Lemma no_chown_on_read_only_counterexample :
  ~ ownership_set_exactly_when_new Sample.usr Sample.plan None
      (start Sample.frozen).
Proof.
  intros Hclaim.
  destruct (Hclaim 100 10 None [CallMakedirs "/img/usr" (Some 365)]
              eq_refl eq_refl
              ltac:(vm_compute; reflexivity) ltac:(vm_compute; reflexivity))
    as [_ Hset].
  destruct (Hset (or_introl eq_refl)) as (p & [Hc | []]). discriminate.
Qed.


(** C3 at work: an administrator installs [usr] into an empty image, twice. *)
Lemma install_twice_same_state_witness :
  attrs Sample.usr !! "path" = Some "usr"
  /\ SimOS.fs (world (start Sample.fresh)) !! image_path Sample.plan "usr"
     = None
  /\ fst (install Sample.usr Sample.plan None (start Sample.fresh)) = Ok tt
  /\ exists s2,
       install Sample.usr Sample.plan None
         (snd (install Sample.usr Sample.plan None (start Sample.fresh)))
       = (Ok tt, s2)
       /\ SimOS.stat "/img/usr" (world s2) = Some (365, 100, 10).
Proof.
  assert (Hp : attrs Sample.usr !! "path" = Some "usr") by reflexivity.
  assert (Hfresh : SimOS.fs (world (start Sample.fresh))
                     !! image_path Sample.plan "usr" = None)
    by (vm_compute; reflexivity).
  assert (Hrun : install Sample.usr Sample.plan None (start Sample.fresh)
                 = (Ok tt, snd (install Sample.usr Sample.plan None
                                  (start Sample.fresh))))
    by (vm_compute; reflexivity).
  split; [exact Hp|]. split; [exact Hfresh|].
  split; [vm_compute; reflexivity|].
  destruct (install_twice_same_state Sample.usr Sample.plan "usr"
              (start Sample.fresh) _ Hp Hfresh Hrun)
    as (s2 & Hrun2 & _ & Hstat & _).
  exists s2. split; [exact Hrun2|].
  change (image_path Sample.plan "usr") with "/img/usr" in Hstat.
  rewrite Hstat. vm_compute. reflexivity.
Defined.

(** ** The order of directory actions *)

Lemma ascii_compare_refl (c : ascii) : Ascii.compare c c = Eq.
Proof. unfold Ascii.compare. apply N.compare_refl. Qed.

Lemma string_compare_lt_trans (a b c : string) :
  String.compare a b = Lt -> String.compare b c = Lt ->
  String.compare a c = Lt.
Proof.
  revert b c. induction a as [|x a IH]; intros [|y b] [|z c]; cbn;
    try discriminate; try reflexivity.
  destruct (Ascii.compare x y) eqn:Hxy; try discriminate.
  - apply Ascii.compare_eq_iff in Hxy. subst y.
    destruct (Ascii.compare x z); try discriminate; [apply IH | reflexivity].
  - intros _. destruct (Ascii.compare y z) eqn:Hyz; try discriminate.
    + apply Ascii.compare_eq_iff in Hyz. subst z. rewrite Hxy. reflexivity.
    + intros _. unfold Ascii.compare in *.
      rewrite N.compare_lt_iff in *.
      rewrite (proj2 (N.compare_lt_iff _ _) (N.lt_trans _ _ _ Hxy Hyz)).
      reflexivity.
Qed.

Lemma cmp_zero_iff (p q : string) : cmp p q = 0 <-> p = q.
Proof.
  unfold cmp. split.
  - destruct (String.compare p q) eqn:Hc; try discriminate.
    intros _. apply String.compare_eq_iff, Hc.
  - intros ->. 
    assert (String.compare q q = Eq) as ->; [|reflexivity].
    induction q as [|c q IH]; cbn; [reflexivity|].
    rewrite ascii_compare_refl. exact IH.
Qed.

Lemma cmp_opp (p q : string) : cmp q p = - cmp p q.
Proof.
  unfold cmp. rewrite (String.compare_antisym p q).
  destruct (String.compare q p); reflexivity.
Qed.

(** X1.  [compare] looks at the paths only: it answers [0] exactly when the
    two paths are the same string, swapping the actions negates the answer,
    and "comes before" is transitive, so sorting actions with it orders them
    by path whatever their other attributes. *)
Theorem compare_orders_by_path :
  forall (a b c : Action) (p q r : string),
  attrs a !! "path" = Some p ->
  attrs b !! "path" = Some q ->
  attrs c !! "path" = Some r ->
  (compare a b = Ok 0 <-> p = q)
  /\ (exists z, compare a b = Ok z /\ compare b a = Ok (- z)
                /\ (z = -1 \/ z = 0 \/ z = 1))
  /\ (compare a b = Ok (-1) -> compare b c = Ok (-1) ->
      compare a c = Ok (-1)).
Proof.
  intros a b c p q r Hp Hq Hr. unfold compare. rewrite Hp, Hq, Hr.
  split; [|split].
  - rewrite <- cmp_zero_iff. split; [intros [= ->]; reflexivity | congruence].
  - exists (cmp p q). split; [reflexivity|].
    split; [rewrite (cmp_opp p q); reflexivity|].
    unfold cmp. destruct (String.compare p q); auto.
  - unfold cmp. intros Hab Hbc.
    destruct (String.compare p q) eqn:Hpq; try discriminate.
    destruct (String.compare q r) eqn:Hqr; try discriminate.
    rewrite (string_compare_lt_trans _ _ _ Hpq Hqr). reflexivity.
Qed.

Lemma compare_orders_by_path_witness :
  attrs Sample.usr !! "path" = Some "usr"
  /\ attrs Sample.usr_no_mode !! "path" = Some "usr"
  /\ compare Sample.usr Sample.usr_no_mode = Ok 0.
Proof.
  split; [reflexivity|]. split; [reflexivity|].
  apply (proj1 (compare_orders_by_path Sample.usr Sample.usr_no_mode
                  Sample.usr "usr" "usr" "usr"
                  ltac:(reflexivity) ltac:(reflexivity) ltac:(reflexivity))).
  reflexivity.
Defined.

(** ** What the lifecycle methods touch *)

Section Frame.

Context {World : Type} `{Platform World}.

Implicit Types (self : Action) (pkgplan : PkgPlan) (s : State World).

(** X2.  [remove] never creates a directory and never changes a mode or an
    owner: whatever the platform does, it makes no call at all (the path
    attribute is missing), or one [os.rmdir] on the absolute path, followed
    or not by one [salvagedir] on the normalized image-relative path. *)
Theorem remove_calls_rmdir_then_salvage :
  forall self pkgplan s,
  exists l,
    calls_since s (snd (remove self pkgplan s)) l
    /\ ((l = [] /\ attrs self !! "path" = None
         /\ remove self pkgplan s = (Raise (KeyError "path"), s))
        \/ exists p,
             attrs self !! "path" = Some p
             /\ (l = [CallRmdir (image_path pkgplan (posixpath.normpath p))]
                 \/ l = [CallRmdir (image_path pkgplan (posixpath.normpath p));
                         CallSalvagedir (posixpath.normpath p)])).
Proof.
  intros self pkgplan s. unfold calls_since.
  destruct (attrs self !! "path") as [p|] eqn:Hp.
  - destruct (rmdir (image_path pkgplan (posixpath.normpath p)) (world s))
      as [r w'] eqn:Hrm.
    rewrite (remove_run _ _ _ _ _ _ Hp Hrm).
    destruct r as [[]|e].
    { eexists. split; [reflexivity|]. right. exists p. auto. }
    destruct e as [en| | | | | |];
      try (eexists; split; [reflexivity|]; right; exists p; auto).
    destruct (bool_decide (en = ENOENT));
      [eexists; split; [reflexivity|]; right; exists p; auto|].
    destruct (bool_decide (en = EEXIST) || bool_decide (en = ENOTEMPTY)).
    + unfold performs. cbn [world calls].
      destruct (salvagedir (image pkgplan) (posixpath.normpath p) w')
        as [rs w''].
      eexists. split; [cbn [snd calls]; rewrite <- app_assoc; reflexivity|].
      right. exists p. auto.
    + destruct (bool_decide (en <> EACCES));
        eexists; (split; [reflexivity|]); right; exists p; auto.
  - exists []. rewrite app_nil_r.
    assert (Hrun : remove self pkgplan s = (Raise (KeyError "path"), s))
      by (unfold remove, bind, getitem; rewrite Hp; reflexivity).
    rewrite Hrun. split; [reflexivity|]. left. auto.
Qed.

(** The call of the creation or update step, if it makes one. *)
Lemma place_call path mode prior s :
  exists l,
    calls (snd (place path mode prior s)) = calls s ++ l
    /\ (l = []
        \/ (prior = None /\ l = [CallMakedirs path mode])
        \/ (prior <> None /\ exists m, mode = Some m /\ l = [CallChmod path m])).
Proof.
  destruct prior as [[[omode oo] og]|].
  - unfold place. destruct omode as [om|].
    + destruct (bool_decide (mode <> Some om)).
      * destruct mode as [m|].
        -- unfold bind, performs, ret.
           destruct (chmod path m (world s)) as [[[]|e] w];
             (exists [CallChmod path m]; split; [reflexivity|];
              right; right; split; [discriminate|]; eauto).
        -- exists []. split; [cbn; rewrite app_nil_r; reflexivity|]. auto.
      * exists []. split; [cbn; rewrite app_nil_r; reflexivity|]. auto.
    + exists []. split; [cbn; rewrite app_nil_r; reflexivity|]. auto.
  - destruct (makedirs path mode (world s)) as [r w1] eqn:Hmk.
    rewrite (place_fresh_run _ _ _ _ _ Hmk).
    exists [CallMakedirs path mode]. split; [|auto].
    destruct r as [[]|e]; [reflexivity|].
    destruct e as [en| | | | | |]; try reflexivity.
    destruct (bool_decide (en = EROFS)).
    + destruct (isdir path w1); reflexivity.
    + destruct (bool_decide (en <> EEXIST)); reflexivity.
Qed.

Lemma own_call path owner group prior s :
  exists l,
    calls (snd (own path owner group prior s)) = calls s ++ l
    /\ (l = [] \/ l = [CallChown path owner group]).
Proof.
  unfold own.
  destruct (match prior with
            | Some (_, oowner, ogroup) => _ | None => true end).
  - unfold try_except, performs.
    destruct (chown path owner group (world s)) as [[[]|e] w];
      exists [CallChown path owner group];
      (split; [|right; reflexivity]); [reflexivity|].
    destruct e as [en| | | | | |]; try reflexivity.
    destruct (bool_decide (en <> EPERM) && bool_decide (en <> ENOSYS));
      reflexivity.
  - exists []. split; [cbn; rewrite app_nil_r; reflexivity|]. auto.
Qed.

(** X3.  [install] never removes and never salvages.  Whatever its input
    and whatever the platform does, it makes at most two calls, both on the
    absolute path of its directory: first, at most one call that sets a mode,
    which is a [makedirs] when there is no prior action and an [os.chmod]
    when there is one; then at most one [portable.chown]. *)
Theorem install_calls_place_then_chown :
  forall self pkgplan orig s,
  exists l1 l2,
    calls_since s (snd (install self pkgplan orig s)) (l1 ++ l2)
    /\ (l1 = []
        \/ exists p mode,
             attrs self !! "path" = Some p
             /\ ((orig = None
                  /\ l1 = [CallMakedirs (image_path pkgplan p) mode])
                 \/ (orig <> None
                     /\ exists m, mode = Some m
                          /\ l1 = [CallChmod (image_path pkgplan p) m])))
    /\ (l2 = []
        \/ exists p owner group,
             attrs self !! "path" = Some p
             /\ get_fsobj_uid_gid self pkgplan (destination_fmri pkgplan)
                  (world s) = Ok (owner, group)
             /\ l2 = [CallChown (image_path pkgplan p) owner group]).
Proof.
  intros self pkgplan orig s. unfold calls_since, install.
  unfold bind at 1.
  pose proof (parse_mode_state self (destination_fmri pkgplan) s) as Hs.
  destruct (parse_mode self (destination_fmri pkgplan) s) as [[mode|e] s0];
    cbn [snd] in Hs; subst s0; [|no_call].
  unfold bind at 1. unfold checks at 1.
  destruct (get_fsobj_uid_gid self pkgplan (destination_fmri pkgplan) (world s))
    as [[owner group]|e] eqn:Hog; [|no_call].
  unfold bind at 1.
  pose proof (resolve_orig_state pkgplan orig s) as Hs.
  destruct (resolve_orig pkgplan orig s) as [[prior|e] s0] eqn:Hprior;
    cbn [snd] in Hs; subst s0; [|no_call].
  assert (Hpo : prior = None <-> orig = None).
  { unfold resolve_orig in Hprior. destruct orig as [o|].
    - split; [|discriminate]. intros ->.
      unfold bind in Hprior.
      destruct (parse_mode o (origin_fmri pkgplan) s) as [[om|e] s0];
        [|discriminate].
      unfold checks, ret in Hprior.
      destruct (get_fsobj_uid_gid o pkgplan (origin_fmri pkgplan) (world s0));
        discriminate.
    - injection Hprior as <-. split; reflexivity. }
  destruct (attrs self !! "path") as [p|] eqn:Hp.
  2: { erewrite bind_raise
         by (unfold install_path, bind, getitem; rewrite Hp; reflexivity).
       no_call. }
  rewrite (bind_ok _ _ _ _ _ (install_path_ok _ _ _ s Hp)).
  unfold bind at 1.
  assert (Hfw : snd (force_write mode s) = s).
  { destruct mode as [m|];
      [rewrite force_write_some | rewrite force_write_none];
      [|destruct (is_admin (world s))]; reflexivity. }
  destruct (force_write mode s) as [[mode'|e] s0];
    cbn [snd] in Hfw; subst s0; [|no_call].
  unfold bind.
  destruct (place_call (image_path pkgplan p) mode' prior s)
    as (l1 & Hl1 & Hshape).
  assert (Hl1ok : l1 = []
            \/ exists q mode0,
                 Some p = Some q
                 /\ ((orig = None
                      /\ l1 = [CallMakedirs (image_path pkgplan q) mode0])
                     \/ (orig <> None
                         /\ exists m, mode0 = Some m
                              /\ l1 = [CallChmod (image_path pkgplan q) m]))).
  { destruct Hshape as [-> | [[Hnp ->] | (Hnp & m & -> & ->)]]; [auto| |].
    - right. exists p, mode'. split; [reflexivity|]. left.
      split; [apply Hpo, Hnp | reflexivity].
    - right. exists p, (Some m). split; [reflexivity|]. right.
      split; [rewrite <- Hpo; exact Hnp | eauto]. }
  destruct (place (image_path pkgplan p) mode' prior s)
    as [[continue|e] s1]; cbn [snd] in Hl1.
  - destruct continue.
    + destruct (own_call (image_path pkgplan p) owner group prior s1)
        as (l2 & Hl2 & Hshape2).
      exists l1, l2. split; [rewrite Hl2, Hl1, app_assoc; reflexivity|].
      split; [exact Hl1ok|].
      destruct Hshape2 as [-> | ->]; [auto|].
      right. exists p, owner, group. auto.
    + exists l1, []. rewrite app_nil_r. split; [exact Hl1|].
      split; [exact Hl1ok | auto].
  - exists l1, []. rewrite app_nil_r. split; [exact Hl1|].
    split; [exact Hl1ok | auto].
Qed.

End Frame.

(** ** The update path *)

Section Update.

Context {World : Type} `{Platform World}.

Implicit Types (self : Action) (pkgplan : PkgPlan) (s : State World).

Lemma resolve_orig_ok pkgplan o s om oowner ogroup :
  int8 (attrs o !! "mode") = Ok om ->
  get_fsobj_uid_gid o pkgplan (origin_fmri pkgplan) (world s)
    = Ok (oowner, ogroup) ->
  resolve_orig pkgplan (Some o) s = (Ok (Some (Some om, oowner, ogroup)), s).
Proof.
  intros Hom Hog. unfold resolve_orig.
  rewrite (bind_ok _ _ _ _ _ (parse_mode_ok _ _ s _ Hom)).
  unfold bind, checks, ret. rewrite Hog. reflexivity.
Qed.

(** X4.  An update that has nothing to change touches nothing: when the
    mode [install] works with (the parsed mode, with the owner's write bit
    for a caller without privilege) is the prior action's mode, and the
    resolved owner and group are the prior action's, [install] returns
    normally without a single call. *)
Theorem install_update_nothing_to_do :
  forall self pkgplan o s m owner group p,
  int8 (attrs self !! "mode") = Ok m ->
  int8 (attrs o !! "mode") = Ok (effective_mode (world s) m) ->
  get_fsobj_uid_gid self pkgplan (destination_fmri pkgplan) (world s)
    = Ok (owner, group) ->
  get_fsobj_uid_gid o pkgplan (origin_fmri pkgplan) (world s)
    = Ok (owner, group) ->
  attrs self !! "path" = Some p ->
  install self pkgplan (Some o) s = (Ok tt, s).
Proof.
  intros self pkgplan o s m owner group p Hm Hom Hog Hoog Hp.
  rewrite (install_run _ _ _ _ _ _ _ _ _ Hm Hog
             (resolve_orig_ok _ _ _ _ _ _ Hom Hoog) Hp).
  unfold bind, place.
  rewrite bool_decide_eq_false_2 by (intros Hne; apply Hne; reflexivity).
  cbn [ret]. apply own_skip.
  intros [[=] | (om & oo & og & [= _ <- <-] & [Hne | Hne])]; congruence.
Qed.

(** X5.  On the update path the mode change is not protected: when the
    working mode differs from the prior action's, [install] calls
    [os.chmod], and whatever [os.chmod] raises ("not permitted" and
    "read-only file system" included) ends [install] with that exception,
    before any change of ownership. *)
Theorem install_update_chmod_failure_propagates :
  forall self pkgplan o s m om owner group oowner ogroup p e w1,
  int8 (attrs self !! "mode") = Ok m ->
  int8 (attrs o !! "mode") = Ok om ->
  get_fsobj_uid_gid self pkgplan (destination_fmri pkgplan) (world s)
    = Ok (owner, group) ->
  get_fsobj_uid_gid o pkgplan (origin_fmri pkgplan) (world s)
    = Ok (oowner, ogroup) ->
  attrs self !! "path" = Some p ->
  effective_mode (world s) m <> om ->
  chmod (image_path pkgplan p) (effective_mode (world s) m) (world s)
    = (Raise e, w1) ->
  install self pkgplan (Some o) s
  = (Raise e,
     MkState w1 (calls s ++ [CallChmod (image_path pkgplan p)
                               (effective_mode (world s) m)])).
Proof.
  intros self pkgplan o s m om owner group oowner ogroup p e w1
    Hm Hom Hog Hoog Hp Hne Hch.
  rewrite (install_run _ _ _ _ _ _ _ _ _ Hm Hog
             (resolve_orig_ok _ _ _ _ _ _ Hom Hoog) Hp).
  unfold bind at 1. unfold place.
  rewrite bool_decide_eq_true_2 by congruence.
  unfold bind. rewrite (performs_run _ _ _ _ _ Hch). reflexivity.
Qed.

(** X6.  A prior action whose mode does not parse stops [install] before
    it touches anything: [install] raises (what a [validate] raises, or
    the [UnboundLocalError] of the [omode] that was never assigned, or an
    earlier failure) and the state is the one it started from. *)
Theorem install_prior_mode_invalid :
  forall self pkgplan o s e0,
  int8 (attrs o !! "mode") = Raise e0 ->
  exists e,
    install self pkgplan (Some o) s = (Raise e, s)
    /\ (forall m owner group oowner ogroup p,
          int8 (attrs self !! "mode") = Ok m ->
          get_fsobj_uid_gid self pkgplan (destination_fmri pkgplan) (world s)
            = Ok (owner, group) ->
          validate_fsobj_common o (origin_fmri pkgplan) (world s) = Ok tt ->
          get_fsobj_uid_gid o pkgplan (origin_fmri pkgplan) (world s)
            = Ok (oowner, ogroup) ->
          attrs self !! "path" = Some p ->
          e = UnboundLocalError "omode").
Proof.
  intros self pkgplan o s e0 Hom.
  assert (Hprior : (exists e, resolve_orig pkgplan (Some o) s = (Raise e, s))
            \/ (validate_fsobj_common o (origin_fmri pkgplan) (world s) = Ok tt
                /\ exists oo og,
                     resolve_orig pkgplan (Some o) s
                     = (Ok (Some (None, oo, og)), s))).
  { assert (Hro : resolve_orig pkgplan (Some o) s
              = match validate_fsobj_common o (origin_fmri pkgplan) (world s)
                with
                | Raise ev => (Raise ev, s)
                | Ok _ =>
                    match get_fsobj_uid_gid o pkgplan (origin_fmri pkgplan)
                            (world s) with
                    | Ok og => (Ok (Some (None, fst og, snd og)), s)
                    | Raise e => (Raise e, s)
                    end
                end).
    { unfold resolve_orig, bind. rewrite (parse_mode_invalid _ _ _ _ Hom).
      destruct (validate_fsobj_common o (origin_fmri pkgplan) (world s));
        reflexivity. }
    rewrite Hro.
    destruct (validate_fsobj_common o (origin_fmri pkgplan) (world s))
      as [[]|ev]; [|left; eauto].
    destruct (get_fsobj_uid_gid o pkgplan (origin_fmri pkgplan) (world s))
      as [[oo og]|e];
      [right; split; [reflexivity | exists oo, og; reflexivity]
      |left; eauto]. }
  unfold install. unfold bind at 1.
  pose proof (parse_mode_state self (destination_fmri pkgplan) s) as Hs.
  destruct (parse_mode self (destination_fmri pkgplan) s) as [[mode|e] s0]
    eqn:Hpm; cbn [snd] in Hs; subst s0.
  2: { exists e. split; [reflexivity|].
       intros m owner group oowner ogroup p Hm.
       rewrite (parse_mode_ok _ _ _ _ Hm) in Hpm. discriminate. }
  unfold bind at 1. unfold checks at 1.
  destruct (get_fsobj_uid_gid self pkgplan (destination_fmri pkgplan) (world s))
    as [[owner group]|e] eqn:Hog.
  2: { exists e. split; [reflexivity|]. intros; congruence. }
  destruct Hprior as [(e & Hprior) | (Hval & oo & og & Hprior)].
  { rewrite (bind_raise _ _ _ _ _ Hprior). exists e. split; [reflexivity|].
    intros m owner' group' oowner ogroup p _ _ Hval' Hoog _.
    unfold resolve_orig in Hprior. unfold bind at 1 in Hprior.
    rewrite (parse_mode_invalid _ _ _ _ Hom), Hval' in Hprior.
    unfold bind, checks, ret in Hprior. rewrite Hoog in Hprior.
    discriminate. }
  rewrite (bind_ok _ _ _ _ _ Hprior).
  destruct (attrs self !! "path") as [p|] eqn:Hp.
  2: { erewrite bind_raise
         by (unfold install_path, bind, getitem; rewrite Hp; reflexivity).
       eexists. split; [reflexivity|]. intros; discriminate. }
  rewrite (bind_ok _ _ _ _ _ (install_path_ok _ _ _ s Hp)).
  unfold bind at 1.
  destruct mode as [m|].
  - rewrite force_write_some. exists (UnboundLocalError "omode").
    split; [reflexivity|]. reflexivity.
  - rewrite force_write_none. destruct (is_admin (world s)).
    + exists (UnboundLocalError "omode"). split; reflexivity.
    + exists TypeError. split; [reflexivity|].
      intros m owner' group' oowner ogroup q Hm.
      rewrite (parse_mode_ok _ _ _ _ Hm) in Hpm. discriminate.
Qed.

End Update.

(** ** Normalized paths *)

Lemma append_sep_cons (a b : string) :
  a +:+ posixpath.sep +:+ b = a +:+ String posixpath.sepc b.
Proof. reflexivity. Qed.

Lemma append_cons (c : ascii) (a b : string) :
  String c a +:+ b = String c (a +:+ b).
Proof. reflexivity. Qed.

Lemma split_not_nil d s : Py.split d s <> [].
Proof.
  destruct s as [|c r]; cbn; [discriminate|].
  destruct (Ascii.eqb c d); [discriminate|].
  destruct (Py.split d r); discriminate.
Qed.

Lemma split_cons d c r :
  Py.split d (String c r)
  = if Ascii.eqb c d then "" :: Py.split d r
    else match Py.split d r with
         | [] => [String c ""]
         | w :: ws => String c w :: ws
         end.
Proof. reflexivity. Qed.

(** Splitting at a separator splits the list of components. *)
Lemma split_app_sep a b :
  Py.split posixpath.sepc (a +:+ String posixpath.sepc b)
  = Py.split posixpath.sepc a ++ Py.split posixpath.sepc b.
Proof.
  induction a as [|c a IH].
  - change ("" +:+ String posixpath.sepc b) with (String posixpath.sepc b).
    rewrite split_cons, Ascii.eqb_refl. reflexivity.
  - rewrite append_cons, !split_cons, IH.
    destruct (Ascii.eqb c posixpath.sepc); [reflexivity|].
    destruct (Py.split posixpath.sepc a) as [|w ws] eqn:Hs;
      [exfalso; exact (split_not_nil _ _ Hs) | reflexivity].
Qed.

Lemma split_sep_free_id x :
  Py.mem posixpath.sepc x = false -> Py.split posixpath.sepc x = [x].
Proof.
  induction x as [|c x IH]; [reflexivity|].
  rewrite mem_sep_cons, split_cons. intros Hm.
  apply orb_false_iff in Hm. destruct Hm as [Hc Hx].
  rewrite Hc, (IH Hx). reflexivity.
Qed.

Lemma split_sep_free s x :
  In x (Py.split posixpath.sepc s) -> Py.mem posixpath.sepc x = false.
Proof.
  revert x. induction s as [|c s IH]; intros x.
  - intros [<- | []]. reflexivity.
  - rewrite split_cons. destruct (Ascii.eqb c posixpath.sepc) eqn:Hc.
    + intros [<- | Hin]; [reflexivity | apply IH, Hin].
    + destruct (Py.split posixpath.sepc s) as [|w ws] eqn:Hs;
        [exfalso; exact (split_not_nil _ _ Hs)|].
      intros [<- | Hin].
      * rewrite mem_sep_cons, Hc. apply IH. left. reflexivity.
      * apply IH. right. exact Hin.
Qed.

(** Joining components that hold no separator and splitting again gives
    the components back. *)
Lemma split_join l :
  l <> [] ->
  (forall x, In x l -> Py.mem posixpath.sepc x = false) ->
  Py.split posixpath.sepc (Py.join posixpath.sep l) = l.
Proof.
  induction l as [|x l IH]; [congruence|]. intros _ Hfree.
  destruct l as [|y l].
  - apply split_sep_free_id, Hfree. left. reflexivity.
  - change (Py.join posixpath.sep (x :: y :: l))
      with (x +:+ posixpath.sep +:+ Py.join posixpath.sep (y :: l)).
    rewrite append_sep_cons, split_app_sep, IH.
    + rewrite split_sep_free_id by (apply Hfree; left; reflexivity).
      reflexivity.
    + discriminate.
    + intros z Hz. apply Hfree. right. exact Hz.
Qed.

Lemma norm_step_skip i l c :
  c = "" \/ c = "." -> posixpath.norm_step i l c = l.
Proof.
  intros [-> | ->]; reflexivity.
Qed.

Lemma norm_step_push i l c :
  c <> "" -> c <> "." -> c <> ".." -> posixpath.norm_step i l c = l ++ [c].
Proof.
  intros H1 H2 H3. unfold posixpath.norm_step.
  rewrite (bool_decide_eq_false_2 _ H1), (bool_decide_eq_false_2 _ H2),
    (bool_decide_eq_false_2 _ H3). reflexivity.
Qed.

Lemma norm_step_up_nil i :
  posixpath.norm_step i [] ".." = if bool_decide (i = O) then [".."] else [].
Proof.
  unfold posixpath.norm_step. cbn. destruct (bool_decide (i = O)); reflexivity.
Qed.

Lemma norm_step_up_up i l :
  posixpath.norm_step i (l ++ [".."]) ".." = l ++ [".."; ".."].
Proof.
  unfold posixpath.norm_step. cbn [bool_decide decide_rel].
  rewrite last_snoc.
  rewrite (bool_decide_eq_false_2 (l ++ [".."] = [])) by (destruct l; discriminate).
  rewrite (bool_decide_eq_true_2 (Some ".." = Some "..")) by reflexivity.
  cbn. rewrite orb_true_r, <- app_assoc. reflexivity.
Qed.

Lemma norm_step_up_name i l x :
  x <> ".." -> posixpath.norm_step i (l ++ [x]) ".." = l.
Proof.
  intros Hx. unfold posixpath.norm_step. cbn [bool_decide decide_rel].
  rewrite last_snoc.
  rewrite (bool_decide_eq_false_2 (l ++ [x] = [])) by (destruct l; discriminate).
  rewrite (bool_decide_eq_false_2 (Some x = Some "..")) by congruence.
  cbn. rewrite andb_false_r. cbn. apply removelast_last.
Qed.

Lemma clean_nil : clean [].
Proof. intros x []. Qed.

Lemma clean_app l c : clean l -> c <> "" -> c <> "." -> clean (l ++ [c]).
Proof.
  intros Hl H1 H2 x Hx. apply in_app_or in Hx.
  destruct Hx as [Hx | [<- | []]]; [apply Hl, Hx | auto].
Qed.

Lemma clean_init l x : clean (l ++ [x]) -> clean l.
Proof. intros Hl y Hy. apply Hl, in_or_app. left. exact Hy. Qed.

Lemma norm_step_clean l c : clean l -> clean (posixpath.norm_step 0 l c).
Proof.
  intros Hl.
  destruct (decide (c = "")) as [-> | H1]; [exact Hl|].
  destruct (decide (c = ".")) as [-> | H2]; [exact Hl|].
  destruct (decide (c = "..")) as [-> | H3].
  - destruct l as [|y l'] using rev_ind.
    + rewrite norm_step_up_nil. cbn. apply (clean_app []); [exact Hl| |];
        discriminate.
    + destruct (decide (y = "..")) as [-> | Hy].
      * rewrite norm_step_up_up.
        change (l' ++ [".."; ".."]) with (l' ++ [".."] ++ [".."]).
        rewrite app_assoc. apply clean_app; [exact Hl| |]; discriminate.
      * rewrite (norm_step_up_name _ _ _ Hy). apply (clean_init _ _ Hl).
  - rewrite (norm_step_push _ _ _ H1 H2 H3). apply clean_app; assumption.
Qed.

(** One more component, read after a relative path that is normalized
    already or read with it: the same stack of components. *)
Lemma norm_step_after i S T c :
  clean T ->
  posixpath.norm_step i (fold_left (posixpath.norm_step i) T S) c
  = fold_left (posixpath.norm_step i) (posixpath.norm_step 0 T c) S.
Proof.
  intros HT.
  destruct (decide (c = "")) as [-> | H1]; [reflexivity|].
  destruct (decide (c = ".")) as [-> | H2]; [reflexivity|].
  destruct (decide (c = "..")) as [-> | H3].
  - destruct T as [|y T' _] using rev_ind.
    + rewrite norm_step_up_nil. reflexivity.
    + destruct (decide (y = "..")) as [-> | Hy].
      * rewrite norm_step_up_up.
        change (T' ++ [".."; ".."]) with (T' ++ [".."] ++ [".."]).
        rewrite app_assoc, (fold_left_app _ (T' ++ [".."])). reflexivity.
      * rewrite (norm_step_up_name _ _ _ Hy), fold_left_app. cbn [fold_left].
        destruct (HT y) as [Hy1 Hy2]; [apply in_or_app; right; left; reflexivity|].
        rewrite (norm_step_push _ _ _ Hy1 Hy2 Hy).
        apply norm_step_up_name, Hy.
  - rewrite (norm_step_push 0 _ _ H1 H2 H3), fold_left_app. reflexivity.
Qed.

Lemma norm_fold_after i S q T :
  clean T ->
  fold_left (posixpath.norm_step i) q (fold_left (posixpath.norm_step i) T S)
  = fold_left (posixpath.norm_step i)
      (fold_left (posixpath.norm_step 0) q T) S.
Proof.
  revert T. induction q as [|c q IH]; intros T HT; [reflexivity|].
  cbn [fold_left]. rewrite (norm_step_after _ _ _ _ HT).
  apply IH, norm_step_clean, HT.
Qed.

(** Reading components after any stack, or reading their relative
    normal form instead, leaves the same stack. *)
Lemma norm_fold_normalized i S q :
  fold_left (posixpath.norm_step i) q S
  = fold_left (posixpath.norm_step i)
      (fold_left (posixpath.norm_step 0) q []) S.
Proof. apply (norm_fold_after i S q [] clean_nil). Qed.

Lemma normpath_unfold path :
  posixpath.normpath path
  = if Py.is_empty path then "."
    else if Py.is_empty
              (Py.repeat posixpath.sep (initial_slashes path)
               +:+ Py.join posixpath.sep
                     (norm_comps (initial_slashes path) path))
         then "."
         else Py.repeat posixpath.sep (initial_slashes path)
              +:+ Py.join posixpath.sep
                    (norm_comps (initial_slashes path) path).
Proof. reflexivity. Qed.

Lemma norm_step_in i l c x :
  In x (posixpath.norm_step i l c) -> In x l \/ x = c.
Proof.
  unfold posixpath.norm_step.
  destruct (bool_decide (c = "") || bool_decide (c = ".")); [auto|].
  destruct (_ || _).
  - intros Hx. apply in_app_or in Hx. destruct Hx as [Hx | [<- | []]]; auto.
  - intros Hx. left. revert Hx. clear.
    induction l as [|y l IH]; [intros []|].
    destruct l as [|z l]; [intros []|].
    intros [<- | Hx]; [left; reflexivity | right; apply IH, Hx].
Qed.

Lemma norm_fold_in i q S x :
  In x (fold_left (posixpath.norm_step i) q S) -> In x S \/ In x q.
Proof.
  revert S. induction q as [|c q IH]; intros S; cbn [fold_left]; [auto|].
  intros Hx. destruct (IH _ Hx) as [Hs | Hq]; [|right; right; exact Hq].
  destruct (norm_step_in _ _ _ _ Hs) as [Hs' | ->]; [auto | right; left; auto].
Qed.

Lemma norm_fold_clean q T :
  clean T -> clean (fold_left (posixpath.norm_step 0) q T).
Proof.
  revert T. induction q as [|c q IH]; intros T HT; [exact HT|].
  apply IH, norm_step_clean, HT.
Qed.

Lemma norm_comps_sep_free i p x :
  In x (norm_comps i p) -> Py.mem posixpath.sepc x = false.
Proof.
  intros Hx. destruct (norm_fold_in _ _ _ _ Hx) as [[] | Hq].
  apply (split_sep_free _ _ Hq).
Qed.

Lemma norm_comps_clean p : clean (norm_comps 0 p).
Proof. apply norm_fold_clean, clean_nil. Qed.

(** A join of clean, separator-free components starts with a character
    that is no separator. *)
Lemma join_clean_head x l :
  x <> "" -> Py.mem posixpath.sepc x = false ->
  exists c r, Py.join posixpath.sep (x :: l) = String c r
              /\ Ascii.eqb c posixpath.sepc = false.
Proof.
  intros Hne Hfree. destruct x as [|c x]; [congruence|].
  rewrite mem_sep_cons in Hfree. apply orb_false_iff in Hfree.
  destruct l as [|y l].
  - exists c, x. split; [reflexivity | apply Hfree].
  - exists c, (x +:+ posixpath.sep +:+ Py.join posixpath.sep (y :: l)).
    split; [reflexivity | apply Hfree].
Qed.

(** [normpath] of a path that does not start with a separator. *)
Lemma normpath_relative p :
  Py.startswith p posixpath.sep = false ->
  posixpath.normpath p
  = match norm_comps 0 p with
    | [] => "."
    | comps => Py.join posixpath.sep comps
    end.
Proof.
  intros Hp. rewrite normpath_unfold.
  destruct p as [|c p]; [reflexivity|].
  cbn [Py.is_empty]. unfold initial_slashes.
  change (Py.startswith (String c p) "/")
    with (Py.startswith (String c p) posixpath.sep).
  rewrite Hp. cbn [Py.repeat].
  change ("" +:+ ?x) with x.
  destruct (norm_comps 0 (String c p)) as [|x l] eqn:Hc; [reflexivity|].
  destruct (join_clean_head x l) as (d & r & -> & _); [| |reflexivity].
  - apply (norm_comps_clean (String c p)). rewrite Hc. left. reflexivity.
  - apply (norm_comps_sep_free 0 (String c p)). rewrite Hc. left. reflexivity.
Qed.

Lemma normpath_relative_stays p :
  Py.startswith p posixpath.sep = false ->
  Py.startswith (posixpath.normpath p) posixpath.sep = false
  /\ posixpath.normpath p <> "".
Proof.
  intros Hp. rewrite (normpath_relative p Hp).
  destruct (norm_comps 0 p) as [|x l] eqn:Hc; [split; [reflexivity|discriminate]|].
  destruct (join_clean_head x l) as (d & r & -> & Hd).
  - apply (norm_comps_clean p). rewrite Hc. left. reflexivity.
  - apply (norm_comps_sep_free 0 p). rewrite Hc. left. reflexivity.
  - split; [rewrite startswith_sep; exact Hd | discriminate].
Qed.

(** The components of the normal form of a relative path are read as the
    components of the path are. *)
Lemma norm_fold_normpath i S p :
  Py.startswith p posixpath.sep = false ->
  fold_left (posixpath.norm_step i)
    (Py.split posixpath.sepc (posixpath.normpath p)) S
  = fold_left (posixpath.norm_step i) (Py.split posixpath.sepc p) S.
Proof.
  intros Hp. rewrite (normpath_relative p Hp).
  rewrite (norm_fold_normalized i S (Py.split posixpath.sepc p)).
  fold (norm_comps 0 p).
  destruct (norm_comps 0 p) as [|x l] eqn:Hc; [reflexivity|].
  rewrite split_join; [reflexivity | discriminate |].
  intros y Hy. apply (norm_comps_sep_free 0 p). rewrite Hc. exact Hy.
Qed.

Lemma initial_slashes_joined root q q' :
  Py.startswith q posixpath.sep = false ->
  Py.startswith q' posixpath.sep = false ->
  initial_slashes (root +:+ String posixpath.sepc q)
  = initial_slashes (root +:+ String posixpath.sepc q').
Proof.
  intros Hq Hq'.
  assert (Hnil : forall x : string, "" +:+ x = x) by reflexivity.
  unfold initial_slashes.
  destruct root as [|c [|d [|e r]]]; rewrite ?append_cons, ?Hnil;
    destruct q as [|a q], q' as [|a' q'];
    try rewrite startswith_sep in Hq; try rewrite startswith_sep in Hq';
    unfold posixpath.sepc in *;
    cbn [Py.startswith]; rewrite ?Hq, ?Hq';
    repeat match goal with
           | |- context [Ascii.eqb ?x "/"] => destruct (Ascii.eqb x "/")
           end;
    reflexivity.
Qed.

(** The absolute path of an image-relative path and of its normal form. *)
Lemma normpath_joined_normalized root p :
  Py.startswith p posixpath.sep = false ->
  posixpath.normpath (root +:+ posixpath.sep +:+ posixpath.normpath p)
  = posixpath.normpath (root +:+ posixpath.sep +:+ p).
Proof.
  intros Hp.
  destruct (normpath_relative_stays p Hp) as [Hnp _].
  pose proof (fun i S => norm_fold_normpath i S p Hp) as Hfold.
  remember (posixpath.normpath p) as np eqn:Enp. clear Enp.
  rewrite !append_sep_cons, !normpath_unfold.
  rewrite (initial_slashes_joined root np p Hnp Hp).
  assert (Hne : forall q, Py.is_empty (root +:+ String posixpath.sepc q) = false)
    by (intros q; destruct root; reflexivity).
  rewrite !Hne. unfold norm_comps.
  rewrite !split_app_sep, !fold_left_app, Hfold.
  reflexivity.
Qed.

Lemma normpath_idempotent_relative p :
  Py.startswith p posixpath.sep = false ->
  posixpath.normpath (posixpath.normpath p) = posixpath.normpath p.
Proof.
  intros Hp. destruct (normpath_relative_stays p Hp) as [Hnp _].
  rewrite (normpath_relative _ Hnp). revert Hnp.
  rewrite (normpath_relative p Hp).
  destruct (norm_comps 0 p) as [|x l] eqn:Hc; [reflexivity|]. intros _.
  unfold norm_comps at 1. rewrite split_join.
  - rewrite <- Hc. unfold norm_comps.
    rewrite <- (norm_fold_normalized 0 [] (Py.split posixpath.sepc p)).
    fold (norm_comps 0 p). rewrite Hc. reflexivity.
  - discriminate.
  - intros y Hy. apply (norm_comps_sep_free 0 p). rewrite Hc. exact Hy.
Qed.

Lemma lstrip_sep_relative raw :
  Py.startswith (Py.lstrip posixpath.sep raw) posixpath.sep = false.
Proof.
  induction raw as [|c raw IH]; [reflexivity|].
  rewrite lstrip_sep_cons.
  destruct (Ascii.eqb c posixpath.sepc) eqn:Hc; [exact IH|].
  rewrite startswith_sep. exact Hc.
Qed.

(** What construction leaves in the path attribute. *)
Lemma init_path_inv (rest : gmap string string) (raw : string) (self : Action) :
  init (<["path" := raw]> rest) = Ok self ->
  attrs self !! "path" = Some (Py.lstrip posixpath.sep raw)
  /\ Py.lstrip posixpath.sep raw <> ""
  /\ Py.startswith (Py.lstrip posixpath.sep raw) posixpath.sep = false.
Proof.
  rewrite init_path.
  destruct (Py.is_empty (Py.lstrip posixpath.sep raw)) eqn:He; [discriminate|].
  intros [= <-]. cbn [attrs]. rewrite lookup_insert_eq.
  split; [reflexivity|]. split; [apply is_empty_false, He|].
  apply lstrip_sep_relative.
Qed.

(** X7.  [remove] works on the directory [install] works on.  [install]
    normalizes [root/path]; [remove] normalizes the path first and then
    [root/normalized]: for every action that construction accepts, whatever
    the raw path and the root of the image, the two absolute paths are the
    same string, and it is the argument of the [os.rmdir] that [remove]
    begins with. *)
Theorem remove_addresses_installed_directory :
  forall {World : Type} `{Platform World}
         (rest : gmap string string) (raw : string) (self : Action)
         (pkgplan : PkgPlan) (s : State World),
  init (<["path" := raw]> rest) = Ok self ->
  exists p,
    attrs self !! "path" = Some p
    /\ image_path pkgplan (posixpath.normpath p) = image_path pkgplan p
    /\ install_path self pkgplan s = (Ok (image_path pkgplan p), s)
    /\ exists l, calls_since s (snd (remove self pkgplan s))
                   (CallRmdir (image_path pkgplan p) :: l).
Proof.
  intros World HP rest raw self pkgplan s Hinit.
  destruct (init_path_inv _ _ _ Hinit) as (Hp & _ & Hrel).
  exists (Py.lstrip posixpath.sep raw). split; [exact Hp|].
  assert (Heq : image_path pkgplan
                  (posixpath.normpath (Py.lstrip posixpath.sep raw))
                = image_path pkgplan (Py.lstrip posixpath.sep raw))
    by apply (normpath_joined_normalized _ _ Hrel).
  split; [exact Heq|]. split; [apply install_path_ok, Hp|].
  unfold calls_since. rewrite <- Heq.
  destruct (rmdir (image_path pkgplan
                     (posixpath.normpath (Py.lstrip posixpath.sep raw)))
              (world s)) as [r w'] eqn:Hrm.
  rewrite (remove_run _ _ _ _ _ _ Hp Hrm).
  destruct r as [[]|e]; [exists []; reflexivity|].
  destruct e as [en| | | | | |]; try (exists []; reflexivity).
  destruct (bool_decide (en = ENOENT)); [exists []; reflexivity|].
  destruct (bool_decide (en = EEXIST) || bool_decide (en = ENOTEMPTY)).
  - unfold performs. cbn [world calls].
    destruct (salvagedir _ _ w') as [rs w''].
    eexists. cbn [snd calls]. rewrite <- app_assoc. reflexivity.
  - destruct (bool_decide (en <> EACCES)); exists []; reflexivity.
Qed.

Lemma remove_addresses_installed_directory_witness :
  init (<["path" := "//usr/./lib/../share/"]> {[ "mode" := "0755" ]})
  = Ok {| attrs := <["path" := "usr/./lib/../share/"]> {[ "mode" := "0755" ]} |}
  /\ image_path Sample.plan (posixpath.normpath "usr/./lib/../share/")
     = "/img/usr/share"
  /\ image_path Sample.plan "usr/./lib/../share/" = "/img/usr/share".
Proof.
  assert (Hinit : init (<["path" := "//usr/./lib/../share/"]>
                          {[ "mode" := "0755" ]})
                  = Ok {| attrs := <["path" := "usr/./lib/../share/"]>
                                     {[ "mode" := "0755" ]} |})
    by (rewrite init_path; reflexivity).
  split; [exact Hinit|].
  destruct (remove_addresses_installed_directory
              {[ "mode" := "0755" ]} "//usr/./lib/../share/" _
              Sample.plan (start Sample.populated) Hinit)
    as (p & Hp & Heq & _).
  cbn [attrs] in Hp. rewrite lookup_insert_eq in Hp. injection Hp as <-.
  split; [rewrite Heq|]; vm_compute; reflexivity.
Defined.

(** X8.  The directory reference of an action that construction accepts is
    one path, relative to the image: it is not empty, does not start with a
    separator, and is in normal form already (normalizing it again changes
    nothing). *)
Theorem directory_references_relative_normal :
  forall (rest : gmap string string) (raw : string) (self : Action),
  init (<["path" := raw]> rest) = Ok self ->
  exists d,
    directory_references self = Ok [d]
    /\ d <> ""
    /\ Py.startswith d posixpath.sep = false
    /\ posixpath.normpath d = d.
Proof.
  intros rest raw self Hinit.
  destruct (init_path_inv _ _ _ Hinit) as (Hp & _ & Hrel).
  exists (posixpath.normpath (Py.lstrip posixpath.sep raw)).
  unfold directory_references. rewrite Hp. split; [reflexivity|].
  destruct (normpath_relative_stays _ Hrel) as [Hs Hne].
  split; [exact Hne|]. split; [exact Hs|].
  apply normpath_idempotent_relative, Hrel.
Qed.

Lemma directory_references_relative_normal_witness :
  init (<["path" := "/usr//lib/"]> ∅)
  = Ok {| attrs := <["path" := "usr//lib/"]> ∅ |}
  /\ directory_references {| attrs := <["path" := "usr//lib/"]> ∅ |}
     = Ok ["usr/lib"].
Proof.
  assert (Hinit : init (<["path" := "/usr//lib/"]> ∅)
                  = Ok {| attrs := <["path" := "usr//lib/"]> ∅ |})
    by (rewrite init_path; reflexivity).
  split; [exact Hinit|].
  destruct (directory_references_relative_normal ∅ "/usr//lib/" _ Hinit)
    as (d & Hd & _).
  rewrite Hd. f_equal. vm_compute in Hd. injection Hd as <-. reflexivity.
Defined.

(** ** More on the content-address path *)

Lemma mem_sep_substring n m s :
  Py.mem posixpath.sepc s = false ->
  Py.mem posixpath.sepc (String.substring n m s) = false.
Proof.
  revert n m. induction s as [|c s IH]; intros n m Hs.
  - destruct n, m; reflexivity.
  - rewrite mem_sep_cons in Hs. apply orb_false_iff in Hs.
    destruct Hs as [Hc Hs]. destruct n as [|n].
    + destruct m as [|m]; [reflexivity|].
      cbn [String.substring]. rewrite mem_sep_cons, Hc. apply IH, Hs.
    + cbn [String.substring]. apply IH, Hs.
Qed.

Lemma endswith_sep_free s :
  Py.mem posixpath.sepc s = false ->
  Py.endswith_char s posixpath.sepc = false.
Proof.
  induction s as [|c s IH]; [reflexivity|].
  rewrite mem_sep_cons. intros Hs. apply orb_false_iff in Hs.
  destruct Hs as [Hc Hs]. destruct s as [|d s]; [exact Hc|].
  rewrite endswith_char_cons by discriminate. apply IH, Hs.
Qed.

Lemma endswith_app x y d :
  y <> "" -> Py.endswith_char (x +:+ y) d = Py.endswith_char y d.
Proof.
  intros Hy. induction x as [|c x IH]; [reflexivity|].
  rewrite append_cons, endswith_char_cons; [exact IH|].
  destruct x, y; try discriminate. congruence.
Qed.

Lemma startswith_sep_free s :
  Py.mem posixpath.sepc s = false -> Py.startswith s posixpath.sep = false.
Proof.
  destruct s as [|c s]; [reflexivity|].
  rewrite mem_sep_cons, startswith_sep. intros Hs.
  apply orb_false_iff in Hs. apply Hs.
Qed.

Lemma mem_sep_app_sep x y :
  Py.mem posixpath.sepc (x +:+ String posixpath.sepc y) = true.
Proof.
  induction x as [|c x IH].
  - change ("" +:+ String posixpath.sepc y) with (String posixpath.sepc y).
    rewrite mem_sep_cons, Ascii.eqb_refl. reflexivity.
  - rewrite append_cons, mem_sep_cons, IH. apply orb_true_r.
Qed.

(** The base name of a path that ends in a separator-free name. *)
Lemma basename_app_sep x y :
  Py.mem posixpath.sepc y = false ->
  posixpath.basename (x +:+ String posixpath.sepc y) = y.
Proof.
  intros Hy. induction x as [|c x IH].
  - change ("" +:+ String posixpath.sepc y) with (String posixpath.sepc y).
    rewrite basename_cons, Hy, Ascii.eqb_refl. reflexivity.
  - rewrite append_cons, basename_cons, mem_sep_app_sep. exact IH.
Qed.

(** X9.  Below the eight characters the docstring assumes, for a hash
    without separators: three characters are enough for the two-level path
    [hash[0:2]/hash[2:8]/hash]; a hash of one or two characters gets one
    level only, [hash/hash]; the empty hash gives the empty path. *)
Theorem hash_file_name_short :
  forall f,
  Py.mem posixpath.sepc f = false ->
  ((3 <= String.length f)%nat -> hash_file_name f = sharded f)
  /\ ((1 <= String.length f <= 2)%nat ->
      hash_file_name f = f +:+ posixpath.sep +:+ f)
  /\ (f = "" -> hash_file_name f = "").
Proof.
  intros f Hf. split; [|split].
  - intros Hlen.
    assert (Hb : Py.slice 2 8 f <> "").
    { destruct f as [|c0 [|c1 [|c2 r]]]; cbn in Hlen; try lia. discriminate. }
    assert (Ha : Py.slice 0 2 f <> "").
    { destruct f as [|c0 [|c1 r]]; cbn in Hlen; try lia. discriminate. }
    unfold hash_file_name, sharded, posixpath.join. cbn [fold_left].
    rewrite (join_step_plain (Py.slice 0 2 f)).
    + rewrite join_step_plain.
      * rewrite !append_sep_cons. clear.
        induction (Py.slice 0 2 f) as [|c a IH]; [reflexivity|].
        rewrite !append_cons, IH. reflexivity.
      * apply startswith_sep_free, Hf.
      * apply is_empty_false. destruct (Py.slice 0 2 f); [congruence|discriminate].
      * rewrite append_sep_cons.
        change (String posixpath.sepc (Py.slice 2 8 f))
          with (posixpath.sep +:+ Py.slice 2 8 f).
        rewrite !endswith_app; try exact Hb.
        -- apply endswith_sep_free, mem_sep_substring, Hf.
        -- destruct (Py.slice 2 8 f); [congruence | discriminate].
    + apply startswith_sep_free, mem_sep_substring, Hf.
    + apply is_empty_false, Ha.
    + apply endswith_sep_free, mem_sep_substring, Hf.
  - intros Hlen.
    assert (Ha : Py.slice 0 2 f = f /\ Py.slice 2 8 f = "" /\ f <> "").
    { destruct f as [|c0 [|c1 [|c2 r]]]; cbn in Hlen; try lia;
        repeat split; discriminate. }
    destruct Ha as (Ha & Hb & Hne).
    unfold hash_file_name, posixpath.join. rewrite Ha, Hb. cbn [fold_left].
    rewrite (join_step_plain f "");
      [|reflexivity|apply is_empty_false, Hne|apply endswith_sep_free, Hf].
    unfold posixpath.join_step.
    rewrite (startswith_sep_free _ Hf).
    assert (He : Py.endswith_char (f +:+ posixpath.sep +:+ "") posixpath.sepc
                 = true).
    { rewrite endswith_app by discriminate. reflexivity. }
    rewrite He, orb_true_r.
    assert (Hassoc : forall a b : string,
              (a +:+ posixpath.sep +:+ "") +:+ b = a +:+ posixpath.sep +:+ b).
    { intros a b. induction a as [|x a IH]; [reflexivity|].
      rewrite !append_cons, IH. reflexivity. }
    apply Hassoc.
  - intros ->. reflexivity.
Qed.

Lemma hash_file_name_short_witness :
  Py.mem posixpath.sepc "abc" = false
  /\ hash_file_name "abc" = "ab/c/abc"
  /\ hash_file_name "ab" = "ab/ab".
Proof.
  split; [reflexivity|]. split.
  - rewrite (proj1 (hash_file_name_short "abc" eq_refl)); [reflexivity|].
    cbn. lia.
  - rewrite (proj1 (proj2 (hash_file_name_short "ab" eq_refl)));
      [reflexivity|]. cbn. lia.
Defined.

(** X10.  The file name recovers the hash: for every hash without
    separators, of any length, the base name of its content-address path is
    the hash itself.  So no two such hashes share a path. *)
Theorem hash_file_name_basename :
  forall f g,
  Py.mem posixpath.sepc f = false ->
  Py.mem posixpath.sepc g = false ->
  posixpath.basename (hash_file_name f) = f
  /\ (hash_file_name f = hash_file_name g -> f = g).
Proof.
  assert (Hbase : forall f, Py.mem posixpath.sepc f = false ->
            posixpath.basename (hash_file_name f) = f).
  { intros f Hf.
    destruct (hash_file_name_short f Hf) as (H3 & H12 & H0).
    destruct (le_lt_dec 3 (String.length f)) as [Hlen | Hlen].
    - rewrite (H3 Hlen). unfold sharded.
      rewrite !append_sep_cons.
      change (Py.slice 0 2 f +:+
              String posixpath.sepc (Py.slice 2 8 f +:+ String posixpath.sepc f))
        with (Py.slice 0 2 f +:+ posixpath.sep
              +:+ (Py.slice 2 8 f +:+ String posixpath.sepc f)).
      clear H3 H12 H0.
      assert (Hassoc : forall a b c : string,
                a +:+ posixpath.sep +:+ (b +:+ c)
                = (a +:+ posixpath.sep +:+ b) +:+ c).
      { intros a b c. induction a as [|x a IH]; [reflexivity|].
        rewrite !append_cons, IH. reflexivity. }
      rewrite Hassoc. apply basename_app_sep, Hf.
    - destruct f as [|c f]; [reflexivity|].
      rewrite H12 by (cbn in *; lia).
      rewrite append_sep_cons. apply basename_app_sep, Hf. }
  intros f g Hf Hg. split; [apply Hbase, Hf|].
  intros Heq. rewrite <- (Hbase f Hf), <- (Hbase g Hg), Heq. reflexivity.
Qed.

Lemma hash_file_name_basename_witness :
  Py.mem posixpath.sepc "da39a3ee5e6b4b0d3255bfef95601890afd80709" = false
  /\ posixpath.basename
       (hash_file_name "da39a3ee5e6b4b0d3255bfef95601890afd80709")
     = "da39a3ee5e6b4b0d3255bfef95601890afd80709".
Proof.
  split; [reflexivity|].
  exact (proj1 (hash_file_name_basename
                  "da39a3ee5e6b4b0d3255bfef95601890afd80709" ""
                  eq_refl eq_refl)).
Defined.

(** X11.  Splitting the content-address path of a hash without separators,
    of three characters or more, at the separator gives exactly three
    components: the first two characters, the (at most six) characters that
    follow, and the hash.  The store is two directory levels deep. *)
Theorem hash_file_name_components :
  forall f,
  Py.mem posixpath.sepc f = false ->
  (3 <= String.length f)%nat ->
  Py.split posixpath.sepc (hash_file_name f)
  = [Py.slice 0 2 f; Py.slice 2 8 f; f]
  /\ String.length (Py.slice 0 2 f) = 2%nat
  /\ (1 <= String.length (Py.slice 2 8 f) <= 6)%nat.
Proof.
  intros f Hf Hlen.
  rewrite (proj1 (hash_file_name_short f Hf) Hlen). unfold sharded.
  rewrite !append_sep_cons, !split_app_sep.
  rewrite !split_sep_free_id
    by first [exact Hf | apply mem_sep_substring, Hf].
  split; [reflexivity|].
  destruct f as [|c0 [|c1 [|c2 r]]]; cbn in Hlen; try lia.
  split; [reflexivity|]. unfold Py.slice. cbn [String.substring Nat.sub String.length].
  clear. split; [lia|].
  assert (Hsub : forall n s, (String.length (String.substring 0 n s) <= n)%nat).
  { induction n as [|n IH]; intros [|c s]; cbn; try lia.
    specialize (IH s). lia. }
  specialize (Hsub 5%nat r). lia.
Qed.

Lemma hash_file_name_components_witness :
  Py.mem posixpath.sepc "abcdefghijklmnopqrstuvwxyz" = false
  /\ Py.split posixpath.sepc (hash_file_name "abcdefghijklmnopqrstuvwxyz")
     = ["ab"; "cdefgh"; "abcdefghijklmnopqrstuvwxyz"].
Proof.
  split; [reflexivity|].
  refine (proj1 (hash_file_name_components
                   "abcdefghijklmnopqrstuvwxyz" eq_refl _)).
  cbn. lia.
Defined.

(** ** The update path on a sample image *)

Lemma install_update_nothing_to_do_witness :
  int8 (attrs Sample.usr !! "mode") = Ok 365
  /\ get_fsobj_uid_gid Sample.usr Sample.plan (origin_fmri Sample.plan)
       (world (start Sample.populated)) = Ok (100, 10)
  /\ install Sample.usr Sample.plan (Some Sample.usr) (start Sample.populated)
     = (Ok tt, start Sample.populated).
Proof.
  assert (Hm : int8 (attrs Sample.usr !! "mode") = Ok 365) by reflexivity.
  assert (Hog : get_fsobj_uid_gid Sample.usr Sample.plan
                  (origin_fmri Sample.plan) (world (start Sample.populated))
                = Ok (100, 10)) by reflexivity.
  split; [exact Hm|]. split; [exact Hog|].
  apply (install_update_nothing_to_do Sample.usr Sample.plan Sample.usr
           (start Sample.populated) 365 100 10 "usr");
    reflexivity.
Defined.

Lemma install_update_chmod_failure_propagates_witness :
  effective_mode
    (world (start (Sample.world 100 false
                     (Sample.failing SimOS.SysChmod EROFS)))) 365 <> 365
  /\ chmod (image_path Sample.plan "usr") 493
       (world (start (Sample.world 100 false
                        (Sample.failing SimOS.SysChmod EROFS))))
     = (Raise (OSError EROFS),
        Sample.world 100 false (Sample.failing SimOS.SysChmod EROFS))
  /\ install Sample.usr Sample.plan (Some Sample.usr)
       (start (Sample.world 100 false (Sample.failing SimOS.SysChmod EROFS)))
     = (Raise (OSError EROFS),
        MkState (Sample.world 100 false (Sample.failing SimOS.SysChmod EROFS))
          [CallChmod "/img/usr" 493]).
Proof.
  assert (Hne : effective_mode
                  (world (start (Sample.world 100 false
                                   (Sample.failing SimOS.SysChmod EROFS))))
                  365 <> 365) by discriminate.
  assert (Hch : chmod (image_path Sample.plan "usr") 493
                  (world (start (Sample.world 100 false
                                   (Sample.failing SimOS.SysChmod EROFS))))
                = (Raise (OSError EROFS),
                   Sample.world 100 false
                     (Sample.failing SimOS.SysChmod EROFS)))
    by reflexivity.
  split; [exact Hne|]. split; [exact Hch|].
  rewrite (install_update_chmod_failure_propagates Sample.usr Sample.plan
             Sample.usr
             (start (Sample.world 100 false
                       (Sample.failing SimOS.SysChmod EROFS)))
             365 365 100 10 100 10 "usr" (OSError EROFS)
             (Sample.world 100 false (Sample.failing SimOS.SysChmod EROFS))
             ltac:(reflexivity) ltac:(reflexivity) ltac:(reflexivity)
             ltac:(reflexivity) ltac:(reflexivity) Hne Hch).
  reflexivity.
Defined.

Lemma install_prior_mode_invalid_witness :
  int8 (attrs Sample.usr_no_mode !! "mode") = Raise TypeError
  /\ exists e,
       install Sample.usr Sample.plan (Some Sample.usr_no_mode)
         (start Sample.populated)
       = (Raise e, start Sample.populated).
Proof.
  assert (Hom : int8 (attrs Sample.usr_no_mode !! "mode") = Raise TypeError)
    by reflexivity.
  split; [exact Hom|].
  destruct (install_prior_mode_invalid Sample.usr Sample.plan
              Sample.usr_no_mode (start Sample.populated) TypeError Hom)
    as (e & Hrun & _).
  exists e. exact Hrun.
Defined.

(** ** [sysvpkg] *)

Lemma mem_cons c d x :
  Py.mem c (String d x) = Ascii.eqb c d || Py.mem c x.
Proof. cbn. destruct (Ascii.eqb c d); reflexivity. Qed.

Lemma split_app_char d a b :
  Py.split d (a +:+ String d b) = Py.split d a ++ Py.split d b.
Proof.
  induction a as [|c a IH].
  - change ("" +:+ String d b) with (String d b).
    rewrite split_cons, Ascii.eqb_refl. reflexivity.
  - rewrite append_cons, !split_cons, IH.
    destruct (Ascii.eqb c d); [reflexivity|].
    destruct (Py.split d a) as [|w ws] eqn:Hs;
      [exfalso; exact (split_not_nil _ _ Hs) | reflexivity].
Qed.

Lemma split_free_id d x : Py.mem d x = false -> Py.split d x = [x].
Proof.
  induction x as [|c x IH]; [reflexivity|].
  rewrite mem_cons, split_cons. intros Hm.
  apply orb_false_iff in Hm. destruct Hm as [Hc Hx].
  rewrite Ascii.eqb_sym, Hc, (IH Hx). reflexivity.
Qed.

Lemma split_join_char d l :
  l <> [] ->
  (forall x, In x l -> Py.mem d x = false) ->
  Py.split d (Py.join (String d "") l) = l.
Proof.
  induction l as [|x l IH]; [congruence|]. intros _ Hfree.
  destruct l as [|y l].
  - apply split_free_id, Hfree. left. reflexivity.
  - change (Py.join (String d "") (x :: y :: l))
      with (x +:+ String d "" +:+ Py.join (String d "") (y :: l)).
    change (String d "" +:+ Py.join (String d "") (y :: l))
      with (String d (Py.join (String d "") (y :: l))).
    rewrite split_app_char, IH.
    + rewrite split_free_id by (apply Hfree; left; reflexivity).
      reflexivity.
    + discriminate.
    + intros z Hz. apply Hfree. right. exact Hz.
Qed.

Lemma for_lines_app {A} (body : A -> string -> sysvpkg.Res A) a b acc :
  sysvpkg.for_lines body (a ++ b) acc
  = sysvpkg.and_then (sysvpkg.for_lines body a acc) (sysvpkg.for_lines body b).
Proof.
  revert acc. induction a as [|l a IH]; intros acc; [reflexivity|].
  cbn [app sysvpkg.for_lines]. destruct (body acc l); [apply IH | reflexivity].
Qed.

Lemma one_of_in letters type :
  sysvpkg.one_of letters type = true -> In type letters.
Proof.
  unfold sysvpkg.one_of. intros H. apply existsb_exists in H.
  destruct H as [l [Hin Hl]]. apply bool_decide_eq_true in Hl. subst. exact Hin.
Qed.

(** X12.  A pkgmap line whose first field is no number is read as the same
    line with part number 1 put in front. *)
Theorem PkgMapLine_default_part :
  forall (int : string -> option Z) line,
  int (hd "" (Py.split sysvpkg.space line)) = None ->
  int "1" = Some 1 ->
  sysvpkg.PkgMapLine_init int line
  = sysvpkg.PkgMapLine_init int ("1 " +:+ line).
Proof.
  intros int line Hnone Hone. unfold sysvpkg.PkgMapLine_init.
  change ("1 " +:+ line) with ("1" +:+ String sysvpkg.space line).
  rewrite split_app_char.
  change (Py.split sysvpkg.space "1" ++ Py.split sysvpkg.space line)
    with ("1" :: Py.split sysvpkg.space line).
  cbn [hd]. rewrite Hnone, Hone. reflexivity.
Qed.

Lemma PkgMapLine_default_part_witness :
  sysvpkg.PkgMapLine_init sysvpkg.decimal "d none usr/lib 0755 root bin"
  = sysvpkg.PkgMapLine_init sysvpkg.decimal "1 d none usr/lib 0755 root bin".
Proof.
  apply (PkgMapLine_default_part sysvpkg.decimal
           "d none usr/lib 0755 root bin"); reflexivity.
Defined.

(** X13.  Reading gives back what was written: the fields of an entry whose
    type letter fits its shape, joined by single spaces behind a numeral of
    its part number, are read as that entry, when no field holds a space
    (and neither side of a link holds an equals sign). *)
Theorem PkgMapLine_reads_back :
  forall (int : string -> option Z) e numeral,
  int numeral = Some (sysvpkg.part_of e) ->
  sysvpkg.proper e = true ->
  sysvpkg.spaceless (numeral :: sysvpkg.fields e) ->
  sysvpkg.PkgMapLine_init int (Py.join " " (numeral :: sysvpkg.fields e))
  = sysvpkg.Done e.
Proof.
  intros int e numeral Hint Hproper Hfree. unfold sysvpkg.PkgMapLine_init.
  change " "%string with (String sysvpkg.space "").
  rewrite split_join_char by (try discriminate; exact Hfree).
  cbn [hd]. rewrite Hint.
  destruct e; cbn [sysvpkg.fields sysvpkg.part_of sysvpkg.proper] in *.
  - reflexivity.
  - apply one_of_in in Hproper.
    destruct Hproper as [<-|[<-|[<-|[]]]]; reflexivity.
  - apply one_of_in in Hproper.
    destruct Hproper as [<-|[<-|[]]]; reflexivity.
  - apply one_of_in in Hproper.
    destruct Hproper as [<-|[<-|[<-|[]]]]; reflexivity.
  - apply andb_true_iff in Hproper. destruct Hproper as [Hproper Ht].
    apply andb_true_iff in Hproper. destruct Hproper as [Hproper Hp].
    apply negb_true_iff in Ht, Hp.
    assert (Hs : Py.split "=" (pathname +:+ "=" +:+ target) = [pathname; target]).
    { change ("=" +:+ target) with (String "="%char target).
      rewrite split_app_char, !split_free_id by assumption. reflexivity. }
    apply one_of_in in Hproper.
    destruct Hproper as [<-|[<-|[]]]; cbv beta iota; cbn [bool_decide];
      rewrite Hs; reflexivity.
Qed.

Lemma PkgMapLine_reads_back_witness :
  sysvpkg.PkgMapLine_init sysvpkg.decimal "2 s none usr/bin/vi=../lib/vi"
  = sysvpkg.Done (sysvpkg.Link 2 "s" "none" "usr/bin/vi" "../lib/vi").
Proof.
  apply (PkgMapLine_reads_back sysvpkg.decimal
           (sysvpkg.Link 2 "s" "none" "usr/bin/vi" "../lib/vi") "2");
    [reflexivity | reflexivity |].
  intros x Hx. cbn in Hx.
  destruct Hx as [<-|[<-|[<-|[<-|[]]]]]; reflexivity.
Defined.

(** X14.  A line with the wrong number of fields is refused: for the types
    that are unpacked into a fixed number of names, any other number of
    fields after the class raises the [ValueError] of the unpacking; a line
    that stops at its type letter raises [IndexError], unless the letter
    is [i]. *)
Theorem PkgMapLine_field_count :
  forall (int : string -> option Z) numeral n type klass rest k,
  int numeral = Some n ->
  sysvpkg.spaceless (numeral :: type :: klass :: rest) ->
  sysvpkg.arity type = Some k ->
  (length rest <> k ->
   sysvpkg.PkgMapLine_init int (Py.join " " (numeral :: type :: klass :: rest))
   = sysvpkg.Fail sysvpkg.UnpackError)
  /\ sysvpkg.PkgMapLine_init int (Py.join " " [numeral; type])
     = sysvpkg.Fail sysvpkg.IndexError.
Proof.
  intros int numeral n type klass rest k Hint Hfree Hk.
  assert (Hfree2 : sysvpkg.spaceless [numeral; type]).
  { intros x [<-|[<-|[]]]; apply Hfree; cbn; auto. }
  unfold sysvpkg.PkgMapLine_init.
  change " "%string with (String sysvpkg.space "").
  rewrite !split_join_char by (try discriminate; assumption).
  cbn [hd]. rewrite Hint. unfold sysvpkg.arity in Hk.
  destruct (sysvpkg.one_of ["f"; "e"; "v"] type) eqn:H1.
  { injection Hk as <-. apply one_of_in in H1.
    destruct H1 as [<-|[<-|[<-|[]]]]; (split; [|reflexivity]); intros Hlen;
      do 8 (try destruct rest as [|? rest]); cbn in Hlen;
      try reflexivity; lia. }
  destruct (sysvpkg.one_of ["b"; "c"] type) eqn:H2.
  { injection Hk as <-. apply one_of_in in H2.
    destruct H2 as [<-|[<-|[]]]; (split; [|reflexivity]); intros Hlen;
      do 7 (try destruct rest as [|? rest]); cbn in Hlen;
      try reflexivity; lia. }
  destruct (sysvpkg.one_of ["d"; "x"; "p"] type) eqn:H3; [|discriminate].
  injection Hk as <-. apply one_of_in in H3.
  destruct H3 as [<-|[<-|[<-|[]]]]; (split; [|reflexivity]); intros Hlen;
    do 5 (try destruct rest as [|? rest]); cbn in Hlen;
    try reflexivity; lia.
Qed.

Lemma PkgMapLine_field_count_witness :
  sysvpkg.PkgMapLine_init sysvpkg.decimal "1 d none my dir 0755 root bin"
  = sysvpkg.Fail sysvpkg.UnpackError.
Proof.
  refine (proj1 (PkgMapLine_field_count sysvpkg.decimal "1" 1 "d" "none"
                   ["my"; "dir"; "0755"; "root"; "bin"] 4 _ _ _) _);
    [reflexivity | | reflexivity | cbn; lia].
  intros x Hx. cbn in Hx.
  destruct Hx as [<-|[<-|[<-|[<-|[<-|[<-|[<-|[<-|[]]]]]]]]]; reflexivity.
Defined.

(** X15.  A line with a class whose type letter is none of the eleven known
    ones raises [ValueError] with a message that names the letter. *)
Theorem PkgMapLine_unknown_type :
  forall (int : string -> option Z) numeral n type klass rest,
  int numeral = Some n ->
  sysvpkg.spaceless (numeral :: type :: klass :: rest) ->
  sysvpkg.one_of sysvpkg.letters type = false ->
  sysvpkg.PkgMapLine_init int (Py.join " " (numeral :: type :: klass :: rest))
  = sysvpkg.Fail (sysvpkg.ValueError ("Invalid file type: " +:+ type)).
Proof.
  intros int numeral n type klass rest Hint Hfree Hnone.
  unfold sysvpkg.PkgMapLine_init.
  change " "%string with (String sysvpkg.space "").
  rewrite split_join_char by (try discriminate; assumption).
  cbn [hd]. rewrite Hint.
  cbn [sysvpkg.one_of sysvpkg.letters existsb] in Hnone.
  repeat (apply orb_false_iff in Hnone; destruct Hnone as [? Hnone]).
  repeat match goal with
         | H : bool_decide (type = _) = false |- _ => rewrite H; clear H
         end.
  reflexivity.
Qed.

Lemma PkgMapLine_unknown_type_witness :
  sysvpkg.PkgMapLine_init sysvpkg.decimal "1 z none usr"
  = sysvpkg.Fail (sysvpkg.ValueError "Invalid file type: z").
Proof.
  apply (PkgMapLine_unknown_type sysvpkg.decimal "1" 1 "z" "none" ["usr"]);
    [reflexivity | | reflexivity].
  intros x Hx. cbn in Hx.
  destruct Hx as [<-|[<-|[<-|[<-|[]]]]]; reflexivity.
Defined.

Lemma readPkgmapFile_from int fp acc :
  sysvpkg.for_lines
    (fun pkgmap line =>
       let line := Py.rstrip sysvpkg.newline line in
       if sysvpkg.empty_or_starts "#" line then sysvpkg.Done pkgmap
       else if sysvpkg.empty_or_starts ":" line then sysvpkg.Done pkgmap
       else match sysvpkg.PkgMapLine_init int line with
            | sysvpkg.Done entry => sysvpkg.Done (pkgmap ++ [entry])
            | sysvpkg.Fail e => sysvpkg.Fail e
            end)
    fp acc
  = sysvpkg.and_then (sysvpkg.readPkgmapFile int fp)
      (fun entries => sysvpkg.Done (acc ++ entries)).
Proof.
  unfold sysvpkg.readPkgmapFile. revert acc.
  induction fp as [|l fp IH]; intros acc.
  - cbn. rewrite app_nil_r. reflexivity.
  - cbn [sysvpkg.for_lines]. cbv zeta.
    destruct (sysvpkg.empty_or_starts "#" (Py.rstrip sysvpkg.newline l)).
    { rewrite IH. rewrite (IH []). reflexivity. }
    destruct (sysvpkg.empty_or_starts ":" (Py.rstrip sysvpkg.newline l)).
    { rewrite IH. rewrite (IH []). reflexivity. }
    destruct (sysvpkg.PkgMapLine_init int (Py.rstrip sysvpkg.newline l))
      as [entry|e]; [|reflexivity].
    rewrite IH. rewrite (IH ([] ++ [entry])).
    destruct (sysvpkg.for_lines _ fp []) as [entries|e]; [|reflexivity].
    cbn. rewrite <- app_assoc. reflexivity.
Qed.

(** X16.  Reading a pkgmap goes line by line: the entries of two blocks of
    lines read one after the other are the entries of the first block
    followed by those of the second, and the first line that is refused
    makes the whole reading fail with its exception. *)
Theorem readPkgmapFile_app :
  forall (int : string -> option Z) a b,
  sysvpkg.readPkgmapFile int (a ++ b)
  = sysvpkg.and_then (sysvpkg.readPkgmapFile int a) (fun front =>
      sysvpkg.and_then (sysvpkg.readPkgmapFile int b) (fun back =>
        sysvpkg.Done (front ++ back))).
Proof.
  intros int a b. unfold sysvpkg.readPkgmapFile at 1.
  rewrite for_lines_app.
  change (sysvpkg.for_lines _ a []) with (sysvpkg.readPkgmapFile int a).
  destruct (sysvpkg.readPkgmapFile int a) as [front|e]; [|reflexivity].
  cbn [sysvpkg.and_then]. apply readPkgmapFile_from.
Qed.

(** X17.  Blank lines, comment lines and the size line that starts with a
    colon leave no trace: a pkgmap reads the same with and without them. *)
Theorem readPkgmapFile_skips :
  forall (int : string -> option Z) a line b,
  sysvpkg.skipped line = true ->
  sysvpkg.readPkgmapFile int (a ++ line :: b)
  = sysvpkg.readPkgmapFile int (a ++ b).
Proof.
  intros int a line b Hskip. unfold sysvpkg.readPkgmapFile.
  rewrite !for_lines_app.
  destruct (sysvpkg.for_lines _ a []) as [front|e]; [|reflexivity].
  cbn [sysvpkg.and_then sysvpkg.for_lines]. cbv zeta.
  unfold sysvpkg.skipped in Hskip. cbv zeta in Hskip.
  destruct (sysvpkg.empty_or_starts "#" (Py.rstrip sysvpkg.newline line));
    [reflexivity|].
  cbn in Hskip. rewrite Hskip. reflexivity.
Qed.

Lemma readPkgmapFile_skips_witness :
  sysvpkg.readPkgmapFile sysvpkg.decimal
    (["1 d none usr 0755 root bin"] ++ "# a comment" :: ["1 d none usr/lib 0755 root bin"])
  = sysvpkg.readPkgmapFile sysvpkg.decimal
      (["1 d none usr 0755 root bin"] ++ ["1 d none usr/lib 0755 root bin"]).
Proof.
  apply (readPkgmapFile_skips sysvpkg.decimal
           ["1 d none usr 0755 root bin"] "# a comment"
           ["1 d none usr/lib 0755 root bin"]).
  reflexivity.
Defined.

Lemma append_nil_l (s : string) : "" +:+ s = s.
Proof. reflexivity. Qed.

Lemma append_assoc3 (a b c : string) : (a +:+ b) +:+ c = a +:+ (b +:+ c).
Proof.
  induction a as [|x a IH]; [reflexivity|].
  rewrite !append_cons, IH. reflexivity.
Qed.

Lemma rstrip_cons chars c r :
  Py.rstrip chars (String c r)
  = match Py.rstrip chars r with
    | EmptyString => if Py.mem c chars then EmptyString else String c EmptyString
    | r' => String c r'
    end.
Proof. reflexivity. Qed.

Lemma rstrip_cons_out chars c r :
  Py.mem c chars = false ->
  Py.rstrip chars (String c r) = String c (Py.rstrip chars r).
Proof.
  intros H. rewrite rstrip_cons, H. destruct (Py.rstrip chars r); reflexivity.
Qed.

Lemma rstrip_snoc_in chars s c :
  Py.mem c chars = true ->
  Py.rstrip chars (s +:+ String c "") = Py.rstrip chars s.
Proof.
  intros H. induction s as [|x s IH].
  - rewrite append_nil_l, rstrip_cons. cbn [Py.rstrip]. rewrite H. reflexivity.
  - rewrite append_cons, !rstrip_cons, IH. reflexivity.
Qed.

Lemma rstrip_snoc_out chars s c :
  Py.mem c chars = false ->
  Py.rstrip chars (s +:+ String c "") = s +:+ String c "".
Proof.
  intros H. induction s as [|x s IH].
  - rewrite append_nil_l, rstrip_cons. cbn [Py.rstrip]. rewrite H. reflexivity.
  - rewrite append_cons, rstrip_cons, IH.
    destruct s; reflexivity.
Qed.

Lemma mem_rstrip d chars s :
  Py.mem d s = false -> Py.mem d (Py.rstrip chars s) = false.
Proof.
  induction s as [|x s IH]; [reflexivity|].
  rewrite mem_cons, rstrip_cons. intros H.
  apply orb_false_iff in H. destruct H as [Hx Hs]. specialize (IH Hs).
  destruct (Py.rstrip chars s) as [|y r].
  - destruct (Py.mem x chars); [reflexivity|]. rewrite mem_cons, Hx. reflexivity.
  - rewrite mem_cons, Hx, IH. reflexivity.
Qed.

Lemma split_once_cons d c r :
  PyStr.split_once d (String c r)
  = if Ascii.eqb c d then [""; r]
    else match PyStr.split_once d r with
         | [] => [String c ""]
         | w :: ws => String c w :: ws
         end.
Proof. reflexivity. Qed.

Lemma split_once_at d k rest :
  Py.mem d k = false ->
  PyStr.split_once d (k +:+ String d rest) = [k; rest].
Proof.
  induction k as [|c k IH].
  - intros _. rewrite append_nil_l, split_once_cons, Ascii.eqb_refl. reflexivity.
  - rewrite mem_cons, append_cons, split_once_cons. intros H.
    apply orb_false_iff in H. destruct H as [Hc Hk].
    rewrite Ascii.eqb_sym, Hc, (IH Hk). reflexivity.
Qed.

Lemma split_once_free d s :
  Py.mem d s = false -> PyStr.split_once d s = [s].
Proof.
  induction s as [|c s IH]; [reflexivity|].
  rewrite mem_cons, split_once_cons. intros H.
  apply orb_false_iff in H. destruct H as [Hc Hs].
  rewrite Ascii.eqb_sym, Hc, (IH Hs). reflexivity.
Qed.

Lemma strip_quoted v :
  Py.lstrip sysvpkg.quote v = v ->
  Py.rstrip sysvpkg.quote v = v ->
  PyStr.strip sysvpkg.quote (sysvpkg.quote +:+ v +:+ sysvpkg.quote) = v.
Proof.
  intros Hl Hr. unfold PyStr.strip.
  change (sysvpkg.quote +:+ v +:+ sysvpkg.quote)
    with (String "034"%char (v +:+ sysvpkg.quote)).
  change (Py.lstrip sysvpkg.quote (String "034"%char (v +:+ sysvpkg.quote)))
    with (Py.lstrip sysvpkg.quote (v +:+ sysvpkg.quote)).
  destruct v as [|c r]; [reflexivity|].
  assert (Hc : Py.mem c sysvpkg.quote = false).
  { cbn [Py.lstrip] in Hl. destruct (Py.mem c sysvpkg.quote); [|reflexivity].
    exfalso.
    assert (Hlen : forall s, (String.length (Py.lstrip sysvpkg.quote s)
                              <= String.length s)%nat).
    { induction s as [|y s IHs]; [reflexivity|]. cbn [Py.lstrip].
      destruct (Py.mem y sysvpkg.quote); cbn [String.length]; [lia | lia]. }
    specialize (Hlen r). rewrite Hl in Hlen. cbn [String.length] in Hlen. lia. }
  rewrite append_cons. cbn [Py.lstrip]. rewrite Hc.
  rewrite <- append_cons.
  unfold sysvpkg.quote at 2.
  rewrite rstrip_snoc_in by reflexivity. exact Hr.
Qed.

Lemma is_space_newline c :
  PyStr.is_space c = false -> Py.mem c sysvpkg.newline = false.
Proof.
  unfold PyStr.is_space, sysvpkg.newline, whitespace. rewrite !mem_cons.
  intros H. repeat (apply orb_false_iff in H; destruct H as [? H]).
  cbn [Py.mem orb]. rewrite orb_false_r. assumption.
Qed.

Lemma lstrip_plain c r :
  PyStr.is_space c = false ->
  Py.lstrip whitespace (String c r) = String c r.
Proof.
  unfold PyStr.is_space. intros H. cbn [Py.lstrip]. rewrite H. reflexivity.
Qed.

Lemma rstrip_assignment key val :
  Py.rstrip sysvpkg.newline val = val ->
  Py.rstrip sysvpkg.newline (key +:+ String "="%char (val +:+ sysvpkg.newline))
  = key +:+ String "="%char val.
Proof.
  intros Hval. induction key as [|x key IH].
  - rewrite !append_nil_l, rstrip_cons_out by reflexivity.
    unfold sysvpkg.newline at 2. rewrite rstrip_snoc_in by reflexivity.
    rewrite Hval. reflexivity.
  - rewrite !(append_cons x key), rstrip_cons, IH.
    destruct key; reflexivity.
Qed.

(** What an assignment line does to the dictionary. *)
Lemma readPkginfoFile_sets fp key val :
  sysvpkg.plain key = true ->
  Py.mem "=" key = false ->
  Py.rstrip sysvpkg.newline val = val ->
  sysvpkg.readPkginfoFile (fp ++ [key +:+ "=" +:+ val +:+ sysvpkg.newline])
  = sysvpkg.and_then (sysvpkg.readPkginfoFile fp) (fun pkginfo =>
      sysvpkg.Done
        (<[key := sysvpkg.Str (PyStr.strip sysvpkg.quote val)]> pkginfo)).
Proof.
  intros Hplain Hkey Hval. unfold sysvpkg.readPkginfoFile.
  rewrite for_lines_app.
  destruct (sysvpkg.for_lines _ fp ∅) as [pkginfo|e]; [|reflexivity].
  cbn [sysvpkg.and_then sysvpkg.for_lines]. cbv zeta.
  destruct key as [|c key]; [discriminate|].
  cbn [sysvpkg.plain] in Hplain. apply andb_true_iff in Hplain.
  destruct Hplain as [Hsp Hhash]. apply negb_true_iff in Hsp, Hhash.
  rewrite append_cons, (lstrip_plain _ _ Hsp).
  assert (Hline : Py.rstrip sysvpkg.newline
                    (String c (key +:+ "=" +:+ val +:+ sysvpkg.newline))
                  = String c key +:+ String "="%char val).
  { change (String c (key +:+ "=" +:+ val +:+ sysvpkg.newline))
      with (String c key +:+ String "="%char (val +:+ sysvpkg.newline)).
    apply rstrip_assignment, Hval. }
  rewrite Hline, split_once_at by exact Hkey.
  rewrite append_cons. cbn [Py.is_empty sysvpkg.empty_or_starts].
  rewrite Hhash. reflexivity.
Qed.

(** X18.  An assignment with a quoted value is read back without its
    quotes, and it overrides what the lines before it gave the key: after
    [KEY="value"] the dictionary maps the key to the value. *)
Theorem readPkginfoFile_assignment :
  forall fp key value,
  sysvpkg.plain key = true ->
  Py.mem "=" key = false ->
  Py.lstrip sysvpkg.quote value = value ->
  Py.rstrip sysvpkg.quote value = value ->
  sysvpkg.readPkginfoFile
    (fp ++ [key +:+ "=" +:+ (sysvpkg.quote +:+ value +:+ sysvpkg.quote)
                +:+ sysvpkg.newline])
  = sysvpkg.and_then (sysvpkg.readPkginfoFile fp) (fun pkginfo =>
      sysvpkg.Done (<[key := sysvpkg.Str value]> pkginfo)).
Proof.
  intros fp key value Hplain Hkey Hl Hr.
  rewrite (readPkginfoFile_sets fp key
             (sysvpkg.quote +:+ value +:+ sysvpkg.quote)); try assumption.
  - rewrite strip_quoted by assumption. reflexivity.
  - change (sysvpkg.quote +:+ value +:+ sysvpkg.quote)
      with (String "034"%char (value +:+ String "034"%char "")).
    rewrite rstrip_cons_out by reflexivity. f_equal.
    apply rstrip_snoc_out. reflexivity.
Qed.

Lemma readPkginfoFile_assignment_witness :
  sysvpkg.readPkginfoFile
    (["VERSION=1"; "ARCH=i386"]
     ++ ["VERSION" +:+ "=" +:+ (sysvpkg.quote +:+ "2" +:+ sysvpkg.quote)
                   +:+ sysvpkg.newline])
  = sysvpkg.and_then (sysvpkg.readPkginfoFile ["VERSION=1"; "ARCH=i386"])
      (fun pkginfo => sysvpkg.Done (<["VERSION" := sysvpkg.Str "2"]> pkginfo)).
Proof.
  apply (readPkginfoFile_assignment ["VERSION=1"; "ARCH=i386"] "VERSION" "2");
    reflexivity.
Defined.

Lemma rstrip_plain c r :
  PyStr.is_space c = false ->
  Py.rstrip sysvpkg.newline (String c r)
  = String c (Py.rstrip sysvpkg.newline r).
Proof. intros H. apply rstrip_cons_out, is_space_newline, H. Qed.

(** X19.  A line that is neither blank nor a comment and holds no equals
    sign stops the reading of a pkginfo: the unpacking of its two sides
    raises, whatever follows. *)
Theorem readPkginfoFile_no_equals :
  forall a line b pkginfo,
  sysvpkg.readPkginfoFile a = sysvpkg.Done pkginfo ->
  sysvpkg.plain line = true ->
  Py.mem "=" line = false ->
  sysvpkg.readPkginfoFile (a ++ line :: b) = sysvpkg.Fail sysvpkg.UnpackError.
Proof.
  intros a line b pkginfo Ha Hplain Heq. unfold sysvpkg.readPkginfoFile in *.
  rewrite for_lines_app, Ha.
  cbn [sysvpkg.and_then sysvpkg.for_lines]. cbv zeta.
  destruct line as [|c r]; [discriminate|].
  cbn [sysvpkg.plain] in Hplain. apply andb_true_iff in Hplain.
  destruct Hplain as [Hsp Hhash]. apply negb_true_iff in Hsp, Hhash.
  rewrite (lstrip_plain _ _ Hsp), (rstrip_plain _ _ Hsp).
  cbn [Py.is_empty sysvpkg.empty_or_starts]. rewrite Hhash.
  rewrite split_once_free; [reflexivity|].
  rewrite <- (rstrip_plain _ _ Hsp). apply mem_rstrip, Heq.
Qed.

Lemma readPkginfoFile_no_equals_witness :
  sysvpkg.readPkginfoFile (["PKG=SUNWcsd"] ++ "NAME" :: ["ARCH=i386"])
  = sysvpkg.Fail sysvpkg.UnpackError.
Proof.
  apply (readPkginfoFile_no_equals ["PKG=SUNWcsd"] "NAME" ["ARCH=i386"]
           (<["PKG" := sysvpkg.Str "SUNWcsd"]> ∅)); reflexivity.
Defined.

Lemma rstrip_app_plain p s :
  sysvpkg.blank_free p = true ->
  Py.rstrip sysvpkg.newline (p +:+ s) = p +:+ Py.rstrip sysvpkg.newline s.
Proof.
  induction p as [|c p IH]; [reflexivity|]. cbn [sysvpkg.blank_free].
  intros H. apply andb_true_iff in H. destruct H as [Hc Hp].
  apply negb_true_iff in Hc.
  rewrite !append_cons, (rstrip_plain _ _ Hc), (IH Hp). reflexivity.
Qed.

(** X20.  The comment line [#FASPACD=] sets the [faspac] entry to the words
    that follow it, less every leading character that occurs in the marker
    itself: the marker is stripped as a set of characters, not as a
    prefix. *)
Theorem readPkginfoFile_faspac :
  forall fp names,
  sysvpkg.readPkginfoFile (fp ++ ["#FASPACD=" +:+ names +:+ sysvpkg.newline])
  = sysvpkg.and_then (sysvpkg.readPkginfoFile fp) (fun pkginfo =>
      sysvpkg.Done
        (<["faspac" :=
             sysvpkg.Words
               (PyStr.words
                  (Py.lstrip "#FASPACD=" (Py.rstrip sysvpkg.newline names)))]>
           pkginfo)).
Proof.
  intros fp names. unfold sysvpkg.readPkginfoFile.
  rewrite for_lines_app.
  destruct (sysvpkg.for_lines _ fp ∅) as [pkginfo|e]; [|reflexivity].
  cbn [sysvpkg.and_then sysvpkg.for_lines]. cbv zeta.
  assert (Hl : Py.lstrip whitespace ("#FASPACD=" +:+ names +:+ sysvpkg.newline)
               = "#FASPACD=" +:+ names +:+ sysvpkg.newline) by reflexivity.
  assert (Hr : Py.rstrip sysvpkg.newline
                 ("#FASPACD=" +:+ names +:+ sysvpkg.newline)
               = "#FASPACD=" +:+ Py.rstrip sysvpkg.newline names).
  { rewrite rstrip_app_plain by reflexivity.
    unfold sysvpkg.newline at 2. rewrite rstrip_snoc_in by reflexivity.
    reflexivity. }
  rewrite Hl, Hr. reflexivity.
Qed.

Lemma word_cons n c r :
  PyStr.word n (String c r)
  = if PyStr.is_space c then ("", PyStr.items n r)
    else let '(w, rest) := PyStr.word n r in (String c w, rest).
Proof. reflexivity. Qed.

Lemma word_to_blank n w c rest :
  sysvpkg.blank_free w = true ->
  PyStr.is_space c = true ->
  PyStr.word n (w +:+ String c rest) = (w, PyStr.items n rest).
Proof.
  intros Hw Hc. induction w as [|x w IH].
  - rewrite append_nil_l, word_cons, Hc. reflexivity.
  - cbn [sysvpkg.blank_free] in Hw. apply andb_true_iff in Hw.
    destruct Hw as [Hx Hw]. apply negb_true_iff in Hx.
    rewrite append_cons, word_cons, Hx, (IH Hw). reflexivity.
Qed.

Lemma word_to_end n w :
  sysvpkg.blank_free w = true -> PyStr.word n w = (w, []).
Proof.
  induction w as [|x w IH]; [reflexivity|]. cbn [sysvpkg.blank_free].
  intros Hw. apply andb_true_iff in Hw.
  destruct Hw as [Hx Hw]. apply negb_true_iff in Hx.
  rewrite word_cons, Hx, (IH Hw). reflexivity.
Qed.

Lemma rstrip_app_keep chars p s :
  Py.rstrip chars s <> "" ->
  Py.rstrip chars (p +:+ s) = p +:+ Py.rstrip chars s.
Proof.
  intros Hs. induction p as [|c p IH]; [reflexivity|].
  rewrite !append_cons, rstrip_cons, IH.
  destruct p as [|d p].
  - rewrite append_nil_l. destruct (Py.rstrip chars s); [congruence | reflexivity].
  - rewrite append_cons. reflexivity.
Qed.

Lemma rstrip_blank_free w :
  sysvpkg.blank_free w = true -> Py.rstrip sysvpkg.newline w = w.
Proof.
  induction w as [|x w IH]; [reflexivity|]. cbn [sysvpkg.blank_free].
  intros Hw. apply andb_true_iff in Hw.
  destruct Hw as [Hx Hw]. apply negb_true_iff in Hx.
  rewrite (rstrip_plain _ _ Hx), (IH Hw). reflexivity.
Qed.

(** X21.  A prerequisite line, [P], a package name and a description, adds
    one dependency of the package of the pkginfo on the named package to
    those of the lines before it; the description plays no part. *)
Theorem readDependFile_prerequisite :
  forall pkginfo name fp pkg desc,
  pkginfo !! "PKG" = Some name ->
  pkg <> "" ->
  sysvpkg.blank_free pkg = true ->
  sysvpkg.starts_word desc = true ->
  sysvpkg.readDependFile false pkginfo
    (inr (fp ++ ["P " +:+ pkg +:+ " " +:+ desc +:+ sysvpkg.newline]))
  = sysvpkg.and_then (sysvpkg.readDependFile false pkginfo (inr fp))
      (fun deps =>
         sysvpkg.Done
           (deps ++ [{| sysvpkg.host_pkg := name;
                        sysvpkg.depends_on := pkg |}])).
Proof.
  intros pkginfo name fp pkg desc Hname Hne Hpkg Hdesc.
  unfold sysvpkg.readDependFile. rewrite for_lines_app.
  destruct (sysvpkg.for_lines _ fp []) as [deps|e]; [|reflexivity].
  cbn [sysvpkg.and_then sysvpkg.for_lines]. cbv zeta.
  destruct desc as [|d r]; [discriminate|].
  cbn [sysvpkg.starts_word] in Hdesc. apply negb_true_iff in Hdesc.
  assert (Hline : Py.rstrip sysvpkg.newline
                    ("P " +:+ pkg +:+ " " +:+ String d r +:+ sysvpkg.newline)
                  = String "P" (String " " (pkg +:+
                      String " " (String d (Py.rstrip sysvpkg.newline r))))).
  { change ("P " +:+ pkg +:+ " " +:+ String d r +:+ sysvpkg.newline)
      with (String "P" (String " " (pkg +:+
              String " " (String d r +:+ sysvpkg.newline)))).
    assert (Hd : Py.rstrip sysvpkg.newline (String d r +:+ sysvpkg.newline)
                 = String d (Py.rstrip sysvpkg.newline r)).
    { unfold sysvpkg.newline at 2. rewrite rstrip_snoc_in by reflexivity.
      apply rstrip_plain, Hdesc. }
    replace (String "P" (String " " (pkg +:+
               String " " (String d r +:+ sysvpkg.newline))))
      with (("P " +:+ pkg +:+ " ") +:+ (String d r +:+ sysvpkg.newline))
      by (rewrite !append_assoc3; reflexivity).
    rewrite rstrip_app_keep by (rewrite Hd; discriminate).
    rewrite Hd, !append_assoc3. reflexivity. }
  rewrite Hline. cbn [sysvpkg.empty_or_starts Ascii.eqb Bool.eqb andb].
  assert (Hitems : PyStr.items 2
            (String "P" (String " " (pkg +:+
               String " " (String d (Py.rstrip sysvpkg.newline r)))))
          = ["P"; pkg; String d (Py.rstrip sysvpkg.newline r)]).
  { destruct pkg as [|c pkg]; [congruence|].
    cbn [sysvpkg.blank_free] in Hpkg. apply andb_true_iff in Hpkg.
    destruct Hpkg as [Hc Hpkg]. apply negb_true_iff in Hc.
    rewrite append_cons.
    cbn [PyStr.items PyStr.word]. rewrite Hc.
    assert (Hsp : PyStr.is_space " " = true) by reflexivity.
    assert (Hp : PyStr.is_space "P" = false) by reflexivity.
    rewrite Hsp, Hp, (word_to_blank _ _ _ _ Hpkg Hsp).
    cbn [PyStr.items]. rewrite Hdesc. reflexivity. }
  rewrite Hitems, Hname. reflexivity.
Qed.

Lemma readDependFile_prerequisite_witness :
  sysvpkg.readDependFile false (<["PKG" := sysvpkg.Str "SUNWcsd"]> ∅)
    (inr (["# prerequisites"]
          ++ ["P " +:+ "SUNWcar" +:+ " " +:+ "Core Architecture, (Root)"
                   +:+ sysvpkg.newline]))
  = sysvpkg.and_then
      (sysvpkg.readDependFile false (<["PKG" := sysvpkg.Str "SUNWcsd"]> ∅)
         (inr ["# prerequisites"]))
      (fun deps =>
         sysvpkg.Done
           (deps ++ [{| sysvpkg.host_pkg := sysvpkg.Str "SUNWcsd";
                        sysvpkg.depends_on := "SUNWcar" |}])).
Proof.
  apply (readDependFile_prerequisite (<["PKG" := sysvpkg.Str "SUNWcsd"]> ∅)
           (sysvpkg.Str "SUNWcsd") ["# prerequisites"] "SUNWcar"
           "Core Architecture, (Root)");
    [reflexivity | discriminate | reflexivity | reflexivity].
Defined.

(** X22.  A prerequisite line without a description stops the reading of a
    depend file: its unpacking into three names raises, whether or not the
    pkginfo names the package. *)
Theorem readDependFile_no_description :
  forall pkginfo a pkg b deps,
  sysvpkg.readDependFile false pkginfo (inr a) = sysvpkg.Done deps ->
  sysvpkg.blank_free pkg = true ->
  sysvpkg.readDependFile false pkginfo
    (inr (a ++ ("P " +:+ pkg +:+ sysvpkg.newline) :: b))
  = sysvpkg.Fail sysvpkg.UnpackError.
Proof.
  intros pkginfo a pkg b deps Ha Hpkg. unfold sysvpkg.readDependFile in *.
  rewrite for_lines_app, Ha.
  cbn [sysvpkg.and_then sysvpkg.for_lines]. cbv zeta.
  assert (Hline : Py.rstrip sysvpkg.newline ("P " +:+ pkg +:+ sysvpkg.newline)
                  = String "P" (String " " pkg)).
  { change ("P " +:+ pkg +:+ sysvpkg.newline)
      with (String "P" (String " " (pkg +:+ sysvpkg.newline))).
    rewrite !rstrip_cons_out by reflexivity.
    unfold sysvpkg.newline at 2. rewrite rstrip_snoc_in by reflexivity.
    rewrite (rstrip_blank_free _ Hpkg). reflexivity. }
  rewrite Hline. cbn [sysvpkg.empty_or_starts Ascii.eqb Bool.eqb andb].
  assert (Hitems : PyStr.items 2 (String "P" (String " " pkg)) = ["P"]
                   \/ PyStr.items 2 (String "P" (String " " pkg)) = ["P"; pkg]).
  { destruct pkg as [|c pkg]; [left; reflexivity | right].
    cbn [sysvpkg.blank_free] in Hpkg. apply andb_true_iff in Hpkg.
    destruct Hpkg as [Hc Hpkg]. apply negb_true_iff in Hc.
    cbn [PyStr.items PyStr.word].
    assert (Hsp : PyStr.is_space " " = true) by reflexivity.
    assert (Hp : PyStr.is_space "P" = false) by reflexivity.
    rewrite Hsp, Hp, Hc, (word_to_end _ _ Hpkg). reflexivity. }
  destruct Hitems as [-> | ->]; reflexivity.
Qed.

Lemma readDependFile_no_description_witness :
  sysvpkg.readDependFile false ∅
    (inr (["# prerequisites"] ++ ("P " +:+ "SUNWcar" +:+ sysvpkg.newline) :: []))
  = sysvpkg.Fail sysvpkg.UnpackError.
Proof.
  apply (readDependFile_no_description ∅ ["# prerequisites"] "SUNWcar" [] []);
    reflexivity.
Defined.

(** ** [flavor/python.py] *)

Lemma literal_inv p s r : flavor_python.literal p s = Some r -> s = p +:+ r.
Proof.
  revert s. induction p as [|d p IH]; intros s H.
  - cbn in H. injection H as ->. reflexivity.
  - destruct s as [|c s]; [discriminate|]. cbn [flavor_python.literal] in H.
    destruct (Ascii.eqb c d) eqn:Hc; [|discriminate].
    apply Ascii.eqb_eq in Hc. subst c. rewrite append_cons, <- (IH _ H).
    reflexivity.
Qed.

Lemma literal_app p r : flavor_python.literal p (p +:+ r) = Some r.
Proof.
  induction p as [|d p IH]; [destruct r; reflexivity|].
  rewrite append_cons. cbn [flavor_python.literal].
  rewrite Ascii.eqb_refl. exact IH.
Qed.

Lemma take_digits_cons c r :
  flavor_python.take_digits (String c r)
  = if flavor_python.is_digit c
    then let '(d, rest) := flavor_python.take_digits r in (String c d, rest)
    else ("", String c r).
Proof. reflexivity. Qed.

Lemma take_digits_inv s d r :
  flavor_python.take_digits s = (d, r) ->
  s = d +:+ r /\ flavor_python.all_digits d = true
  /\ flavor_python.ends_number r = true.
Proof.
  revert d r. induction s as [|c s IH]; intros d r H.
  - cbn in H. injection H as <- <-. repeat split.
  - rewrite take_digits_cons in H.
    destruct (flavor_python.is_digit c) eqn:Hc.
    + destruct (flavor_python.take_digits s) as [d' r'].
      injection H as <- <-. destruct (IH d' r' eq_refl) as [-> [Hd Hr]].
      rewrite append_cons. cbn [flavor_python.all_digits]. rewrite Hc, Hd.
      repeat split. exact Hr.
    + injection H as <- <-. cbn [flavor_python.ends_number].
      rewrite Hc. repeat split.
Qed.

Lemma take_digits_app d r :
  flavor_python.all_digits d = true ->
  flavor_python.ends_number r = true ->
  flavor_python.take_digits (d +:+ r) = (d, r).
Proof.
  intros Hd Hr. induction d as [|c d IH].
  - rewrite append_nil_l. destruct r as [|x r]; [reflexivity|].
    cbn [flavor_python.ends_number] in Hr. apply negb_true_iff in Hr.
    rewrite take_digits_cons, Hr. reflexivity.
  - cbn [flavor_python.all_digits] in Hd. apply andb_true_iff in Hd.
    destruct Hd as [Hc Hd].
    rewrite append_cons, take_digits_cons, Hc, (IH Hd). reflexivity.
Qed.

Lemma numeral_split s :
  flavor_python.numeral s = true <->
  s <> "" /\ flavor_python.all_digits s = true.
Proof.
  unfold flavor_python.numeral. rewrite andb_true_iff, negb_true_iff.
  destruct s; cbn [Py.is_empty]; intuition congruence.
Qed.

Lemma version_iff s major minor rest :
  flavor_python.version s = Some (major, minor, rest) <->
  flavor_python.numeral major = true /\ flavor_python.numeral minor = true
  /\ flavor_python.ends_number rest = true
  /\ s = major +:+ "." +:+ minor +:+ rest.
Proof.
  unfold flavor_python.version. split.
  - destruct (flavor_python.take_digits s) as [d r] eqn:Hd.
    apply take_digits_inv in Hd. destruct Hd as [-> [Hd _]].
    destruct d as [|c d]; [discriminate|]. cbn [Py.is_empty].
    destruct (flavor_python.literal "." r) as [r1|] eqn:Hl; [|discriminate].
    apply literal_inv in Hl. subst r.
    destruct (flavor_python.take_digits r1) as [d2 r2] eqn:Hd2.
    apply take_digits_inv in Hd2. destruct Hd2 as [-> [Hd2 Hr2]].
    destruct d2 as [|c2 d2]; [discriminate|]. cbn [Py.is_empty].
    intros [= <- <- <-]. rewrite !numeral_split.
    repeat split; try discriminate; assumption.
  - rewrite !numeral_split. intros [[Hne1 Hd1] [[Hne2 Hd2] [Hr ->]]].
    rewrite take_digits_app; [|exact Hd1|reflexivity].
    destruct major as [|c major]; [congruence|]. cbn [Py.is_empty].
    rewrite literal_app, (take_digits_app _ _ Hd2 Hr).
    destruct minor as [|c2 minor]; [congruence|]. reflexivity.
Qed.

(** X24.  The pattern of the installation path matches exactly the paths
    that start with [usr/lib/python], a numeral, a dot, a numeral and a
    slash, and its groups are the two numerals. *)
Theorem py_lib_re_matches :
  forall path major minor,
  flavor_python.py_lib_re path = Some (major, minor) <->
  flavor_python.numeral major = true /\ flavor_python.numeral minor = true
  /\ exists rest,
       path = "usr/lib/python" +:+ major +:+ "." +:+ minor +:+ "/" +:+ rest.
Proof.
  intros path major minor. unfold flavor_python.py_lib_re. split.
  - destruct (flavor_python.literal "usr/lib/python" path) as [s|] eqn:Hl;
      [|discriminate].
    apply literal_inv in Hl. subst path.
    destruct (flavor_python.version s) as [[[M m] r]|] eqn:Hv; [|discriminate].
    apply version_iff in Hv. destruct Hv as [HM [Hm [_ ->]]].
    destruct (flavor_python.literal "/" r) as [rest|] eqn:Hr; [|discriminate].
    apply literal_inv in Hr. subst r. intros [= <- <-].
    split; [exact HM|]. split; [exact Hm|]. exists rest. reflexivity.
  - intros [HM [Hm [rest ->]]]. rewrite literal_app.
    assert (Hv : flavor_python.version (major +:+ "." +:+ minor +:+ "/" +:+ rest)
                 = Some (major, minor, "/" +:+ rest)).
    { apply version_iff. repeat split; assumption. }
    rewrite Hv, literal_app. reflexivity.
Qed.

Lemma lstrip_blanks s :
  exists blanks,
    flavor_python.all_blank blanks = true
    /\ s = blanks +:+ Py.lstrip whitespace s.
Proof.
  induction s as [|c s [b [Hb Hs]]]; [exists ""; split; reflexivity|].
  cbn [Py.lstrip]. destruct (Py.mem c whitespace) eqn:Hc.
  - exists (String c b). cbn [flavor_python.all_blank]. unfold PyStr.is_space.
    rewrite Hc, Hb, append_cons, <- Hs. split; reflexivity.
  - exists "". split; reflexivity.
Qed.

Lemma lstrip_blank_app blanks c r :
  flavor_python.all_blank blanks = true ->
  PyStr.is_space c = false ->
  Py.lstrip whitespace (blanks +:+ String c r) = String c r.
Proof.
  intros Hb Hc. induction blanks as [|x b IH].
  - rewrite append_nil_l. apply lstrip_plain, Hc.
  - cbn [flavor_python.all_blank] in Hb. apply andb_true_iff in Hb.
    destruct Hb as [Hx Hb]. rewrite append_cons. cbn [Py.lstrip].
    unfold PyStr.is_space in Hx. rewrite Hx. exact (IH Hb).
Qed.

(** X25.  The pattern of the first line matches exactly the lines made of
    [#!], blanks if any, [/usr/bin/python], a numeral, a dot and a numeral
    that no digit follows; its groups are the two numerals, the minor one
    as long as it can be. *)
Theorem py_bin_re_matches :
  forall line major minor,
  flavor_python.py_bin_re line = Some (major, minor) <->
  flavor_python.numeral major = true /\ flavor_python.numeral minor = true
  /\ exists blanks rest,
       flavor_python.all_blank blanks = true
       /\ flavor_python.ends_number rest = true
       /\ line = "#!" +:+ blanks +:+ "/usr/bin/python"
                      +:+ major +:+ "." +:+ minor +:+ rest.
Proof.
  intros line major minor. unfold flavor_python.py_bin_re. split.
  - destruct (flavor_python.literal "#!" line) as [s|] eqn:Hl; [|discriminate].
    apply literal_inv in Hl. subst line.
    destruct (lstrip_blanks s) as [blanks [Hb Hs]].
    destruct (flavor_python.literal "/usr/bin/python" (Py.lstrip whitespace s))
      as [s1|] eqn:Hl1; [|discriminate].
    apply literal_inv in Hl1. rewrite Hl1 in Hs. subst s.
    destruct (flavor_python.version s1) as [[[M m] r]|] eqn:Hv; [|discriminate].
    apply version_iff in Hv. destruct Hv as [HM [Hm [Hr ->]]].
    intros [= <- <-].
    split; [exact HM|]. split; [exact Hm|]. exists blanks, r.
    split; [exact Hb|]. split; [exact Hr|]. reflexivity.
  - intros [HM [Hm [blanks [rest [Hb [Hr ->]]]]]]. rewrite literal_app.
    change ("/usr/bin/python" +:+ major +:+ "." +:+ minor +:+ rest)
      with (String "/" ("usr/bin/python" +:+ major +:+ "." +:+ minor +:+ rest)).
    rewrite (lstrip_blank_app _ _ _ Hb) by reflexivity.
    change (String "/" ("usr/bin/python" +:+ major +:+ "." +:+ minor +:+ rest))
      with ("/usr/bin/python" +:+ major +:+ "." +:+ minor +:+ rest).
    rewrite literal_app.
    assert (Hv : flavor_python.version (major +:+ "." +:+ minor +:+ rest)
                 = Some (major, minor, rest)).
    { apply version_iff. repeat split; assumption. }
    rewrite Hv. reflexivity.
Qed.

Lemma digits_value_total s acc :
  flavor_python.all_digits s = true ->
  exists n, flavor_python.digits_value acc s = Some n.
Proof.
  revert acc. induction s as [|c s IH]; intros acc H; [exists acc; reflexivity|].
  cbn [flavor_python.all_digits] in H. apply andb_true_iff in H.
  destruct H as [Hc Hs]. cbn [flavor_python.digits_value]. rewrite Hc.
  apply IH, Hs.
Qed.

Lemma int_numeral s :
  flavor_python.numeral s = true -> exists n, flavor_python.int s = Ok n.
Proof.
  intros H. apply numeral_split in H. destruct H as [Hne Hd].
  destruct (digits_value_total s 0 Hd) as [n Hn].
  exists n. unfold flavor_python.int. rewrite Hn.
  destruct s; [congruence | reflexivity].
Qed.

Lemma py_lib_re_numerals path major minor :
  flavor_python.py_lib_re path = Some (major, minor) ->
  flavor_python.numeral major = true /\ flavor_python.numeral minor = true.
Proof.
  unfold flavor_python.py_lib_re.
  destruct (flavor_python.literal "usr/lib/python" path) as [s|]; [|discriminate].
  destruct (flavor_python.version s) as [[[M m] r]|] eqn:Hv; [|discriminate].
  apply version_iff in Hv. destruct Hv as [HM [Hm _]].
  destruct (flavor_python.literal "/" r); [|discriminate].
  intros [= <- <-]. split; assumption.
Qed.

Lemma py_bin_re_numerals line major minor :
  flavor_python.py_bin_re line = Some (major, minor) ->
  flavor_python.numeral major = true /\ flavor_python.numeral minor = true.
Proof.
  unfold flavor_python.py_bin_re.
  destruct (flavor_python.literal "#!" line) as [s|]; [|discriminate].
  destruct (flavor_python.literal "/usr/bin/python" (Py.lstrip whitespace s))
    as [s1|]; [|discriminate].
  destruct (flavor_python.version s1) as [[[M m] r]|] eqn:Hv; [|discriminate].
  apply version_iff in Hv. destruct Hv as [HM [Hm _]].
  intros [= <- <-]. split; assumption.
Qed.

(** X23.  The function does what the table in its comment says: with the
    two attributes it reads in place, it raises nothing, and it goes on to
    the analysis exactly in the rows marked [Y]; the version of the
    directory is the one used whenever the directory gives one; and a
    warning is left only for an executable file, whose directory and first
    line both give a version or both give none. *)
Theorem process_python_dependencies_table :
  forall key attrs script_path local_file path,
  attrs !! key = Some local_file ->
  attrs !! "path" = Some path ->
  exists d,
    flavor_python.process_python_dependencies key attrs script_path = Ok d
    /\ flavor_python.analyzed d
       = flavor_python.table (flavor_python.truthy script_path)
           (flavor_python.matched (flavor_python.py_lib_re path))
           (flavor_python.matched (flavor_python.first_line script_path))
    /\ (forall major minor,
          flavor_python.py_lib_re path = Some (major, minor) ->
          exists M m,
            flavor_python.int major = Ok M /\ flavor_python.int minor = Ok m
            /\ d = flavor_python.Analyze M m (flavor_python.errors d))
    /\ (flavor_python.errors d <> [] ->
          flavor_python.truthy script_path = true
          /\ flavor_python.matched (flavor_python.py_lib_re path)
             = flavor_python.matched (flavor_python.first_line script_path)).
Proof.
  intros key attrs script_path local_file path Hk Hp.
  unfold flavor_python.process_python_dependencies. rewrite Hk, Hp.
  destruct (flavor_python.py_lib_re path) as [[dM dm]|] eqn:Hlib.
  - destruct (py_lib_re_numerals _ _ _ Hlib) as [HM Hm].
    destruct (int_numeral _ HM) as [M HMi], (int_numeral _ Hm) as [m Hmi].
    destruct script_path as [[|c r]|];
      cbn [flavor_python.truthy flavor_python.first_line].
    + rewrite HMi, Hmi. eexists. split; [reflexivity|].
      split; [reflexivity|]. split.
      * intros ? ? [= <- <-]. exists M, m. repeat split; assumption.
      * intros H. exfalso. apply H. reflexivity.
    + destruct (flavor_python.py_bin_re (String c r)) as [[fM fm]|] eqn:Hbin;
        rewrite HMi, Hmi; (eexists; split; [reflexivity|]);
        (split; [reflexivity|]); (split;
          [intros ? ? [= <- <-]; exists M, m; repeat split; assumption|]).
      * intros _. split; reflexivity.
      * intros H. exfalso. apply H. reflexivity.
    + rewrite HMi, Hmi. eexists. split; [reflexivity|].
      split; [reflexivity|]. split.
      * intros ? ? [= <- <-]. exists M, m. repeat split; assumption.
      * intros H. exfalso. apply H. reflexivity.
  - destruct script_path as [[|c r]|];
      cbn [flavor_python.truthy flavor_python.first_line].
    + eexists. split; [reflexivity|]. split; [reflexivity|].
      split; [intros; discriminate|]. intros H. exfalso. apply H. reflexivity.
    + destruct (flavor_python.py_bin_re (String c r)) as [[fM fm]|] eqn:Hbin.
      * destruct (py_bin_re_numerals _ _ _ Hbin) as [HM Hm].
        destruct (int_numeral _ HM) as [M HMi], (int_numeral _ Hm) as [m Hmi].
        rewrite HMi, Hmi. eexists. split; [reflexivity|].
        split; [reflexivity|]. split; [intros; discriminate|].
        intros H. exfalso. apply H. reflexivity.
      * eexists. split; [reflexivity|]. split; [reflexivity|].
        split; [intros; discriminate|]. intros _. split; reflexivity.
    + eexists. split; [reflexivity|]. split; [reflexivity|].
      split; [intros; discriminate|]. intros H. exfalso. apply H. reflexivity.
Qed.

Lemma process_python_dependencies_table_witness :
  exists d,
    flavor_python.process_python_dependencies "local_path"
      (<["local_path" := "/proto/usr/lib/python2.6/a.py"]>
         (<["path" := "usr/lib/python2.6/a.py"]> ∅))
      (Some "#!/usr/bin/python2.4") = Ok d
    /\ flavor_python.analyzed d
       = flavor_python.table (flavor_python.truthy (Some "#!/usr/bin/python2.4"))
           (flavor_python.matched
              (flavor_python.py_lib_re "usr/lib/python2.6/a.py"))
           (flavor_python.matched
              (flavor_python.first_line (Some "#!/usr/bin/python2.4")))
    /\ (forall major minor,
          flavor_python.py_lib_re "usr/lib/python2.6/a.py" = Some (major, minor) ->
          exists M m,
            flavor_python.int major = Ok M /\ flavor_python.int minor = Ok m
            /\ d = flavor_python.Analyze M m (flavor_python.errors d))
    /\ (flavor_python.errors d <> [] ->
          flavor_python.truthy (Some "#!/usr/bin/python2.4") = true
          /\ flavor_python.matched
               (flavor_python.py_lib_re "usr/lib/python2.6/a.py")
             = flavor_python.matched
                 (flavor_python.first_line (Some "#!/usr/bin/python2.4"))).
Proof.
  apply (process_python_dependencies_table "local_path"
           (<["local_path" := "/proto/usr/lib/python2.6/a.py"]>
              (<["path" := "usr/lib/python2.6/a.py"]> ∅))
           (Some "#!/usr/bin/python2.4")
           "/proto/usr/lib/python2.6/a.py" "usr/lib/python2.6/a.py");
    reflexivity.
Defined.

Lemma py_lib_re_matches_witness :
  flavor_python.py_lib_re
    ("usr/lib/python" +:+ "2" +:+ "." +:+ "6" +:+ "/" +:+ "vendor-packages/a.py")
  = Some ("2", "6").
Proof.
  apply (proj2 (py_lib_re_matches
                  ("usr/lib/python" +:+ "2" +:+ "." +:+ "6" +:+ "/"
                     +:+ "vendor-packages/a.py") "2" "6")).
  split; [reflexivity|]. split; [reflexivity|].
  exists "vendor-packages/a.py". reflexivity.
Defined.

Lemma py_bin_re_matches_witness :
  flavor_python.numeral "2" = true /\ flavor_python.numeral "4" = true
  /\ exists blanks rest,
       flavor_python.all_blank blanks = true
       /\ flavor_python.ends_number rest = true
       /\ "#! /usr/bin/python2.4 -E"
          = "#!" +:+ blanks +:+ "/usr/bin/python" +:+ "2" +:+ "." +:+ "4" +:+ rest.
Proof.
  apply (proj1 (py_bin_re_matches "#! /usr/bin/python2.4 -E" "2" "4")).
  reflexivity.
Defined.
